(** * MicroStack clustering: the trust-bootstrap protocol

    A shallow embedding of the token issuer ([cluster/add_compute.py]), the
    token validation of the joining node ([init/questions/clustering.py]),
    the certificate provisioner ([init/cluster_tls.py]), the join client
    ([cluster/client.py]) and the join server ([cluster/daemon.py]).

    Python values are an inductive type, exceptions are an explicit result
    type, text is a list of code points and [bytes] is a list of [byte].
    The libraries the code calls (base64, msgpack, UTF-8 codec,
    [bytes.hex]/[bytes.fromhex]) are modelled at the level of their wire
    formats; network peers, netaddr, the semantic version parser, the JSON
    parser, Keystone and the cryptography primitives are parameters.

    Embedded as well: the role and address questions of
    [init/questions/clustering.py], the [cidr] of [default_network]
    ([init/shell.py]) and [generate_password] ([init/credentials.py]). *)

From Stdlib Require Import ZArith NArith List String Ascii Lia Bool.
From Stdlib Require Import DecimalString.
From Stdlib.Strings Require Import Byte.
From stdpp Require Import base option list gmap strings.

Set Warnings "-register-all".
Open Scope N_scope.

(** Linear arithmetic with division and remainder by constants. *)
Ltac nlia := zify; Z.to_euclidean_division_equations; lia.

(* ================================================================== *)
(** ** Python values, exceptions and results *)
(* ================================================================== *)

Module Py.

(** A Python [str]: its code points, in order. *)
Definition pystr := list N.

(** A literal of the source text (ASCII). *)
Definition str (s : string) : pystr :=
  map (fun a => N_of_ascii a) (list_ascii_of_string s).

(** [s.split('.')] *)
Definition split_dots (s : pystr) : list pystr :=
  fold_right (fun c acc =>
                if c =? 46 then [] :: acc
                else match acc with
                     | [] => [[c]]
                     | l :: acc' => (c :: l) :: acc'
                     end) [[]] s.

(** [l.startswith(p)] on characters. *)
Fixpoint starts_with (p l : list ascii) : bool :=
  match p, l with
  | [], _ => true
  | a :: p', b :: l' => bool_decide (a = b) && starts_with p' l'
  | _ :: _, [] => false
  end.

(** Keys of a dictionary: [str] or [bytes]. *)
Inductive pykey :=
| KStr (s : pystr)
| KBytes (b : list byte).

(** The Python objects that travel through the protocol.  A [float] keeps
    its IEEE-754 big-endian image, an extension object its code and
    payload. *)
Inductive pyval :=
| PyNone
| PyBool (b : bool)
| PyInt (z : Z)
| PyFloat (bits : list byte)
| PyStr (s : pystr)
| PyBytes (b : list byte)
| PyList (l : list pyval)
| PyDict (d : list (pykey * pyval))
| PyExt (code : byte) (data : list byte).

#[global] Instance byte_eq_dec : EqDecision byte := Byte.byte_eq_dec.

#[global] Instance pykey_eq_dec : EqDecision pykey.
Proof. solve_decision. Defined.

(** The exception classes that occur, with their place in the hierarchy. *)
Inductive exn_class :=
| Exception
| TypeError
| AttributeError
| KeyError
| ValueError
| UnicodeEncodeError
| UnicodeDecodeError
| BinasciiError
| ExtraData
| FormatError
| StackError
| OverflowError
| CalledProcessError
| InvalidAnswer.

#[global] Instance exn_class_eq_dec : EqDecision exn_class.
Proof. solve_decision. Defined.

(** Method resolution order: the class and all its bases. *)
Definition mro (c : exn_class) : list exn_class :=
  match c with
  | Exception => [Exception]
  | TypeError => [TypeError; Exception]
  | AttributeError => [AttributeError; Exception]
  | KeyError => [KeyError; Exception]
  | ValueError => [ValueError; Exception]
  | UnicodeEncodeError => [UnicodeEncodeError; ValueError; Exception]
  | UnicodeDecodeError => [UnicodeDecodeError; ValueError; Exception]
  | BinasciiError => [BinasciiError; ValueError; Exception]
  | ExtraData => [ExtraData; ValueError; Exception]
  | FormatError => [FormatError; ValueError; Exception]
  | StackError => [StackError; ValueError; Exception]
  | OverflowError => [OverflowError; Exception]
  | CalledProcessError => [CalledProcessError; Exception]
  | InvalidAnswer => [InvalidAnswer; Exception]
  end.

(** What a [ValueError] of the validators says ([str(e)]). *)
Inductive reason :=
| NoDetail
| AddressMissing               (* An address has not been provided. *)
| AddressInvalid (a : pyval)   (* {address} is not a valid IPv4 or IPv6 address. *)
| HostnameMissing              (* A hostname has not been provided. *)
| HostnameEmpty                (* An empty hostname is invalid. *)
| HostnameTooLong              (* The specified hostname is too long. *)
| HostnameNumericTld (h : pyval)
| HostnameInvalid              (* {hostname} is an invalid hostname. *)
| FingerprintLength (actual expected : N)
| CredentialIdMissing          (* A credential id has not been provided. *)
| CredentialIdLength (actual expected : N)
| CredentialSecretMissing      (* A credential secret has not been provided. *)
| CredentialSecretLength (actual expected : N).

Record exn := Exn { exn_cls : exn_class; exn_reason : reason }.

Definition isinstance (e : exn) (c : exn_class) : bool :=
  bool_decide (c ∈ mro (exn_cls e)).

(** The outcome of a call: a value, or an exception on its way up. *)
Inductive result (A : Type) :=
| Return (a : A)
| Raise (e : exn).
Arguments Return {A} a.
Arguments Raise {A} e.

Definition bind {A B} (r : result A) (k : A -> result B) : result B :=
  match r with
  | Return a => k a
  | Raise e => Raise e
  end.

Definition raise {A} (c : exn_class) : result A := Raise (Exn c NoDetail).
Definition raise_with {A} (c : exn_class) (r : reason) : result A := Raise (Exn c r).

(** [len(x)] *)
Definition len (v : pyval) : result N :=
  match v with
  | PyStr s => Return (N.of_nat (length s))
  | PyBytes b => Return (N.of_nat (length b))
  | PyList l => Return (N.of_nat (length l))
  | PyDict d => Return (N.of_nat (length d))
  | _ => raise TypeError
  end.

(** [d[k] = v] on the entries of a dictionary, in insertion order. *)
Fixpoint dict_set (k : pykey) (v : pyval) (d : list (pykey * pyval))
  : list (pykey * pyval) :=
  match d with
  | [] => [(k, v)]
  | (k', v') :: d' =>
      if decide (k' = k) then (k', v) :: d' else (k', v') :: dict_set k v d'
  end.

Fixpoint dict_lookup (k : pykey) (d : list (pykey * pyval)) : option pyval :=
  match d with
  | [] => None
  | (k', v') :: d' => if decide (k' = k) then Some v' else dict_lookup k d'
  end.

(** [x.get(k)]: only a dictionary has the method. *)
Definition get (x : pyval) (k : pystr) : result pyval :=
  match x with
  | PyDict d => Return (default PyNone (dict_lookup (KStr k) d))
  | _ => raise AttributeError
  end.

(** [x[k]] with a [str] key. *)
Definition getitem (x : pyval) (k : pystr) : result pyval :=
  match x with
  | PyDict d =>
      match dict_lookup (KStr k) d with
      | Some v => Return v
      | None => raise KeyError
      end
  | _ => raise TypeError
  end.

(** Python truth value of a float image: zero (of either sign) is false. *)
Definition float_is_zero (bits : list byte) : bool :=
  match bits with
  | [] => true
  | b :: rest =>
      (Byte.to_N b mod 128 =? 0) && forallb (fun x => Byte.to_N x =? 0) rest
  end.

(** [bool(x)] *)
Definition truthy (v : pyval) : bool :=
  match v with
  | PyNone => false
  | PyBool b => b
  | PyInt z => negb (z =? 0)%Z
  | PyFloat bits => negb (float_is_zero bits)
  | PyStr s => negb (bool_decide (s = []))
  | PyBytes b => negb (bool_decide (b = []))
  | PyList l => match l with [] => false | _ => true end
  | PyDict d => match d with [] => false | _ => true end
  | PyExt _ _ => true
  end.

End Py.

Notation "'let*' x ':=' c 'in' k" := (Py.bind c (fun x => k))
  (at level 10, x pattern, c at level 100, k at level 200).

(* ================================================================== *)
(** ** Bytes *)
(* ================================================================== *)

Module Bytes.

(** The byte with the given value, reduced modulo 256 as a store to an
    8-bit cell does. *)
Definition of_N (n : N) : byte :=
  match Byte.of_N (n mod 256) with
  | Some b => b
  | None => x00
  end.

Definition all : list byte := map of_N (map N.of_nat (seq 0 256)).

(** Big-endian unsigned integer of [k] bytes. *)
Fixpoint be_encode (k : nat) (n : N) : list byte :=
  match k with
  | O => []
  | S k' => of_N (n / 256 ^ N.of_nat k') :: be_encode k' n
  end.

Definition be_decode (bs : list byte) : N :=
  fold_left (fun acc b => acc * 256 + Byte.to_N b) bs 0.

(** The first [n] bytes and what follows them, when there are that many. *)
Definition split_at (n : N) (bs : list byte) : option (list byte * list byte) :=
  if N.of_nat (length bs) <? n then None
  else Some (firstn (N.to_nat n) bs, skipn (N.to_nat n) bs).

End Bytes.

(* ================================================================== *)
(** ** Text codecs: ASCII, UTF-8, hexadecimal *)
(* ================================================================== *)

Module Codec.
Import Py.

(** [s.encode('ascii')] *)
Definition encode_ascii (s : pystr) : result (list byte) :=
  if forallb (fun c => c <? 128) s then Return (map Bytes.of_N s)
  else raise UnicodeEncodeError.

(** [b.decode('ascii')] *)
Definition decode_ascii (b : list byte) : result pystr :=
  if forallb (fun x => Byte.to_N x <? 128) b then Return (map Byte.to_N b)
  else raise UnicodeDecodeError.

(** UTF-8 image of one code point; surrogates and values above U+10FFFF
    have none. *)
Definition utf8_char (c : N) : option (list byte) :=
  if c <? 0x80 then Some [Bytes.of_N c]
  else if c <? 0x800 then
    Some [Bytes.of_N (0xC0 + c / 64); Bytes.of_N (0x80 + c mod 64)]
  else if c <? 0x10000 then
    if (0xD800 <=? c) && (c <=? 0xDFFF) then None
    else Some [Bytes.of_N (0xE0 + c / 4096);
               Bytes.of_N (0x80 + (c / 64) mod 64);
               Bytes.of_N (0x80 + c mod 64)]
  else if c <? 0x110000 then
    Some [Bytes.of_N (0xF0 + c / 262144);
          Bytes.of_N (0x80 + (c / 4096) mod 64);
          Bytes.of_N (0x80 + (c / 64) mod 64);
          Bytes.of_N (0x80 + c mod 64)]
  else None.

(** [s.encode('utf-8')] *)
Fixpoint encode_utf8 (s : pystr) : option (list byte) :=
  match s with
  | [] => Some []
  | c :: s' =>
      match utf8_char c, encode_utf8 s' with
      | Some bs, Some rest => Some (bs ++ rest)
      | _, _ => None
      end
  end.

(** Unicode scalar values, and text made of them: what UTF-8 can carry. *)
Definition scalar (c : N) : Prop :=
  c < 0xD800 \/ (0xDFFF < c /\ c < 0x110000).

Definition text (s : pystr) : Prop := Forall scalar s.

Definition is_cont (b : byte) : bool :=
  (0x80 <=? Byte.to_N b) && (Byte.to_N b <? 0xC0).

(** [b.decode('utf-8')], strict: shortest forms only, no surrogates. *)
Fixpoint decode_utf8 (bs : list byte) : option pystr :=
  match bs with
  | [] => Some []
  | b0 :: r0 =>
      let x0 := Byte.to_N b0 in
      if x0 <? 0x80 then option_map (cons x0) (decode_utf8 r0)
      else if x0 <? 0xC0 then None
      else match r0 with
      | [] => None
      | b1 :: r1 =>
        let x1 := Byte.to_N b1 in
        if negb (is_cont b1) then None
        else if x0 <? 0xE0 then
          let c := (x0 mod 32) * 64 + x1 mod 64 in
          if c <? 0x80 then None else option_map (cons c) (decode_utf8 r1)
        else match r1 with
        | [] => None
        | b2 :: r2 =>
          let x2 := Byte.to_N b2 in
          if negb (is_cont b2) then None
          else if x0 <? 0xF0 then
            let c := ((x0 mod 16) * 64 + x1 mod 64) * 64 + x2 mod 64 in
            if (c <? 0x800) || ((0xD800 <=? c) && (c <=? 0xDFFF)) then None
            else option_map (cons c) (decode_utf8 r2)
          else match r2 with
          | [] => None
          | b3 :: r3 =>
            let x3 := Byte.to_N b3 in
            if negb (is_cont b3) then None
            else if x0 <? 0xF8 then
              let c := (((x0 mod 8) * 64 + x1 mod 64) * 64 + x2 mod 64) * 64
                       + x3 mod 64 in
              if (c <? 0x10000) || (0x110000 <=? c) then None
              else option_map (cons c) (decode_utf8 r3)
            else None
          end
        end
      end
  end.

Definition hex_digit (n : N) : byte :=
  if n <? 10 then Bytes.of_N (48 + n) else Bytes.of_N (87 + n).

(** [b.hex()]: two lowercase digits per byte. *)
Fixpoint hex (b : list byte) : pystr :=
  match b with
  | [] => []
  | x :: b' =>
      Byte.to_N (hex_digit (Byte.to_N x / 16))
      :: Byte.to_N (hex_digit (Byte.to_N x mod 16)) :: hex b'
  end.

(** Value of a hexadecimal digit of either case. *)
Definition digit_value (c : N) : option N :=
  if (48 <=? c) && (c <=? 57) then Some (c - 48)
  else if (97 <=? c) && (c <=? 102) then Some (c - 87)
  else if (65 <=? c) && (c <=? 70) then Some (c - 55)
  else None.

(** ASCII white space: space, \t, \n, \v, \f, \r. *)
Definition is_space (c : N) : bool :=
  (c =? 32) || ((9 <=? c) && (c <=? 13)).

(** The scanner of [bytes.fromhex]: white space may separate the bytes,
    each byte is two digits. *)
Fixpoint fromhex_str (s : pystr) : option (list byte) :=
  match s with
  | [] => Some []
  | c :: s1 =>
      if is_space c then fromhex_str s1
      else match digit_value c, s1 with
      | Some top, d :: s2 =>
          match digit_value d with
          | Some bot => option_map (cons (Bytes.of_N (top * 16 + bot))) (fromhex_str s2)
          | None => None
          end
      | _, _ => None
      end
  end.

(** [bytes.fromhex(x)] *)
Definition fromhex (x : pyval) : result (list byte) :=
  match x with
  | PyStr s =>
      match fromhex_str s with
      | Some b => Return b
      | None => raise ValueError
      end
  | _ => raise TypeError
  end.

(** [fromhex] on the two digits [hex] writes for a byte, as a check that
    can be run on all bytes. *)
Definition hex_byte_facts (b : byte) : bool :=
  let x := Byte.to_N b in
  let hi := Byte.to_N (hex_digit (x / 16)) in
  let lo := Byte.to_N (hex_digit (x mod 16)) in
  negb (is_space hi)
  && bool_decide (digit_value hi = Some (x / 16))
  && bool_decide (digit_value lo = Some (x mod 16))
  && bool_decide (Bytes.of_N (x / 16 * 16 + x mod 16) = b).

End Codec.

(* ================================================================== *)
(** ** Base64 ([binascii], [base64], [oslo_serialization.base64]) *)
(* ================================================================== *)

Module Base64.
Import Py.

Definition alphabet : list byte :=
  list_byte_of_string
    "ABCDEFGHIJKLMNOPQRSTUVWXYZabcdefghijklmnopqrstuvwxyz0123456789+/".

Definition pad : byte := "=".

(** The character of a 6-bit value. *)
Definition b2a (n : N) : byte := nth (N.to_nat n) alphabet pad.

Fixpoint index_of (c : byte) (l : list byte) (i : N) : option N :=
  match l with
  | [] => None
  | x :: l' => if Byte.eqb x c then Some i else index_of c l' (N.succ i)
  end.

(** The 6-bit value of a character of the alphabet. *)
Definition a2b (c : byte) : option N := index_of c alphabet 0.

(** [binascii.b2a_base64(data, newline=False)] *)
Fixpoint b2a_base64 (bs : list byte) : list byte :=
  match bs with
  | [] => []
  | [a] =>
      let x := Byte.to_N a in
      [b2a (x / 4); b2a (x mod 4 * 16); pad; pad]
  | [a; b] =>
      let x := Byte.to_N a in
      let y := Byte.to_N b in
      [b2a (x / 4); b2a (x mod 4 * 16 + y / 16); b2a (y mod 16 * 4); pad]
  | a :: b :: c :: rest =>
      let x := Byte.to_N a in
      let y := Byte.to_N b in
      let z := Byte.to_N c in
      b2a (x / 4) :: b2a (x mod 4 * 16 + y / 16)
      :: b2a (y mod 16 * 4 + z / 64) :: b2a (z mod 64) :: b2a_base64 rest
  end.

(** The loop of [binascii.a2b_base64] in its default, lenient mode:
    characters outside the alphabet are skipped, padding ends the input
    once the current quad has two characters or more, and input that ends
    inside a quad is an error ([None]). *)
Fixpoint a2b_loop (cs : list byte) (quad_pos leftchar pads : N)
  : option (list byte) :=
  match cs with
  | [] => if quad_pos =? 0 then Some [] else None
  | this_ch :: cs' =>
      if Byte.eqb this_ch pad then
        if (2 <=? quad_pos) && (4 <=? quad_pos + (pads + 1)) then Some []
        else a2b_loop cs' quad_pos leftchar
               (if 2 <=? quad_pos then pads + 1 else pads)
      else match a2b this_ch with
      | None => a2b_loop cs' quad_pos leftchar pads
      | Some v =>
          match quad_pos with
          | 0 => a2b_loop cs' 1 v 0
          | 1 =>
              option_map
                (cons (Bytes.of_N (N.lor (N.shiftl leftchar 2) (N.shiftr v 4))))
                (a2b_loop cs' 2 (N.land v 0x0f) 0)
          | 2 =>
              option_map
                (cons (Bytes.of_N (N.lor (N.shiftl leftchar 4) (N.shiftr v 2))))
                (a2b_loop cs' 3 (N.land v 0x03) 0)
          | _ =>
              option_map
                (cons (Bytes.of_N (N.lor (N.shiftl leftchar 6) v)))
                (a2b_loop cs' 0 0 0)
          end
      end
  end.

(** [binascii.a2b_base64(data)] *)
Definition a2b_base64 (cs : list byte) : result (list byte) :=
  match a2b_loop cs 0 0 0 with
  | Some b => Return b
  | None => raise BinasciiError
  end.

(** [base64.b64decode(s)] for a [str] argument. *)
Definition b64decode (s : pystr) : result (list byte) :=
  match Codec.encode_ascii s with
  | Return b => a2b_base64 b
  | Raise _ => raise ValueError
  end.

(** [oslo_serialization.base64.encode_as_text(b)] for [bytes]. *)
Definition encode_as_text (b : list byte) : result pystr :=
  Codec.decode_ascii (b2a_base64 b).

(** [oslo_serialization.base64.decode_as_bytes(encoded)] for [bytes]:
    a [binascii.Error] leaves as a [TypeError]. *)
Definition decode_as_bytes (encoded : list byte) : result (list byte) :=
  let* text := Codec.decode_ascii encoded in
  match b64decode text with
  | Return b => Return b
  | Raise e => if isinstance e BinasciiError then raise TypeError else Raise e
  end.

(** The arithmetic of the decoder on the characters of one or two bytes,
    as a check that can be run on all of them. *)
Definition sextet_facts (a b : byte) : bool :=
  let x := Byte.to_N a in
  let y := Byte.to_N b in
  bool_decide (Bytes.of_N (N.lor (N.shiftl (x / 4) 2)
                 (N.shiftr (x mod 4 * 16 + y / 16) 4)) = a)
  && (N.land (x mod 4 * 16 + y / 16) 0x0f =? y / 16)
  && bool_decide (Bytes.of_N (N.lor (N.shiftl (x / 16) 4)
                 (N.shiftr (x mod 16 * 4 + y / 64) 2)) = a)
  && (N.land (x mod 16 * 4 + y / 64) 0x03 =? y / 64)
  && bool_decide (Bytes.of_N (N.lor (N.shiftl (x / 64) 6) (x mod 64)) = a)
  && bool_decide (Bytes.of_N (N.lor (N.shiftl (x / 4) 2)
                 (N.shiftr (x mod 4 * 16) 4)) = a)
  && bool_decide (Bytes.of_N (N.lor (N.shiftl (x / 16) 4)
                 (N.shiftr (x mod 16 * 4) 2)) = a)
  && (N.land (x mod 4 * 16) 0x0f =? 0)
  && (N.land (x mod 16 * 4) 0x03 =? 0).

End Base64.

(* ================================================================== *)
(** ** MessagePack ([msgpack], [oslo_serialization.msgpackutils]) *)
(* ================================================================== *)

Module Msgpack.
Import Py.

Definition str_header (n : N) : result (list byte) :=
  if n <? 32 then Return [Bytes.of_N (0xa0 + n)]
  else if n <? 256 then Return [xd9; Bytes.of_N n]
  else if n <? 65536 then Return (xda :: Bytes.be_encode 2 n)
  else if n <? 2 ^ 32 then Return (xdb :: Bytes.be_encode 4 n)
  else raise ValueError.

Definition bin_header (n : N) : result (list byte) :=
  if n <? 256 then Return [xc4; Bytes.of_N n]
  else if n <? 65536 then Return (xc5 :: Bytes.be_encode 2 n)
  else if n <? 2 ^ 32 then Return (xc6 :: Bytes.be_encode 4 n)
  else raise ValueError.

Definition array_header (n : N) : result (list byte) :=
  if n <? 16 then Return [Bytes.of_N (0x90 + n)]
  else if n <? 65536 then Return (xdc :: Bytes.be_encode 2 n)
  else if n <? 2 ^ 32 then Return (xdd :: Bytes.be_encode 4 n)
  else raise ValueError.

Definition map_header (n : N) : result (list byte) :=
  if n <? 16 then Return [Bytes.of_N (0x80 + n)]
  else if n <? 65536 then Return (xde :: Bytes.be_encode 2 n)
  else if n <? 2 ^ 32 then Return (xdf :: Bytes.be_encode 4 n)
  else raise ValueError.

Definition ext_header (n : N) (code : byte) : result (list byte) :=
  if n =? 1 then Return [xd4; code]
  else if n =? 2 then Return [xd5; code]
  else if n =? 4 then Return [xd6; code]
  else if n =? 8 then Return [xd7; code]
  else if n =? 16 then Return [xd8; code]
  else if n <? 256 then Return [xc7; Bytes.of_N n; code]
  else if n <? 65536 then Return (xc8 :: Bytes.be_encode 2 n ++ [code])
  else if n <? 2 ^ 32 then Return (xc9 :: Bytes.be_encode 4 n ++ [code])
  else raise ValueError.

(** A [str] goes out as its UTF-8 image. *)
Definition pack_str (s : pystr) : result (list byte) :=
  match Codec.encode_utf8 s with
  | None => raise UnicodeEncodeError
  | Some b =>
      let* h := str_header (N.of_nat (length b)) in
      Return (h ++ b)
  end.

(** [bytes] go out in the bin family ([use_bin_type=True]). *)
Definition pack_bin (b : list byte) : result (list byte) :=
  let* h := bin_header (N.of_nat (length b)) in
  Return (h ++ b).

(** An [int] goes out in the shortest format that holds it. *)
Definition pack_int (z : Z) : result (list byte) :=
  if (z <? -(2 ^ 63))%Z then raise OverflowError
  else if (z <? -(2 ^ 31))%Z then
    Return (xd3 :: Bytes.be_encode 8 (Z.to_N (z + 2 ^ 64)))
  else if (z <? -(2 ^ 15))%Z then
    Return (xd2 :: Bytes.be_encode 4 (Z.to_N (z + 2 ^ 32)))
  else if (z <? -(2 ^ 7))%Z then
    Return (xd1 :: Bytes.be_encode 2 (Z.to_N (z + 2 ^ 16)))
  else if (z <? -32)%Z then Return [xd0; Bytes.of_N (Z.to_N (z + 256))]
  else if (z <? 0)%Z then Return [Bytes.of_N (Z.to_N (z + 256))]
  else if (z <? 128)%Z then Return [Bytes.of_N (Z.to_N z)]
  else if (z <? 2 ^ 8)%Z then Return [xcc; Bytes.of_N (Z.to_N z)]
  else if (z <? 2 ^ 16)%Z then Return (xcd :: Bytes.be_encode 2 (Z.to_N z))
  else if (z <? 2 ^ 32)%Z then Return (xce :: Bytes.be_encode 4 (Z.to_N z))
  else if (z <? 2 ^ 64)%Z then Return (xcf :: Bytes.be_encode 8 (Z.to_N z))
  else raise OverflowError.

Definition pack_key (k : pykey) : result (list byte) :=
  match k with
  | KStr s => pack_str s
  | KBytes b => pack_bin b
  end.

(** [msgpack.packb(v, use_bin_type=True)] *)
Fixpoint packb (v : pyval) : result (list byte) :=
  match v with
  | PyNone => Return [xc0]
  | PyBool false => Return [xc2]
  | PyBool true => Return [xc3]
  | PyInt z => pack_int z
  | PyFloat bits => Return (xcb :: bits)
  | PyStr s => pack_str s
  | PyBytes b => pack_bin b
  | PyList l =>
      let* h := array_header (N.of_nat (length l)) in
      let* body :=
        (fix items (l : list pyval) : result (list byte) :=
           match l with
           | [] => Return []
           | x :: l' =>
               let* a := packb x in
               let* b := items l' in
               Return (a ++ b)
           end) l in
      Return (h ++ body)
  | PyDict d =>
      let* h := map_header (N.of_nat (length d)) in
      let* body :=
        (fix items (d : list (pykey * pyval)) : result (list byte) :=
           match d with
           | [] => Return []
           | (k, x) :: d' =>
               let* a := pack_key k in
               let* b := packb x in
               let* c := items d' in
               Return (a ++ b ++ c)
           end) d in
      Return (h ++ body)
  | PyExt code data =>
      let* h := ext_header (N.of_nat (length data)) code in
      Return (h ++ data)
  end.

(** The input ends inside an object. *)
Definition incomplete {A} : result A := raise ValueError.

Definition take (n : N) (bs : list byte) : result (list byte * list byte) :=
  match Bytes.split_at n bs with
  | Some p => Return p
  | None => incomplete
  end.

(** A big-endian length or unsigned integer of [k] bytes. *)
Definition read_uint (k : N) (bs : list byte) : result (N * list byte) :=
  let* (h, r) := take k bs in
  Return (Bytes.be_decode h, r).

(** Two's complement reading of a [k]-byte field. *)
Definition signed (k : N) (u : N) : Z :=
  if u <? 2 ^ (8 * k - 1) then Z.of_N u else (Z.of_N u - 2 ^ Z.of_N (8 * k))%Z.

(** The double with the value of a single (big-endian images). *)
Definition widen_float32 (bs : list byte) : list byte :=
  let w := Bytes.be_decode bs in
  let s := w / 2 ^ 31 in
  let e := (w / 2 ^ 23) mod 256 in
  let m := w mod 2 ^ 23 in
  let '(e', m') :=
    if e =? 255 then (2047, m * 2 ^ 29)
    else if negb (e =? 0) then (e + 896, m * 2 ^ 29)
    else if m =? 0 then (0, 0)
    else let k := N.log2 m in (k + 874, (m - 2 ^ k) * 2 ^ (52 - k)) in
  Bytes.be_encode 8 ((s * 2048 + e') * 2 ^ 52 + m').

(** Keys other than [str] and [bytes] are refused ([strict_map_key]). *)
Definition as_key (v : pyval) : result pykey :=
  match v with
  | PyStr s => Return (KStr s)
  | PyBytes b => Return (KBytes b)
  | _ => raise ValueError
  end.

(** [n] objects in a row; [fuel] is the number of bytes at hand. *)
Fixpoint unpack_seq (elem : list byte -> result (pyval * list byte))
    (fuel : nat) (n : N) (bs : list byte) : result (list pyval * list byte) :=
  if n =? 0 then Return ([], bs)
  else match fuel with
  | O => incomplete
  | S f =>
      let* (v, r) := elem bs in
      let* (vs, r') := unpack_seq elem f (n - 1) r in
      Return (v :: vs, r')
  end.

(** [n] key/value pairs in a row, entered into the dictionary in order. *)
Fixpoint unpack_pairs (elem : list byte -> result (pyval * list byte))
    (fuel : nat) (n : N) (bs : list byte) (acc : list (pykey * pyval))
  : result (list (pykey * pyval) * list byte) :=
  if n =? 0 then Return (acc, bs)
  else match fuel with
  | O => incomplete
  | S f =>
      let* (k, r) := elem bs in
      let* key := as_key k in
      let* (v, r') := elem r in
      unpack_pairs elem f (n - 1) r' (dict_set key v acc)
  end.

Definition unpack_str (n : N) (bs : list byte) : result (pyval * list byte) :=
  let* (p, r) := take n bs in
  match Codec.decode_utf8 p with
  | Some s => Return (PyStr s, r)
  | None => raise UnicodeDecodeError
  end.

Definition unpack_bin (n : N) (bs : list byte) : result (pyval * list byte) :=
  let* (p, r) := take n bs in
  Return (PyBytes p, r).

Definition unpack_ext (n : N) (bs : list byte) : result (pyval * list byte) :=
  let* (c, r) := take 1 bs in
  let* (p, r') := take n r in
  Return (PyExt (hd x00 c) p, r').

Definition unpack_uint (k : N) (bs : list byte) : result (pyval * list byte) :=
  let* (u, r) := read_uint k bs in
  Return (PyInt (Z.of_N u), r).

Definition unpack_sint (k : N) (bs : list byte) : result (pyval * list byte) :=
  let* (u, r) := read_uint k bs in
  Return (PyInt (signed k u), r).

(** One object from the front of [bs]; [depth] bounds the nesting of
    containers. *)
Fixpoint unpack (depth : nat) (bs : list byte) : result (pyval * list byte) :=
  match bs with
  | [] => incomplete
  | b :: r =>
      let t := Byte.to_N b in
      let array (n : N) (r : list byte) :=
        match depth with
        | O => raise StackError
        | S d =>
            let* (l, r') := unpack_seq (unpack d) (length r) n r in
            Return (PyList l, r')
        end in
      let map (n : N) (r : list byte) :=
        match depth with
        | O => raise StackError
        | S d =>
            let* (m, r') := unpack_pairs (unpack d) (length r) n r [] in
            Return (PyDict m, r')
        end in
      if t <? 0x80 then Return (PyInt (Z.of_N t), r)
      else if t <? 0x90 then map (t - 0x80) r
      else if t <? 0xa0 then array (t - 0x90) r
      else if t <? 0xc0 then unpack_str (t - 0xa0) r
      else if t =? 0xc0 then Return (PyNone, r)
      else if t =? 0xc1 then raise FormatError
      else if t =? 0xc2 then Return (PyBool false, r)
      else if t =? 0xc3 then Return (PyBool true, r)
      else if t <? 0xc7 then
        let* (n, r') := read_uint (2 ^ (t - 0xc4)) r in unpack_bin n r'
      else if t <? 0xca then
        let* (n, r') := read_uint (2 ^ (t - 0xc7)) r in unpack_ext n r'
      else if t =? 0xca then
        let* (p, r') := take 4 r in Return (PyFloat (widen_float32 p), r')
      else if t =? 0xcb then
        let* (p, r') := take 8 r in Return (PyFloat p, r')
      else if t <? 0xd0 then unpack_uint (2 ^ (t - 0xcc)) r
      else if t <? 0xd4 then unpack_sint (2 ^ (t - 0xd0)) r
      else if t <? 0xd9 then unpack_ext (2 ^ (t - 0xd4)) r
      else if t <? 0xdc then
        let* (n, r') := read_uint (2 ^ (t - 0xd9)) r in unpack_str n r'
      else if t <? 0xde then
        let* (n, r') := read_uint (2 ^ (t - 0xdb)) r in array n r'
      else if t <? 0xe0 then
        let* (n, r') := read_uint (2 ^ (t - 0xdd)) r in map n r'
      else Return (PyInt (Z.of_N t - 256), r)
  end.

(** [msgpack.unpackb(b, raw=False)]: exactly one object. *)
Definition unpackb (bs : list byte) : result pyval :=
  let* (v, rest) := unpack 1024 bs in
  match rest with
  | [] => Return v
  | _ => raise ExtraData
  end.

(** [msgpackutils.dumps] and [msgpackutils.loads]. *)
Definition dumps (v : pyval) : result (list byte) := packb v.
Definition loads (bs : list byte) : result pyval := unpackb bs.

End Msgpack.

(* ================================================================== *)
(** ** The snap configuration store and the file system *)
(* ================================================================== *)

Module Snap.
Import Py.

(** The node: its configuration document (a tree of dictionaries, a key
    such as [config.cluster.fingerprint] being a path in it) and its
    files. *)
Record world := World {
  config : pyval;
  files : gmap pystr (list byte)
}.

(** A dotted key as the path it names. *)
Definition key (s : string) : list pystr := split_dots (str s).

Fixpoint tree_get (path : list pystr) (t : pyval) : pyval :=
  match path with
  | [] => t
  | k :: path' =>
      match t with
      | PyDict d =>
          match dict_lookup (KStr k) d with
          | Some v => tree_get path' v
          | None => PyNone
          end
      | _ => PyNone
      end
  end.

Fixpoint tree_set (path : list pystr) (v : pyval) (t : pyval) : pyval :=
  match path with
  | [] => v
  | k :: path' =>
      let d := match t with PyDict d => d | _ => [] end in
      let sub := default PyNone (dict_lookup (KStr k) d) in
      PyDict (dict_set (KStr k) (tree_set path' v sub) d)
  end.

(** [config_get(key)]: [json.loads] of [snapctl get -t key]; an option
    that is not set reads as [null]. *)
Definition config_get (w : world) (k : list pystr) : pyval :=
  tree_get k (config w).

Section ConfigSet.

(** [stored_as v]: the document [snapctl get -t] gives back for a value
    handed to [snapctl set] as the text [f'{k}={v}']. *)
Variable stored_as : pyval -> pyval.

(** [config_set] with the keys and values as keyword arguments. *)
Definition config_set (kvs : list (list pystr * pyval)) (w : world) : world :=
  World (fold_left (fun t kv => tree_set (fst kv) (stored_as (snd kv)) t)
                   kvs (config w))
        (files w).

End ConfigSet.

(** [Path(p).exists()] and [Path(p).write_bytes(data)] *)
Definition path_exists (w : world) (p : pystr) : bool :=
  bool_decide (is_Some (files w !! p)).

Definition write_bytes (p : pystr) (data : list byte) (w : world) : world :=
  World (config w) (<[p := data]> (files w)).

(** [x == 'literal'] *)
Definition eq_str (x : pyval) (s : string) : bool :=
  match x with
  | PyStr s' => bool_decide (s' = str s)
  | _ => false
  end.

End Snap.

(* ================================================================== *)
(** ** Credential Issuer ([cluster/add_compute.py]) *)
(* ================================================================== *)

Module Issuer.
Import Py Snap.

(** [VALIDITY_PERIOD = relativedelta(minutes=20)], in seconds. *)
Definition VALIDITY_PERIOD : N := 20 * 60.

(** What [_create_credential] asks of Keystone. *)
Record credential_request := {
  expires_at : N;
  access_rules : list (string * string * string);
  unrestricted : bool;
  secret : pystr
}.

(** The [app_cred] object Keystone answers with. *)
Record app_cred := { cred_id : pyval; cred_secret : pyval }.

Section AddCompute.

(** Keystone, reached with the nova password of the node. *)
Variable application_credentials_create :
  pyval -> credential_request -> result app_cred.
(** [datetime.now(tz=timezone.utc)] as a timestamp, and the draw of
    [secrets.token_urlsafe(32)]. *)
Variable now : N.
Variable token_urlsafe : pystr.

Definition _create_credential (w : world) : result app_cred :=
  application_credentials_create
    (config_get w (key "config.credentials.nova-password"))
    {| expires_at := now + VALIDITY_PERIOD;
       access_rules := [("GET", "/v3/auth/catalog", "identity")];
       unrestricted := false;
       secret := firstn 32 token_urlsafe |}.

(** The dictionary [data] of [add_compute]. *)
Definition token_data (hostname fingerprint : pyval) (cred : app_cred)
  : result pyval :=
  let* fp := Codec.fromhex fingerprint in
  Return (PyDict [(KStr (str "hostname"), hostname);
                  (KStr (str "fingerprint"), PyBytes fp);
                  (KStr (str "id"), cred_id cred);
                  (KStr (str "secret"), cred_secret cred)]).

(** [base64.encode_as_text(msgpackutils.dumps(data))] *)
Definition connection_string (data : pyval) : result pystr :=
  let* packed := Msgpack.dumps data in
  Base64.encode_as_text packed.

(** [add_compute()]: the connection string it prints. *)
Definition add_compute (w : world) : result pystr :=
  let role := config_get w (key "config.cluster.role") in
  if negb (eq_str role "control") then raise Exception
  else
    let* cred := _create_credential w in
    let* data := token_data (config_get w (key "config.network.control-ip"))
                            (config_get w (key "config.cluster.fingerprint"))
                            cred in
    connection_string data.

End AddCompute.

End Issuer.

(* ================================================================== *)
(** ** Token validation ([init/questions/clustering.py]) *)
(* ================================================================== *)

Module Clustering.
Import Py Snap.

(** What [_validate] prints to [sys.stderr]. *)
Inductive message :=
| NonAscii          (* The connection string contains non-ASCII characters ... *)
| ExtraCharacters   (* The connection string contains extra data characters ... *)
| FormatInvalid     (* The connection string format is invalid ... *)
| Unexpected        (* An unexpeted error has occured while trying to decode ... *)
| HostnameRejected (hostname : pyval) (why : reason)
| FingerprintRejected (why : reason)
| CredentialIdRejected (why : reason)
| CredentialSecretRejected (why : reason).

(** The result of [_validate]: what it returns or raises, what it printed,
    and [self._conn_info] when it was assigned. *)
Record validation := Validation {
  outcome : result (pystr * bool);
  printed : list message;
  _conn_info : option pyval
}.

Definition accept (answer : pystr) (conn_info : pyval) : validation :=
  Validation (Return (answer, true)) [] (Some conn_info).
Definition reject (answer : pystr) (m : message) : validation :=
  Validation (Return (answer, false)) [m] None.
Definition propagate (e : exn) : validation :=
  Validation (Raise e) [] None.

Definition is_upper (c : N) : bool := (65 <=? c) && (c <=? 90).
Definition is_lower (c : N) : bool := (97 <=? c) && (c <=? 122).
Definition is_digit (c : N) : bool := (48 <=? c) && (c <=? 57).

(** [[a-zA-Z-]] *)
Definition alpha_or_dash (c : N) : bool :=
  is_lower c || is_upper c || (c =? 45).

(** [[A-Z0-9-]] under [re.IGNORECASE]: besides the letters of both cases
    the four letters whose case mapping lands in the range. *)
Definition label_char (c : N) : bool :=
  is_upper c || is_lower c || is_digit c || (c =? 45)
  || (c =? 0x130) || (c =? 0x131) || (c =? 0x17F) || (c =? 0x212A).

(** [allowed.match(x)] for [(?!-)[A-Z0-9-]{1,63}(?<!-)$]; the dollar also
    matches before a final newline. *)
Definition allowed_match (x : pystr) : bool :=
  let body := match last x with
              | Some 10 => removelast x
              | _ => x
              end in
  let n := N.of_nat (length body) in
  (1 <=? n) && (n <=? 63) && forallb label_char body
  && negb (bool_decide (head body = Some 45))
  && negb (bool_decide (last body = Some 45)).

Definition _validate_hostname (hostname : pyval) : result unit :=
  match hostname with
  | PyNone => raise_with ValueError HostnameMissing
  | _ =>
      let* n := len hostname in
      if n =? 0 then raise_with ValueError HostnameEmpty
      else match hostname with
      | PyStr h =>
          let name := match last h with
                      | Some 46 => removelast h
                      | _ => h
                      end in
          if 253 <? N.of_nat (length name) then
            raise_with ValueError HostnameTooLong
          else if negb (existsb alpha_or_dash (default [] (last (split_dots name))))
          then raise_with ValueError (HostnameNumericTld hostname)
          else if existsb (fun x => negb (allowed_match x)) (split_dots name)
          then raise_with ValueError HostnameInvalid
          else Return tt
      | PyBytes _ => raise TypeError
      | _ => raise AttributeError
      end
  end.

Section ConnectionString.

(** [netaddr.valid_ipv4(a, INET_PTON)] and [netaddr.valid_ipv6(a, INET_PTON)]. *)
Variables valid_ipv4 valid_ipv6 : pyval -> result bool.

Definition _validate_address (address : pyval) : result unit :=
  match address with
  | PyNone => raise_with ValueError AddressMissing
  | _ =>
      let* v4 := valid_ipv4 address in
      let* ok := if v4 then Return true else valid_ipv6 address in
      if ok then Return tt
      else raise_with ValueError (AddressInvalid address)
  end.

(** [hashes.SHA256.digest_size] *)
Definition digest_size : N := 32.

Definition _validate_fingerprint (fingerprint : pyval) : result unit :=
  let* actual_len := len fingerprint in
  let expected_len := digest_size in
  if negb (actual_len =? expected_len) then
    raise_with ValueError (FingerprintLength actual_len expected_len)
  else Return tt.

Definition _validate_credential_id (credential_id : pyval) : result unit :=
  match credential_id with
  | PyNone => raise_with ValueError CredentialIdMissing
  | _ =>
      let UUID_LEN := 32 in
      let* actual_len := len credential_id in
      if negb (actual_len =? UUID_LEN) then
        raise_with ValueError (CredentialIdLength actual_len UUID_LEN)
      else Return tt
  end.

Definition _validate_credential_secret (credential_secret : pyval) : result unit :=
  match credential_secret with
  | PyNone => raise_with ValueError CredentialSecretMissing
  | _ =>
      let SECRET_LEN := 32 in
      let* actual_len := len credential_secret in
      if negb (actual_len =? SECRET_LEN) then
        raise_with ValueError (CredentialSecretLength actual_len SECRET_LEN)
      else Return tt
  end.

(** The messages that name a field of the token. *)
Definition names_field (m : message) : bool :=
  match m with
  | HostnameRejected _ _ => true
  | FingerprintRejected _ => true
  | CredentialIdRejected _ => true
  | CredentialSecretRejected _ => true
  | _ => false
  end.

(** The field checks of [_validate], from [conn_info.get('hostname')] on. *)
Definition validate_fields (answer : pystr) (conn_info : pyval) : validation :=
  match get conn_info (str "hostname") with
  | Raise e => propagate e
  | Return hostname =>
  match
    match _validate_address hostname with
    | Return _ => Return true
    | Raise e => if isinstance e ValueError then Return false else Raise e
    end
  with
  | Raise e => propagate e
  | Return is_valid_address =>
  match
    if is_valid_address then Return None
    else match _validate_hostname hostname with
         | Return _ => Return None
         | Raise e =>
             if isinstance e ValueError
             then Return (Some (HostnameRejected hostname (exn_reason e)))
             else Raise e
         end
  with
  | Raise e => propagate e
  | Return (Some m) => reject answer m
  | Return None =>
  match get conn_info (str "fingerprint") with
  | Raise e => propagate e
  | Return fingerprint =>
  match _validate_fingerprint fingerprint with
  | Raise e =>
      if isinstance e ValueError
      then reject answer (FingerprintRejected (exn_reason e))
      else propagate e
  | Return _ =>
  match get conn_info (str "id") with
  | Raise e => propagate e
  | Return credential_id =>
  match _validate_credential_id credential_id with
  | Raise e =>
      if isinstance e ValueError
      then reject answer (CredentialIdRejected (exn_reason e))
      else propagate e
  | Return _ =>
  match get conn_info (str "secret") with
  | Raise e => propagate e
  | Return credential_secret =>
  match _validate_credential_secret credential_secret with
  | Raise e =>
      if isinstance e ValueError
      then reject answer (CredentialSecretRejected (exn_reason e))
      else propagate e
  | Return _ => accept answer conn_info
  end end end end end end end end end.

(** The two decoding steps of [_validate] without their handlers:
    [msgpackutils.loads(base64.decode_as_bytes(answer.encode('ascii')))]. *)
Definition decode (answer : pystr) : result pyval :=
  let* ascii := Codec.encode_ascii answer in
  let* conn_str_bytes := Base64.decode_as_bytes ascii in
  Msgpack.loads conn_str_bytes.

(** A token that decodes to a map with a text hostname netaddr has an
    answer for, a [bytes] fingerprint and text credentials, one of the
    three with a length other than 32. *)
Definition wrong_length (answer : pystr) : Prop :=
  exists conn_info hostname fingerprint credential_id credential_secret v4 v6,
    decode answer = Return conn_info
    /\ get conn_info (str "hostname") = Return (PyStr hostname)
    /\ valid_ipv4 (PyStr hostname) = Return v4
    /\ valid_ipv6 (PyStr hostname) = Return v6
    /\ get conn_info (str "fingerprint") = Return (PyBytes fingerprint)
    /\ get conn_info (str "id") = Return (PyStr credential_id)
    /\ get conn_info (str "secret") = Return (PyStr credential_secret)
    /\ (length fingerprint <> 32%nat \/ length credential_id <> 32%nat
        \/ length credential_secret <> 32%nat).

(** [ConnectionString._validate(answer)] *)
Definition _validate (answer : pystr) : validation :=
  match (let* ascii := Codec.encode_ascii answer in
         Base64.decode_as_bytes ascii) with
  | Raise e =>
      if isinstance e TypeError then reject answer NonAscii else propagate e
  | Return conn_str_bytes =>
      match Msgpack.loads conn_str_bytes with
      | Raise e =>
          if isinstance e ExtraData then reject answer ExtraCharacters
          else if isinstance e ValueError then reject answer ExtraCharacters
          else if isinstance e FormatError then reject answer FormatInvalid
          else reject answer Unexpected
      | Return conn_info => validate_fields answer conn_info
      end
  end.

End ConnectionString.

End Clustering.

(* ================================================================== *)
(** ** Certificate Provisioner ([init/cluster_tls.py]) *)
(* ================================================================== *)

Module ClusterTls.
Import Py Snap.

(** What the certificate builder is given. *)
Record certificate_fields := {
  subject_name : string;
  issuer_name : string;
  serial_number : N;
  not_valid_before : N;
  validity_years : N;
  basic_constraints : bool * N;
  subject_alternative_name : string
}.

(** The random and clock inputs of one call. *)
Record draw := { entropy : N; random_serial_number : N; utcnow : N }.

(** [Path(x)] accepts text only. *)
Definition Path (x : pyval) : result pystr :=
  match x with
  | PyStr s => Return s
  | _ => raise TypeError
  end.

Section GenerateSelfsigned.

Variable stored_as : pyval -> pyval.

(** The cryptography library. *)
Variables private_key certificate : Type.
Variable generate_private_key : N -> N -> N -> private_key.
Variable sign : certificate_fields -> private_key -> certificate.
Variable fingerprint_sha256 : certificate -> list byte.
Variable public_bytes : certificate -> list byte.
Variable private_bytes : private_key -> list byte.

(** [generate_selfsigned()]: the value it returns and the node it leaves. *)
Definition generate_selfsigned (d : draw) (w : world) : result pyval * world :=
  match (let* cert_path := Path (config_get w (key "config.cluster.tls-cert-path")) in
         let* key_path := Path (config_get w (key "config.cluster.tls-key-path")) in
         Return (cert_path, key_path)) with
  | Raise e => (Raise e, w)
  | Return (cert_path, key_path) =>
      if path_exists w cert_path && path_exists w key_path then (Return PyNone, w)
      else
        let dummy_cn := "microstack.run"%string in
        let k := generate_private_key 65537 2048 (entropy d) in
        let now := utcnow d in
        let cert :=
          sign {| subject_name := dummy_cn;
                  issuer_name := dummy_cn;
                  serial_number := random_serial_number d;
                  not_valid_before := now;
                  validity_years := 10;
                  basic_constraints := (true, 0);
                  subject_alternative_name := dummy_cn |} k in
        let cert_fprint := Codec.hex (fingerprint_sha256 cert) in
        let w1 := config_set stored_as
                    [(key "config.cluster.fingerprint", PyStr cert_fprint)] w in
        let w2 := write_bytes cert_path (public_bytes cert) w1 in
        let w3 := write_bytes key_path (private_bytes k) w2 in
        (Return PyNone, w3)
  end.

End GenerateSelfsigned.

End ClusterTls.

(* ================================================================== *)
(** ** Join Client ([cluster/client.py]) *)
(* ================================================================== *)

Module Client.
Import Py Snap.

Definition CLUSTER_SERVICE_PORT : N := 10002.

(** The class of [e.reason] of a [MaxRetryError]. *)
Inductive pool_error :=
| SSLError
| NewConnectionError
| ConnectTimeoutError
| ReadTimeoutError
| ProtocolError.

(** What [conn_pool.urlopen] does: answers, gives up with a
    [MaxRetryError], or raises something else. *)
Inductive urlopen_outcome :=
| Response (status : N) (data : list byte)
| MaxRetryError (reason : pool_error)
| OtherError (e : exn).

(** The request as the pool gets it. *)
Record request := {
  host : pyval;
  port : N;
  assert_fingerprint : pyval;
  assert_hostname : bool;
  cert_reqs : string;
  method : string;
  url : string;
  retries : N;
  headers : list (string * string);
  body : pyval
}.

Definition fingerprint_message : string :=
  "The actual clustering service certificate fingerprint did not match the expected one, please make sure that: (1) that a correct token was specified during initialization; (2) a MITM attacks are not performed against HTTPS requests (including transparent proxies).".

Definition no_response_message : string :=
  "Could not retrieve a response from the clustering service.".

Definition invalid_utf8_message : string :=
  "The response from the clustering service contains bytes invalid for UTF-8".

Definition empty_response_message : string :=
  "The response from the clustering service is empty which is unexpected: please check its status and file an issue if the problem persists".

Definition unexpected_status_message : string :=
  "Unexpected response status received from the clustering service: ".

(** [needle in text] *)
Fixpoint contains (needle text : list ascii) : bool :=
  starts_with needle text
  || match text with
     | [] => false
     | _ :: text' => contains needle text'
     end.

(** The [__cause__] of an exception raised with [from]. *)
Inductive cause :=
| NoCause
| FromReason (r : pool_error)
| FromMaxRetryError (r : pool_error).

(** What [join] raises. *)
Inductive raised :=
| PlainException (message : string) (argument : option N) (c : cause)
| UnauthorizedRequestError (message : option pyval)
| Propagated (e : exn).

Inductive join_result :=
| Joined (w : world)
| Raises (e : raised).

Section Join.

Variable stored_as : pyval -> pyval.
Variable urlopen : request -> urlopen_outcome.
(** [json.loads] *)
Variable json_loads : pystr -> result pyval.

Definition decode_utf8 (b : list byte) : result pystr :=
  match Codec.decode_utf8 b with
  | Some s => Return s
  | None => raise UnicodeDecodeError
  end.

(** [x.items()] of a JSON object. *)
Definition items (x : pyval) : result (list (pystr * pyval)) :=
  match x with
  | PyDict d =>
      Return (omap (fun kv => match fst kv with
                              | KStr k => Some (k, snd kv)
                              | KBytes _ => None
                              end) d)
  | _ => raise AttributeError
  end.

(** The tail of [join]: a 200 response is applied to the configuration. *)
Definition apply_response (w : world) (response_data : pystr) : result world :=
  let* response_dict := json_loads response_data in
  let* cfg := getitem response_dict (str "config") in
  let* credentials := getitem cfg (str "credentials") in
  let* creds := items credentials in
  let control_creds :=
    map (fun kv => (key "config.credentials" ++ split_dots (fst kv), snd kv)) creds in
  let w1 := config_set stored_as control_creds w in
  let* network := getitem cfg (str "network") in
  let* control_ip := getitem network (str "control-ip") in
  Return (config_set stored_as [(key "config.network.control-ip", control_ip)] w1).

Definition lift (r : result world) : join_result :=
  match r with
  | Return w => Joined w
  | Raise e => Raises (Propagated e)
  end.

(** The request [join] builds from the stored token fields. *)
Definition request_of (w : world) : result request :=
  let cluster_config := config_get w (key "config.cluster") in
  let* control_hostname := getitem cluster_config (str "hostname") in
  let* fingerprint := getitem cluster_config (str "fingerprint") in
  let* credential_id := getitem cluster_config (str "credential-id") in
  let* credential_secret := getitem cluster_config (str "credential-secret") in
  let request_body :=
    PyDict [(KStr (str "credential-id"), credential_id);
            (KStr (str "credential-secret"), credential_secret)] in
  Return {| host := control_hostname;
            port := CLUSTER_SERVICE_PORT;
            assert_fingerprint := fingerprint;
            assert_hostname := false;
            cert_reqs := "CERT_NONE";
            method := "POST";
            url := "/join";
            retries := 0;
            headers := [("API-VERSION", "1.0.0");
                        ("Content-Type", "application/json")];
            body := request_body |}.

(** [join()] *)
Definition join (w : world) : join_result :=
  match request_of w with
  | Raise e => Raises (Propagated e)
  | Return req =>
      match urlopen req with
      | MaxRetryError reason =>
          match reason with
          | SSLError =>
              Raises (PlainException fingerprint_message None (FromReason reason))
          | _ =>
              Raises (PlainException no_response_message None
                        (FromMaxRetryError reason))
          end
      | OtherError e => Raises (Propagated e)
      | Response status data =>
          if status =? 401 then
            match decode_utf8 data with
            | Raise e => Raises (Propagated e)
            | Return response_data =>
                if truthy (PyStr response_data) then
                  match (let* d := json_loads response_data in
                         getitem d (str "message")) with
                  | Return message => Raises (UnauthorizedRequestError (Some message))
                  | Raise e => Raises (Propagated e)
                  end
                else Raises (UnauthorizedRequestError None)
            end
          else if negb (status =? 200) then
            Raises (PlainException unexpected_status_message (Some status) NoCause)
          else
            match decode_utf8 data with
            | Raise e =>
                if isinstance e UnicodeDecodeError
                then Raises (PlainException invalid_utf8_message None NoCause)
                else Raises (Propagated e)
            | Return response_data =>
                if negb (truthy (PyStr response_data)) then
                  Raises (PlainException empty_response_message None NoCause)
                else lift (apply_response w response_data)
            end
      end
  end.

End Join.

End Client.

(* ================================================================== *)
(** ** Semantic versions ([semantic_version.Version]) *)
(* ================================================================== *)

Module Semver.

Record Version := {
  major : N;
  minor : N;
  patch : N;
  prerelease : list (list ascii);
  build : list (list ascii)
}.

Definition is_digit (a : ascii) : bool :=
  (48 <=? N_of_ascii a) && (N_of_ascii a <=? 57).

Definition is_ident_char (a : ascii) : bool :=
  let n := N_of_ascii a in
  is_digit a || ((65 <=? n) && (n <=? 90)) || ((97 <=? n) && (n <=? 122))
  || (n =? 46) || (n =? 45).

Fixpoint span (p : ascii -> bool) (l : list ascii) : list ascii * list ascii :=
  match l with
  | [] => ([], [])
  | a :: l' =>
      if p a then let (x, y) := span p l' in (a :: x, y) else ([], l)
  end.

Definition number (ds : list ascii) : N :=
  fold_left (fun acc a => acc * 10 + (N_of_ascii a - 48)) ds 0.

Definition has_leading_zero (ds : list ascii) : bool :=
  match ds with
  | a :: _ :: _ => N_of_ascii a =? 48
  | _ => false
  end.

Definition split_idents (l : list ascii) : list (list ascii) :=
  fold_right (fun a acc =>
                if N_of_ascii a =? 46 then [] :: acc
                else match acc with
                     | [] => [[a]]
                     | x :: acc' => (a :: x) :: acc'
                     end) [[]] l.

(** Identifiers are not empty; numeric ones carry no leading zero unless
    allowed. *)
Definition valid_identifiers (allow_leading_zeroes : bool)
    (ids : list (list ascii)) : bool :=
  forallb (fun x =>
             match x with
             | [] => false
             | _ => allow_leading_zeroes
                    || negb (has_leading_zero x && forallb is_digit x)
             end) ids.

(** A numeric component: digits, without a leading zero. *)
Definition component (l : list ascii) : option (N * list ascii) :=
  let (ds, rest) := span is_digit l in
  match ds with
  | [] => None
  | _ => if has_leading_zero ds then None else Some (number ds, rest)
  end.

Definition expect (c : N) (l : list ascii) : option (list ascii) :=
  match l with
  | a :: l' => if N_of_ascii a =? c then Some l' else None
  | [] => None
  end.

(** An optional part introduced by [c] and made of identifier characters. *)
Definition optional_part (c : N) (l : list ascii)
  : option (option (list ascii) * list ascii) :=
  match l with
  | a :: l' =>
      if N_of_ascii a =? c then
        let (x, rest) := span is_ident_char l' in
        match x with
        | [] => None
        | _ => Some (Some x, rest)
        end
      else Some (None, l)
  | [] => Some (None, [])
  end.

(** [Version(version_string)]: [None] where the library raises
    [ValueError]. *)
Definition parse (version_string : string) : option Version :=
  l0 ← Some (list_ascii_of_string version_string);
  '(ma, l1) ← component l0;
  l2 ← expect 46 l1;
  '(mi, l3) ← component l2;
  l4 ← expect 46 l3;
  '(pa, l5) ← component l4;
  '(pre, l6) ← optional_part 45 l5;
  '(bld, l7) ← optional_part 43 l6;
  match l7 with
  | _ :: _ => None
  | [] =>
      let pre_ids := match pre with Some x => split_idents x | None => [] end in
      let bld_ids := match bld with Some x => split_idents x | None => [] end in
      if valid_identifiers false pre_ids && valid_identifiers true bld_ids then
        Some {| major := ma; minor := mi; patch := pa;
                prerelease := pre_ids; build := bld_ids |}
      else None
  end.

End Semver.

(* ================================================================== *)
(** ** Join Server ([cluster/daemon.py]) *)
(* ================================================================== *)

Module Daemon.
Import Py Snap.

(** [API_VERSION = semantic_version.Version('1.0.0')] *)
Definition API_VERSION : Semver.Version :=
  {| Semver.major := 1; Semver.minor := 0; Semver.patch := 0;
     Semver.prerelease := []; Semver.build := [] |}.

Inductive APIException :=
| APIVersionMissing
| APIVersionInvalid
| APIVersionDropped
| APIVersionNotImplemented
| InvalidJSONInRequest
| IncorrectContentType
| MissingAuthDataInRequest
| InvalidAuthDataFormatInRequest
| InvalidAuthDataInRequest
| AuthorizationFailed
| UnexpectedError.

Definition status_code (e : APIException) : N :=
  match e with
  | APIVersionMissing => 400
  | APIVersionInvalid => 400
  | APIVersionDropped => 410
  | APIVersionNotImplemented => 501
  | InvalidJSONInRequest => 400
  | IncorrectContentType => 400
  | MissingAuthDataInRequest => 400
  | InvalidAuthDataFormatInRequest => 400
  | InvalidAuthDataInRequest => 400
  | AuthorizationFailed => 401
  | UnexpectedError => 500
  end.

Definition message (e : APIException) : string :=
  match e with
  | APIVersionMissing => "An API version was not specified in the request."
  | APIVersionInvalid => "Invalid API version was specified in the request."
  | APIVersionDropped => "The requested join API version is no longer supported."
  | APIVersionNotImplemented =>
      "The requested join API version is not yet implemented."
  | InvalidJSONInRequest => "The request includes invalid JSON."
  | IncorrectContentType =>
      "The request does not have a Content-Type header set to application/json."
  | MissingAuthDataInRequest =>
      "The request does not have the required authentication data."
  | InvalidAuthDataFormatInRequest =>
      "The authentication data in the request has invalid format."
  | InvalidAuthDataInRequest =>
      "The authentication data in the request is invalid."
  | AuthorizationFailed =>
      "Failed to pass authorization using the data provided in the request"
  | UnexpectedError =>
      "The clustering server has encountered an unexpected error while handling the request."
  end.

Definition to_dict (e : APIException) : pyval :=
  PyDict [(KStr (str "message"), PyStr (str (message e)))].

(** The classes an [@app.errorhandler] is registered for. *)
Definition errorhandler (e : APIException) : bool :=
  match e with
  | MissingAuthDataInRequest => false
  | _ => true
  end.

(** What leaves a view function by [raise]. *)
Inductive raised :=
| Api (e : APIException)
| BadRequest
| Unhandled (e : exn).

Inductive outcome (A : Type) :=
| Returns (a : A)
| Raises (e : raised).
Arguments Returns {A} a.
Arguments Raises {A} e.

(** What a view function hands back: text, or some other object. *)
Inductive view_value :=
| Text (json_dumps : pyval)
| ExceptionObject (e : APIException).

Inductive response_body :=
| Jsonify (v : pyval)
| Body (json_dumps : pyval)
| ErrorPage.

Record response := { status : N; content : response_body }.

Record request := {
  headers : list (string * string);
  data : list byte
}.

Definition lower_ascii (a : ascii) : ascii :=
  let n := N_of_ascii a in
  if (65 <=? n) && (n <=? 90) then ascii_of_N (n + 32) else a.

Definition lower (s : string) : list ascii :=
  map lower_ascii (list_ascii_of_string s).

(** [request.headers.get(name)]: header names compare without case. *)
Fixpoint headers_get (name : string) (hs : list (string * string)) : option string :=
  match hs with
  | [] => None
  | (k, v) :: hs' =>
      if bool_decide (lower k = lower name) then Some v else headers_get name hs'
  end.

Definition is_blank (a : ascii) : bool :=
  let n := N_of_ascii a in (n =? 32) || ((9 <=? n) && (n <=? 13)).

Fixpoint drop_blank (l : list ascii) : list ascii :=
  match l with
  | a :: l' => if is_blank a then drop_blank l' else l
  | [] => []
  end.

Definition strip (l : list ascii) : list ascii :=
  rev (drop_blank (rev (drop_blank l))).

Definition ends_with (p l : list ascii) : bool := starts_with (rev p) (rev l).

(** [request.mimetype]: the content type without its parameters, in lower
    case. *)
Definition mimetype (req : request) : list ascii :=
  match headers_get "Content-Type" (headers req) with
  | None => []
  | Some v =>
      map lower_ascii
        (strip (fst (Semver.span (fun a => negb (N_of_ascii a =? 59))
                                 (list_ascii_of_string v))))
  end.

(** [request.is_json] *)
Definition is_json (req : request) : bool :=
  let mt := mimetype req in
  bool_decide (mt = list_ascii_of_string "application/json")
  || (starts_with (list_ascii_of_string "application/") mt
      && ends_with (list_ascii_of_string "+json") mt).

(** What happens when Keystone is asked with the submitted credential. *)
Inductive keystone_outcome :=
| AuthObjectFails
| SessionFails
| ClientFails
| CatalogListed
| AuthorizationFailure
| KsUnauthorized
| KsValueError
| KsConnectionError
| KsSSLError
| KsOther (e : exn).

Section Join.

(** [semantic_version.Version], [json.loads] and Keystone. *)
Variable Version : string -> option Semver.Version.
Variable json_loads : list byte -> option pyval.
Variable keystone : pyval -> pyval -> keystone_outcome.
Variable w : world.

(** [request.json]: [None] unless the request declares JSON, a
    [BadRequest] when the declared JSON does not parse. *)
Definition request_json (req : request) : outcome pyval :=
  if is_json req then
    match json_loads (data req) with
    | Some v => Returns v
    | None => Raises BadRequest
    end
  else Returns PyNone.

(** [join_info()] *)
Definition join_info : pyval :=
  PyDict [(KStr (str "config"), config_get w (key "config"))].

Definition authenticate (credential_id credential_secret : pyval)
  : outcome view_value :=
  match keystone credential_id credential_secret with
  | AuthObjectFails => Raises (Api InvalidAuthDataInRequest)
  | SessionFails => Raises (Api UnexpectedError)
  | ClientFails => Raises (Api UnexpectedError)
  | AuthorizationFailure => Raises (Api AuthorizationFailed)
  | KsUnauthorized => Raises (Api AuthorizationFailed)
  | KsValueError => Raises (Api UnexpectedError)
  | KsConnectionError => Raises (Api UnexpectedError)
  | KsSSLError => Raises (Api UnexpectedError)
  | KsOther e => Raises (Unhandled e)
  | CatalogListed => Returns (Text join_info)
  end.

(** The branch of [join] for a request of the server's major version. *)
Definition join_same_major (req : request) : outcome view_value :=
  match
    match request_json req with
    | Raises BadRequest => Raises (Api InvalidJSONInRequest)
    | r => r
    end
  with
  | Raises e => Raises e
  | Returns req_json =>
      match req_json with
      | PyNone => Raises (Api IncorrectContentType)
      | _ =>
          match (let* credential_id := get req_json (str "credential-id") in
                 let* credential_secret := get req_json (str "credential-secret") in
                 Return (credential_id, credential_secret)) with
          | Raise e => Raises (Unhandled e)
          | Return (credential_id, credential_secret) =>
              if negb (truthy credential_id) || negb (truthy credential_secret)
              then Returns (ExceptionObject MissingAuthDataInRequest)
              else authenticate credential_id credential_secret
          end
      end
  end.

(** The view function [join()]. *)
Definition join (req : request) : outcome view_value :=
  match headers_get "API-Version" (headers req) with
  | None => Raises (Api APIVersionMissing)
  | Some request_version =>
      match Version request_version with
      | None => Raises (Api APIVersionInvalid)
      | Some api_version =>
          if Semver.major API_VERSION <? Semver.major api_version then
            Raises (Api APIVersionNotImplemented)
          else if Semver.major api_version <? Semver.major API_VERSION then
            Raises (Api APIVersionDropped)
          else join_same_major req
      end
  end.

(** [_handle_api_version_exception(error)] *)
Definition _handle_api_version_exception (error : APIException) : response :=
  {| status := status_code error; content := Jsonify (to_dict error) |}.

Definition internal_server_error : response :=
  {| status := 500; content := ErrorPage |}.

(** Flask around the view: a text becomes a 200 response, a registered
    exception class goes to its handler, an HTTP exception is its own
    response, anything else (an object that is no response, an exception
    without handler) is a 500. *)
Definition dispatch (r : outcome view_value) : response :=
  match r with
  | Returns (Text v) => {| status := 200; content := Body v |}
  | Returns (ExceptionObject _) => internal_server_error
  | Raises (Api e) =>
      if errorhandler e then _handle_api_version_exception e
      else internal_server_error
  | Raises BadRequest => {| status := 400; content := ErrorPage |}
  | Raises (Unhandled _) => internal_server_error
  end.

(** [POST /join] *)
Definition post_join (req : request) : response := dispatch (join req).

End Join.

End Daemon.

(* ================================================================== *)
(** ** Asking for the connection string ([Question.ask], [Clustering.yes]) *)
(* ================================================================== *)

Module Init.
Import Py Snap.

(** What a run leaves behind besides the configuration: lines on
    [sys.stderr] and requests put on the network. *)
Inductive event :=
| Stderr (m : Clustering.message)
| Network (r : Client.request).

Definition config_key : list pystr := key "config.cluster.connection-string.raw".

Section Flow.

Variables valid_ipv4 valid_ipv6 : pyval -> result bool.
Variable stored_as : pyval -> pyval.
Variable urlopen : Client.request -> Client.urlopen_outcome.
Variable json_loads : pystr -> result pyval.
(** [self._load()], the default answer, and [self._input_func(prompt)] at
    each turn. *)
Variable _load : world -> option pystr.
Variable _input_func : nat -> option pystr.

(** [ConnectionString.after] *)
Definition after (conn_info : pyval) (w : world) : result world :=
  let* hostname := getitem conn_info (str "hostname") in
  let* fingerprint := getitem conn_info (str "fingerprint") in
  let* fingerprint_hex :=
    match fingerprint with
    | PyBytes b => Return (PyStr (Codec.hex b))
    | _ => raise AttributeError
    end in
  let* credential_id := getitem conn_info (str "id") in
  let* credential_secret := getitem conn_info (str "secret") in
  Return (config_set stored_as
            [(key "config.cluster.hostname", hostname);
             (key "config.cluster.fingerprint", fingerprint_hex);
             (key "config.cluster.credential-id", credential_id);
             (key "config.cluster.credential-secret", credential_secret)] w).

(** [Question._save] *)
Definition _save (answer : pystr) (w : world) : world :=
  config_set stored_as [(config_key, PyStr answer)] w.

(** The answer of a turn: [self._input_func(prompt) or default]. *)
Definition answer_at (dflt : option pystr) (i : nat) : option pystr :=
  match _input_func i with
  | Some (c :: s) => Some (c :: s)
  | _ => dflt
  end.

(** The loop of [Question.ask] from turn [i] on, [n] turns left. *)
Fixpoint ask_loop (n i : nat) (dflt : option pystr) (w : world)
  : result pystr * list event * world :=
  match n with
  | O => (raise InvalidAnswer, [], w)
  | S n' =>
      match answer_at dflt i with
      | None => (raise AttributeError, [], w)
      | Some answer =>
          let v := Clustering._validate valid_ipv4 valid_ipv6 answer in
          let log := map Stderr (Clustering.printed v) in
          match Clustering.outcome v with
          | Raise e => (Raise e, log, w)
          | Return (awr, true) =>
              match after (default PyNone (Clustering._conn_info v)) (_save awr w) with
              | Return w' => (Return awr, log, w')
              | Raise e => (Raise e, log, _save awr w)
              end
          | Return (awr, false) =>
              let '(r, log', w') := ask_loop n' (S i) dflt w in
              (r, log ++ log', w')
          end
      end
  end.

Definition _retries : nat := 3.

(** [ConnectionString.ask] *)
Definition ask (w : world) : result (option pystr) * list event * world :=
  let role := config_get w (key "config.cluster.role") in
  if eq_str role "control" then (Return None, [], w)
  else
    let '(r, log, w') := ask_loop _retries 0 (_load w) w in
    (let* awr := r in Return (Some awr), log, w').

(** [Clustering.yes] from the connection string question to the end of the
    compute branch: [microstack_join] runs [Client.join]. *)
Definition connect (w : world) : result unit * list event * world :=
  let '(r, log, w1) := ask w in
  match r with
  | Raise e => (Raise e, log, w1)
  | Return _ =>
      let role := config_get w1 (key "config.cluster.role") in
      if eq_str role "compute" then
        let sent := match Client.request_of w1 with
                    | Return req => [Network req]
                    | Raise _ => []
                    end in
        match Client.join stored_as urlopen json_loads w1 with
        | Client.Raises _ => (raise CalledProcessError, log ++ sent, w1)
        | Client.Joined w2 =>
            (Return tt, log ++ sent,
             config_set stored_as
               [(key "config.services.control-plane", PyStr (str "false"));
                (key "config.services.hypervisor", PyStr (str "true"))] w2)
        end
      else (Return tt, log, w1)
  end.

End Flow.

End Init.

(* ================================================================== *)
(** ** Sample nodes, tokens and requests *)
(* ================================================================== *)

Module Samples.
Import Py Snap.

(** The token of a map with a 31-byte fingerprint. *)
Definition short_fingerprint_token : pystr :=
  str "hKhob3N0bmFtZagxMC4wLjAuMatmaW5nZXJwcmludMQfAQEBAQEBAQEBAQEBAQEBAQEBAQEBAQEBAQEBAQEBAaJpZNkgYWFhYWFhYWFhYWFhYWFhYWFhYWFhYWFhYWFhYWFhYWGmc2VjcmV02SBiYmJiYmJiYmJiYmJiYmJiYmJiYmJiYmJiYmJiYmJiYg==".

(** The token of the map [{'hostname': '10.0.0.1'}]. *)
Definition hostname_only_token : pystr := str "gahob3N0bmFtZagxMC4wLjAuMQ==".

(** A control node whose configuration holds the fingerprint of a digest
    of 32 bytes [01]. *)
Definition control_node : world :=
  World (tree_set (key "config.cluster.fingerprint")
           (PyStr (Codec.hex (repeat x01 32)))
           (tree_set (key "config.cluster.role") (PyStr (str "control"))
              (tree_set (key "config.network.control-ip")
                 (PyStr (str "10.0.0.1")) PyNone)))
        ∅.

(** A Keystone that issues the credential it is asked for. *)
Definition issuing_keystone (password : pyval) (r : Issuer.credential_request)
  : result Issuer.app_cred :=
  Return {| Issuer.cred_id := PyStr (repeat 97 32);
            Issuer.cred_secret := PyStr (Issuer.secret r) |}.

(** A node whose certificate and key are in place, with the fingerprint
    [ab] in its configuration. *)
Definition provisioned_node : world :=
  World (tree_set (key "config.cluster.fingerprint") (PyStr (str "ab"))
           (tree_set (key "config.cluster.tls-key-path") (PyStr (str "/key.pem"))
              (tree_set (key "config.cluster.tls-cert-path")
                 (PyStr (str "/cert.pem")) PyNone)))
        (<[str "/key.pem" := []]> (<[str "/cert.pem" := []]> ∅)).

(** A stand-in for the cryptography library. *)
Definition sample_generate (d : ClusterTls.draw) (w : world) : result pyval * world :=
  ClusterTls.generate_selfsigned (fun v => v) N (list byte)
    (fun _ _ entropy => entropy)
    (fun fields k => Bytes.be_encode 4 (ClusterTls.serial_number fields + k))
    (fun cert => cert ++ repeat x00 28)
    (fun cert => cert)
    (fun k => Bytes.be_encode 4 k)
    d w.

(** A compute node holding the four fields of a token. *)
Definition joining_node : world :=
  World (tree_set (key "config.cluster.credential-secret") (PyStr (repeat 98 32))
           (tree_set (key "config.cluster.credential-id") (PyStr (repeat 97 32))
              (tree_set (key "config.cluster.fingerprint")
                 (PyStr (Codec.hex (repeat x01 32)))
                 (tree_set (key "config.cluster.hostname")
                    (PyStr (str "10.0.0.1")) PyNone))))
        ∅.

(** The request [join] sends from that node. *)
Definition joining_request : Client.request :=
  {| Client.host := PyStr (str "10.0.0.1");
     Client.port := 10002;
     Client.assert_fingerprint := PyStr (Codec.hex (repeat x01 32));
     Client.assert_hostname := false;
     Client.cert_reqs := "CERT_NONE";
     Client.method := "POST";
     Client.url := "/join";
     Client.retries := 0;
     Client.headers := [("API-VERSION", "1.0.0");
                        ("Content-Type", "application/json")];
     Client.body :=
       PyDict [(KStr (str "credential-id"), PyStr (repeat 97 32));
               (KStr (str "credential-secret"), PyStr (repeat 98 32))] |}.

(** The request of the malformed-body scenario. *)
Definition text_plain_request : Daemon.request :=
  {| Daemon.headers := [("API-Version", "1.0.0");
                        ("Content-Type", "text/plain")];
     Daemon.data := list_byte_of_string "not json" |}.

(** A request of version 1.0.0 that declares JSON and carries [{}]. *)
Definition empty_object_request : Daemon.request :=
  {| Daemon.headers := [("API-Version", "1.0.0");
                        ("Content-Type", "application/json")];
     Daemon.data := list_byte_of_string "{}" |}.

End Samples.

(* ================================================================== *)
(** ** The role question ([Role._input_func]) *)
(* ================================================================== *)

Module Role.
Import Py.

Definition _valid_roles : list pystr := [str "control"; str "compute"].

(** What a call has done at its end: the lines it read with [input] and
    the lines it printed to [sys.stderr]. *)
Record io := { reads : nat; complaints : nat }.

Section Input.

(** [input(prompt)] at its [i]-th call: the line typed, or what it raises
    (an [EOFError] at the end of the input). *)
Variable input : nat -> result pystr.

(** The [for] loop with [n] turns left, [input] having been called [i]
    times. *)
Fixpoint attempts (n i : nat) : result pystr * io :=
  match n with
  | O => (raise InvalidAnswer, {| reads := 0; complaints := 0 |})
  | S n' =>
      match input i with
      | Raise e => (Raise e, {| reads := 1; complaints := 0 |})
      | Return role =>
          if bool_decide (In role _valid_roles) then
            (Return role, {| reads := 1; complaints := 0 |})
          else
            let '(r, t) := attempts n' (S i) in
            (r, {| reads := S (reads t); complaints := S (complaints t) |})
      end
  end.

(** [Role._input_func(prompt)] *)
Definition _input_func (interactive : bool) : result (option pystr) * io :=
  if negb interactive then (Return None, {| reads := 0; complaints := 0 |})
  else
    let '(r, t) := attempts 3 0 in
    (let* role := r in Return (Some role), t).

End Input.

End Role.

(* ================================================================== *)
(** ** The default network ([init/shell.py]) and the passwords
       ([init/credentials.py]) *)
(* ================================================================== *)

Module InitShell.
Import Py.

(** ['.'.join(l)] *)
Fixpoint join_dots (l : list pystr) : pystr :=
  match l with
  | [] => []
  | x :: l' =>
      match l' with
      | [] => x
      | _ => x ++ 46 :: join_dots l'
      end
  end.

(** [l[-1] = v]: [None] where Python raises [IndexError]. *)
Definition set_last (v : pystr) (l : list pystr) : option (list pystr) :=
  match l with
  | [] => None
  | _ => Some (removelast l ++ [v])
  end.

(** ['{}'.format(n)] for an [int] that is not negative. *)
Definition format_int (n : N) : pystr :=
  str (NilEmpty.string_of_uint (N.to_uint n)).

(** The [cidr] of [default_network()], from the gateway and the bits of
    the netmask. *)
Definition default_network_cidr (gateway : pystr) (bits : N) : option pystr :=
  let cidr := split_dots gateway in
  cidr ← set_last (str "0/" ++ format_int bits) cidr;
  Some (join_dots cidr).

End InitShell.

Module Credentials.
Import Py.

Definition DEFAULT_PASSWORD_LENGTH : nat := 32.

Definition ascii_letters : pystr :=
  str "abcdefghijklmnopqrstuvwxyzABCDEFGHIJKLMNOPQRSTUVWXYZ".
Definition digits : pystr := str "0123456789".

Section GeneratePassword.

(** [secrets.randbelow(n)] at its [i]-th call. *)
Variable randbelow : nat -> nat -> nat.

(** [secrets.choice(seq)] is [seq[randbelow(len(seq))]]: [None] where the
    index is off the sequence. *)
Definition choice (i : nat) (seq : pystr) : option N :=
  nth_error seq (randbelow i (length seq)).

(** The characters of [generate_password] from the [i]-th draw on. *)
Fixpoint draws (length i : nat) : option pystr :=
  match length with
  | O => Some []
  | S length' =>
      c ← choice i (ascii_letters ++ digits);
      s ← draws length' (S i);
      Some (c :: s)
  end.

(** [generate_password(length)] *)
Definition generate_password (length : nat) : option pystr := draws length 0.

End GeneratePassword.

End Credentials.

(* ================================================================== *)
(** ** The address questions ([ControlIp], [ComputeIp]) *)
(* ================================================================== *)

Module IpQuestions.
Import Py Snap.

(** [Role.config_key], [ControlIp.config_key], [ComputeIp.config_key] *)
Definition role_key : list pystr := key "config.cluster.role".
Definition control_ip_key : list pystr := key "config.network.control-ip".
Definition compute_ip_key : list pystr := key "config.network.compute-ip".

(** [default_source_address()] *)
Definition default_source_address (w : world) : pyval :=
  config_get w (key "config.network.default-source-ip").

Section Questions.

Variable stored_as : pyval -> pyval.
(** [Question._load] and [Question.ask] of the base class, for a question
    with the given [config_key]; [ask] calls the [_load] of the object. *)
Variable question_load : list pystr -> world -> result pyval.
Variable question_ask :
  list pystr -> (world -> result pyval) -> world -> result pyval * world.

(** [ControlIp._load] *)
Definition control_ip_load (w : world) : result pyval :=
  if eq_str (config_get w role_key) "control" then
    let a := default_source_address w in
    if truthy a then Return a else question_load control_ip_key w
  else question_load control_ip_key w.

(** [ControlIp.ask] *)
Definition control_ip_ask (w : world) : result pyval * world :=
  let role := config_get w role_key in
  if eq_str role "compute" then (Return PyNone, w)
  else question_ask control_ip_key control_ip_load w.

(** [ComputeIp._load]: the base class has no method [load]. *)
Definition compute_ip_load (w : world) : result pyval :=
  let role := config_get w role_key in
  if eq_str role "compute" then
    let a := default_source_address w in
    if truthy a then Return a else raise AttributeError
  else question_load compute_ip_key w.

(** [ComputeIp.ask] *)
Definition compute_ip_ask (w : world) : result pyval * world :=
  let role := config_get w role_key in
  if eq_str role "control" then
    let ip := config_get w control_ip_key in
    (Return PyNone, config_set stored_as [(compute_ip_key, ip)] w)
  else question_ask compute_ip_key compute_ip_load w.

End Questions.

End IpQuestions.

(* ================================================================== *)
(** ** More sample nodes, tokens and answers *)
(* ================================================================== *)

Module MoreSamples.
Import Py Snap.

(** The token of a control node at 10.0.0.1 with a digest of 32 bytes
    [01], the id [a...a] and the secret [b...b]. *)
Definition issued_token : pystr :=
  str "hKhob3N0bmFtZagxMC4wLjAuMatmaW5nZXJwcmludMQgAQEBAQEBAQEBAQEBAQEBAQEBAQEBAQEBAQEBAQEBAQGiaWTZIGFhYWFhYWFhYWFhYWFhYWFhYWFhYWFhYWFhYWFhYWFhpnNlY3JldNkgYmJiYmJiYmJiYmJiYmJiYmJiYmJiYmJiYmJiYmJiYmI=".

(** The map that token carries. *)
Definition issued_data : pyval :=
  PyDict [(KStr (str "hostname"), PyStr (str "10.0.0.1"));
          (KStr (str "fingerprint"), PyBytes (repeat x01 32));
          (KStr (str "id"), PyStr (repeat 97 32));
          (KStr (str "secret"), PyStr (repeat 98 32))].


(** A token whose fingerprint is the text [f...f] of 32 characters. *)
Definition text_fingerprint_token : pystr :=
  str "hKhob3N0bmFtZagxMC4wLjAuMatmaW5nZXJwcmludNkgZmZmZmZmZmZmZmZmZmZmZmZmZmZmZmZmZmZmZmZmZmaiaWTZIGFhYWFhYWFhYWFhYWFhYWFhYWFhYWFhYWFhYWFhYWFhpnNlY3JldNkgYmJiYmJiYmJiYmJiYmJiYmJiYmJiYmJiYmJiYmJiYmI=".

Definition text_fingerprint_data : pyval :=
  PyDict [(KStr (str "hostname"), PyStr (str "10.0.0.1"));
          (KStr (str "fingerprint"), PyStr (repeat 102 32));
          (KStr (str "id"), PyStr (repeat 97 32));
          (KStr (str "secret"), PyStr (repeat 98 32))].

(** A node set up for the compute role. *)
Definition compute_node : world :=
  World (tree_set (key "config.cluster.role") (PyStr (str "compute")) PyNone) ∅.

(** netaddr on the samples: the dotted quad is an IPv4 address. *)
Definition sample_ipv4 (a : pyval) : result bool :=
  Return (eq_str a "10.0.0.1").
Definition sample_ipv6 (a : pyval) : result bool := Return false.


(** A node that knows where its certificate and key go and has neither. *)
Definition unprovisioned_node : world :=
  World (tree_set (key "config.cluster.tls-key-path") (PyStr (str "/key.pem"))
           (tree_set (key "config.cluster.tls-cert-path")
              (PyStr (str "/cert.pem")) PyNone))
        ∅.

(** A control node that has no fingerprint in its configuration. *)
Definition control_node_without_fingerprint : world :=
  World (tree_set (key "config.cluster.role") (PyStr (str "control")) PyNone) ∅.

(** A control node before its certificate is made. *)
Definition fresh_control_node : world :=
  World (tree_set (key "config.cluster.role") (PyStr (str "control"))
           (config unprovisioned_node))
        ∅.

(** The object a control node answers a join with. *)
Definition join_response : pyval :=
  PyDict [(KStr (str "config"),
           PyDict [(KStr (str "credentials"),
                    PyDict [(KStr (str "nova-password"), PyStr (str "secret"))]);
                   (KStr (str "network"),
                    PyDict [(KStr (str "control-ip"), PyStr (str "10.0.0.1"))])])].


End MoreSamples.

(* ================================================================== *)
(** * Properties *)
(* ================================================================== *)

(** ** Bytes and Base64 *)

Module BytesFacts.

Lemma to_N_lt (b : byte) : Byte.to_N b < 256.
Proof. pose proof (Byte.to_N_bounded b). lia. Qed.

Lemma to_N_of_N (n : N) : n < 256 -> Byte.to_N (Bytes.of_N n) = n.
Proof.
  intros Hn. unfold Bytes.of_N. rewrite N.mod_small by exact Hn.
  destruct (Byte.of_N n) as [b|] eqn:E.
  - exact (Byte.to_of_N _ E).
  - apply Byte.of_N_None_iff in E. lia.
Qed.

Lemma of_N_to_N (b : byte) : Bytes.of_N (Byte.to_N b) = b.
Proof.
  unfold Bytes.of_N. rewrite N.mod_small by apply to_N_lt.
  now rewrite Byte.of_to_N.
Qed.

Lemma map_of_N_to_N (bs : list byte) : map Bytes.of_N (map Byte.to_N bs) = bs.
Proof.
  induction bs as [|b bs IH]; simpl; [reflexivity|].
  now rewrite of_N_to_N, IH.
Qed.

(** Checking a predicate on the numbers below a bound by enumeration. *)
Lemma below_forallb (k : nat) (P : N -> bool) :
  forallb P (map N.of_nat (seq 0 k)) = true ->
  forall n, n < N.of_nat k -> P n = true.
Proof.
  intros H n Hn. rewrite forallb_forall in H. apply H.
  apply in_map_iff. exists (N.to_nat n). split; [lia|].
  apply in_seq. lia.
Qed.

Lemma all_complete (b : byte) : In b Bytes.all.
Proof.
  unfold Bytes.all. apply in_map_iff. exists (Byte.to_N b).
  split; [apply of_N_to_N|].
  apply in_map_iff. exists (N.to_nat (Byte.to_N b)).
  pose proof (to_N_lt b). split; [lia|]. apply in_seq. lia.
Qed.

Lemma byte_forallb (P : byte -> bool) :
  forallb P Bytes.all = true -> forall b, P b = true.
Proof.
  intros H b. rewrite forallb_forall in H. apply H, all_complete.
Qed.

Lemma byte_forallb2 (P : byte -> byte -> bool) :
  forallb (fun a => forallb (P a) Bytes.all) Bytes.all = true ->
  forall a b, P a b = true.
Proof.
  intros H a b. apply byte_forallb. exact (byte_forallb _ H a).
Qed.

End BytesFacts.

Module Base64Facts.
Import Py Base64 BytesFacts.

Lemma a2b_b2a (v : N) : v < 64 -> a2b (b2a v) = Some v.
Proof.
  intros Hv.
  pose proof (below_forallb 64 (fun v => bool_decide (a2b (b2a v) = Some v))) as H.
  specialize (H ltac:(vm_compute; reflexivity) v Hv). cbv beta in H.
  now apply bool_decide_eq_true in H.
Qed.

Lemma b2a_not_pad (v : N) : v < 64 -> Byte.eqb (b2a v) pad = false.
Proof.
  intros Hv.
  pose proof (below_forallb 64 (fun v => negb (Byte.eqb (b2a v) pad))) as H.
  specialize (H ltac:(vm_compute; reflexivity) v Hv). cbv beta in H.
  now apply negb_true_iff in H.
Qed.

Lemma b2a_ascii (v : N) : Byte.to_N (b2a v) < 128.
Proof.
  destruct (N.ltb_spec v 64) as [Hv|Hv].
  - pose proof (below_forallb 64 (fun v => Byte.to_N (b2a v) <? 128)) as H.
    specialize (H ltac:(vm_compute; reflexivity) v Hv). cbv beta in H.
    now apply N.ltb_lt in H.
  - unfold b2a. rewrite nth_overflow; [vm_compute; reflexivity|].
    change (length alphabet) with 64%nat. lia.
Qed.

(** One character of the alphabet through the decoder. *)
Lemma a2b_loop_char (v : N) (cs : list byte) (q lc p : N) :
  v < 64 ->
  a2b_loop (b2a v :: cs) q lc p =
  match q with
  | 0 => a2b_loop cs 1 v 0
  | 1 => option_map (cons (Bytes.of_N (N.lor (N.shiftl lc 2) (N.shiftr v 4))))
           (a2b_loop cs 2 (N.land v 0x0f) 0)
  | 2 => option_map (cons (Bytes.of_N (N.lor (N.shiftl lc 4) (N.shiftr v 2))))
           (a2b_loop cs 3 (N.land v 0x03) 0)
  | _ => option_map (cons (Bytes.of_N (N.lor (N.shiftl lc 6) v)))
           (a2b_loop cs 0 0 0)
  end.
Proof.
  intros Hv. cbn [a2b_loop]. now rewrite b2a_not_pad, a2b_b2a.
Qed.

Lemma sextet_facts_hold (a b : byte) : sextet_facts a b = true.
Proof. apply (byte_forallb2 sextet_facts). vm_compute. reflexivity. Qed.


Ltac sextet_bounds :=
  repeat match goal with
  | b : byte |- _ =>
      lazymatch goal with
      | H : Byte.to_N b < 256 |- _ => fail
      | _ => pose proof (to_N_lt b)
      end
  end; nlia.

Ltac use_sextet_facts a b :=
  let H := fresh "F" in
  pose proof (sextet_facts_hold a b) as H;
  unfold sextet_facts in H;
  repeat (apply andb_prop in H; destruct H as [H ?]);
  repeat match goal with
  | H : bool_decide _ = true |- _ => apply bool_decide_eq_true in H
  | H : (_ =? _) = true |- _ => apply N.eqb_eq in H
  end.

(** A full group of three bytes comes back from its four characters. *)
Lemma a2b_loop_group (a b c : byte) (rest : list byte) :
  a2b_loop (b2a_base64 (a :: b :: c :: rest)) 0 0 0 =
  option_map (fun out => a :: b :: c :: out) (a2b_loop (b2a_base64 rest) 0 0 0).
Proof.
  cbn [b2a_base64].
  rewrite a2b_loop_char by sextet_bounds.
  rewrite a2b_loop_char by sextet_bounds.
  rewrite a2b_loop_char by sextet_bounds.
  rewrite a2b_loop_char by sextet_bounds.
  use_sextet_facts a b. use_sextet_facts b c. use_sextet_facts c c.
  repeat match goal with H : _ = _ |- _ => rewrite H; clear H end.
  destruct (a2b_loop (b2a_base64 rest) 0 0 0); reflexivity.
Qed.

Lemma a2b_loop_b2a (n : nat) (bs : list byte) :
  (length bs <= n)%nat -> a2b_loop (b2a_base64 bs) 0 0 0 = Some bs.
Proof.
  revert bs. induction n as [n IH] using lt_wf_ind. intros bs Hlen.
  destruct bs as [|a [|b [|c rest]]].
  - reflexivity.
  - cbn [b2a_base64].
    rewrite a2b_loop_char by sextet_bounds.
    rewrite a2b_loop_char by sextet_bounds.
    use_sextet_facts a a.
    repeat match goal with H : _ = _ |- _ => rewrite H; clear H end.
    reflexivity.
  - cbn [b2a_base64].
    rewrite a2b_loop_char by sextet_bounds.
    rewrite a2b_loop_char by sextet_bounds.
    rewrite a2b_loop_char by sextet_bounds.
    use_sextet_facts a b. use_sextet_facts b b.
    repeat match goal with H : _ = _ |- _ => rewrite H; clear H end.
    reflexivity.
  - rewrite a2b_loop_group.
    rewrite (IH (length rest)); [reflexivity | simpl in Hlen; lia | lia].
Qed.

(** [a2b_base64] undoes [b2a_base64]. *)
Lemma a2b_base64_b2a_base64 (bs : list byte) :
  a2b_base64 (b2a_base64 bs) = Return bs.
Proof.
  unfold a2b_base64. now rewrite (a2b_loop_b2a (length bs)).
Qed.

Lemma b2a_base64_ascii_upto (n : nat) (bs : list byte) :
  (length bs <= n)%nat ->
  forallb (fun x => Byte.to_N x <? 128) (b2a_base64 bs) = true.
Proof.
  revert bs. induction n as [n IH] using lt_wf_ind. intros bs Hlen.
  assert (P : forall v, (Byte.to_N (b2a v) <? 128) = true)
    by (intros v; apply N.ltb_lt, b2a_ascii).
  destruct bs as [|a [|b [|c rest]]]; cbn [b2a_base64 forallb];
    rewrite ?P; try reflexivity.
  cbn [andb]. apply (IH (length rest)); simpl in *; lia.
Qed.

Lemma b2a_base64_ascii (bs : list byte) :
  forallb (fun x => Byte.to_N x <? 128) (b2a_base64 bs) = true.
Proof. exact (b2a_base64_ascii_upto (length bs) bs (le_n _)). Qed.

Lemma encode_ascii_map_to_N (cs : list byte) :
  forallb (fun x => Byte.to_N x <? 128) cs = true ->
  Codec.encode_ascii (map Byte.to_N cs) = Return cs.
Proof.
  intros H. unfold Codec.encode_ascii.
  assert (E : forallb (fun c => c <? 128) (map Byte.to_N cs) = true).
  { clear -H. induction cs as [|c cs IH]; [reflexivity|].
    simpl in *. apply andb_prop in H as [-> H]. now apply IH. }
  rewrite E. now rewrite map_of_N_to_N.
Qed.

(** The text of [encode_as_text] is read back by
    [decode_as_bytes(text.encode('ascii'))]. *)
Lemma base64_roundtrip (bs : list byte) :
  exists text,
    encode_as_text bs = Return text /\
    (let* ascii := Codec.encode_ascii text in decode_as_bytes ascii) = Return bs.
Proof.
  exists (map Byte.to_N (b2a_base64 bs)).
  pose proof (b2a_base64_ascii bs) as Hascii.
  split.
  - unfold encode_as_text, Codec.decode_ascii. now rewrite Hascii.
  - rewrite encode_ascii_map_to_N by exact Hascii. cbn [bind].
    unfold decode_as_bytes, Codec.decode_ascii. rewrite Hascii. cbn [bind].
    unfold b64decode. rewrite encode_ascii_map_to_N by exact Hascii.
    now rewrite a2b_base64_b2a_base64.
Qed.

End Base64Facts.

(** ** Text codecs *)

Module CodecFacts.
Import Py Codec BytesFacts.

Ltac decide_ltb :=
  repeat match goal with
  | |- context [?a <? ?b] => destruct (N.ltb_spec a b); try nlia
  | |- context [?a <=? ?b] => destruct (N.leb_spec a b); try nlia
  | H : context [?a <? ?b] |- _ => destruct (N.ltb_spec a b); try nlia
  | H : context [?a <=? ?b] |- _ => destruct (N.leb_spec a b); try nlia
  end.

(** Decoding reads back the image of one code point. *)
Lemma decode_utf8_char (c : N) (bs rest : list byte) :
  utf8_char c = Some bs ->
  decode_utf8 (bs ++ rest) = option_map (cons c) (decode_utf8 rest).
Proof.
  unfold utf8_char. intros H.
  destruct (N.ltb_spec c 0x80).
  { injection H as <-. cbn [app decode_utf8].
    rewrite !to_N_of_N by nlia. decide_ltb. reflexivity. }
  destruct (N.ltb_spec c 0x800).
  { injection H as <-. cbn [app decode_utf8]. unfold is_cont.
    rewrite !to_N_of_N by nlia. decide_ltb. cbn [andb negb].
    decide_ltb. f_equal. f_equal. nlia. }
  destruct (N.ltb_spec c 0x10000).
  { destruct (N.leb_spec 0xD800 c); destruct (N.leb_spec c 0xDFFF);
      cbn [andb] in H; try discriminate; injection H as <-;
      cbn [app decode_utf8]; unfold is_cont;
      rewrite !to_N_of_N by nlia; decide_ltb; cbn [andb negb orb];
      decide_ltb; cbn [andb negb orb]; decide_ltb; f_equal; f_equal; nlia. }
  destruct (N.ltb_spec c 0x110000); [|discriminate].
  injection H as <-. cbn [app decode_utf8]. unfold is_cont.
  rewrite !to_N_of_N by nlia. decide_ltb. cbn [andb negb orb].
  decide_ltb. cbn [andb negb orb]. decide_ltb. f_equal. f_equal. nlia.
Qed.

(** [b.decode('utf-8')] undoes [s.encode('utf-8')]. *)
Lemma decode_encode_utf8 (s : pystr) (bs : list byte) :
  encode_utf8 s = Some bs -> decode_utf8 bs = Some s.
Proof.
  revert bs. induction s as [|c s IH]; intros bs H; simpl in H.
  - now injection H as <-.
  - destruct (utf8_char c) as [cb|] eqn:Ec; [|discriminate].
    destruct (encode_utf8 s) as [sb|] eqn:Es; [|discriminate].
    injection H as <-. rewrite (decode_utf8_char _ _ _ Ec).
    now rewrite (IH sb eq_refl).
Qed.

End CodecFacts.

(** ** Hexadecimal and MessagePack *)

Module HexFacts.
Import Py Codec BytesFacts.

Lemma hex_byte_facts_hold (b : byte) : hex_byte_facts b = true.
Proof. apply (byte_forallb hex_byte_facts). vm_compute. reflexivity. Qed.

(** [bytes.fromhex] undoes [.hex()]. *)
Lemma fromhex_str_hex (b : list byte) : fromhex_str (hex b) = Some b.
Proof.
  induction b as [|x b IH]; [reflexivity|].
  pose proof (hex_byte_facts_hold x) as F. unfold hex_byte_facts in F.
  repeat (apply andb_prop in F; destruct F as [F ?]).
  repeat match goal with
  | H : bool_decide _ = true |- _ => apply bool_decide_eq_true in H
  | H : negb _ = true |- _ => apply negb_true_iff in H
  end.
  cbn [hex fromhex_str].
  repeat match goal with H : _ = _ |- _ => rewrite H; clear H end.
  cbn [option_map]. reflexivity.
Qed.

Lemma fromhex_hex (b : list byte) : fromhex (PyStr (hex b)) = Return b.
Proof. unfold fromhex. now rewrite fromhex_str_hex. Qed.

Lemma length_hex (b : list byte) : length (hex b) = (2 * length b)%nat.
Proof. induction b as [|x b IH]; simpl; lia. Qed.

End HexFacts.

Module MsgpackFacts.
Import Py Msgpack BytesFacts.

Lemma Return_inj {A} (a b : A) : Return a = Return b -> a = b.
Proof. congruence. Qed.

Lemma to_N_of_N_mod (n : N) : Byte.to_N (Bytes.of_N n) = n mod 256.
Proof.
  unfold Bytes.of_N.
  destruct (Byte.of_N (n mod 256)) as [b|] eqn:E.
  - exact (Byte.to_of_N _ E).
  - apply Byte.of_N_None_iff in E.
    pose proof (N.mod_upper_bound n 256). lia.
Qed.

Lemma length_be_encode (k : nat) (n : N) : length (Bytes.be_encode k n) = k.
Proof. induction k as [|k IH]; simpl; [reflexivity | now rewrite IH]. Qed.

Lemma be_fold (k : nat) (n acc : N) :
  fold_left (fun a b => a * 256 + Byte.to_N b) (Bytes.be_encode k n) acc
  = acc * 256 ^ N.of_nat k + n mod 256 ^ N.of_nat k.
Proof.
  revert acc. induction k as [|k IH]; intros acc.
  - cbn. rewrite N.mod_1_r. lia.
  - cbn [Bytes.be_encode fold_left]. rewrite IH, to_N_of_N_mod.
    replace (N.of_nat (S k)) with (N.succ (N.of_nat k)) by lia.
    rewrite N.pow_succ_r'.
    rewrite (N.mul_comm 256 (256 ^ N.of_nat k)).
    rewrite (N.Div0.mod_mul_r n (256 ^ N.of_nat k) 256).
    lia.
Qed.

(** A length written on [k] bytes is read back. *)
Lemma be_decode_encode (k : nat) (n : N) :
  n < 256 ^ N.of_nat k -> Bytes.be_decode (Bytes.be_encode k n) = n.
Proof.
  intros Hn. unfold Bytes.be_decode. rewrite be_fold.
  rewrite N.mod_small by exact Hn. lia.
Qed.

Lemma split_at_app (p r : list byte) :
  Bytes.split_at (N.of_nat (length p)) (p ++ r) = Some (p, r).
Proof.
  unfold Bytes.split_at. rewrite length_app.
  destruct (N.ltb_spec (N.of_nat (length p + length r)) (N.of_nat (length p)));
    [lia|].
  rewrite Nat2N.id. rewrite firstn_app, skipn_app.
  rewrite Nat.sub_diag, firstn_all, skipn_all. cbn. now rewrite app_nil_r.
Qed.

Lemma take_app (n : N) (p r : list byte) :
  n = N.of_nat (length p) -> take n (p ++ r) = Return (p, r).
Proof. intros ->. unfold take. now rewrite split_at_app. Qed.

Lemma read_uint_be (k : nat) (n : N) (r : list byte) :
  n < 256 ^ N.of_nat k ->
  read_uint (N.of_nat k) (Bytes.be_encode k n ++ r) = Return (n, r).
Proof.
  intros Hn. unfold read_uint.
  rewrite take_app by now rewrite length_be_encode.
  cbn [bind]. now rewrite be_decode_encode.
Qed.

Lemma read_uint_byte (n : N) (r : list byte) :
  n < 256 -> read_uint 1 (Bytes.of_N n :: r) = Return (n, r).
Proof.
  intros Hn. unfold read_uint.
  change (Bytes.of_N n :: r) with ([Bytes.of_N n] ++ r).
  rewrite (take_app 1 [Bytes.of_N n] r) by reflexivity. cbn [bind].
  unfold Bytes.be_decode. cbn [fold_left]. rewrite to_N_of_N by exact Hn.
  reflexivity.
Qed.

Lemma unpack_str_app (s : pystr) (b r : list byte) :
  Codec.encode_utf8 s = Some b ->
  unpack_str (N.of_nat (length b)) (b ++ r) = Return (PyStr s, r).
Proof.
  intros E. unfold unpack_str. rewrite take_app by reflexivity. cbn [bind].
  now rewrite (CodecFacts.decode_encode_utf8 _ _ E).
Qed.

Lemma unpack_bin_app (b r : list byte) :
  unpack_bin (N.of_nat (length b)) (b ++ r) = Return (PyBytes b, r).
Proof. unfold unpack_bin. now rewrite take_app by reflexivity. Qed.

(** The leading bytes of the length-prefixed formats. *)
Lemma unpack_fixstr (d : nat) (n : N) (r : list byte) :
  n < 32 -> unpack d (Bytes.of_N (0xa0 + n) :: r) = unpack_str n r.
Proof.
  intros Hn. destruct d; cbn [unpack]; cbv zeta;
    rewrite to_N_of_N by lia; CodecFacts.decide_ltb;
    now replace (160 + n - 160) with n by lia.
Qed.

Lemma unpack_str8 (d : nat) (r : list byte) :
  unpack d (xd9 :: r) = (let* (n, r') := read_uint 1 r in unpack_str n r').
Proof. destruct d; reflexivity. Qed.

Lemma unpack_str16 (d : nat) (r : list byte) :
  unpack d (xda :: r) = (let* (n, r') := read_uint 2 r in unpack_str n r').
Proof. destruct d; reflexivity. Qed.

Lemma unpack_str32 (d : nat) (r : list byte) :
  unpack d (xdb :: r) = (let* (n, r') := read_uint 4 r in unpack_str n r').
Proof. destruct d; reflexivity. Qed.

Lemma unpack_bin8 (d : nat) (r : list byte) :
  unpack d (xc4 :: r) = (let* (n, r') := read_uint 1 r in unpack_bin n r').
Proof. destruct d; reflexivity. Qed.

Lemma unpack_bin16 (d : nat) (r : list byte) :
  unpack d (xc5 :: r) = (let* (n, r') := read_uint 2 r in unpack_bin n r').
Proof. destruct d; reflexivity. Qed.

Lemma unpack_bin32 (d : nat) (r : list byte) :
  unpack d (xc6 :: r) = (let* (n, r') := read_uint 4 r in unpack_bin n r').
Proof. destruct d; reflexivity. Qed.

Lemma unpack_fixmap4 (d : nat) (r : list byte) :
  unpack (S d) (x84 :: r) =
  (let* (m, r') := unpack_pairs (unpack d) (length r) 4 r [] in
   Return (PyDict m, r')).
Proof. reflexivity. Qed.

(** A packed [str] is read back, whatever follows it. *)
Lemma unpack_pack_str (s : pystr) (p : list byte) :
  pack_str s = Return p ->
  forall d r, unpack d (p ++ r) = Return (PyStr s, r).
Proof.
  unfold pack_str. destruct (Codec.encode_utf8 s) as [b|] eqn:E; [|discriminate].
  unfold str_header. set (n := N.of_nat (length b)).
  intros H d r.
  destruct (N.ltb_spec n 32).
  { cbn [bind] in H. apply Return_inj in H as <-. rewrite <- app_assoc. cbn [app].
    rewrite unpack_fixstr by assumption.
    now apply unpack_str_app. }
  destruct (N.ltb_spec n 256).
  { cbn [bind] in H. apply Return_inj in H as <-. rewrite <- app_assoc. cbn [app].
    rewrite unpack_str8.
    rewrite read_uint_byte by assumption. cbn [bind].
    now apply unpack_str_app. }
  destruct (N.ltb_spec n 65536).
  { cbn [bind] in H. apply Return_inj in H as <-. rewrite <- app_assoc. cbn [app].
    rewrite unpack_str16.
    rewrite (read_uint_be 2) by (cbn; lia). cbn [bind].
    now apply unpack_str_app. }
  destruct (N.ltb_spec n (2 ^ 32)); [|discriminate].
  cbn [bind] in H. apply Return_inj in H as <-. rewrite <- app_assoc. cbn [app].
  rewrite unpack_str32.
  rewrite (read_uint_be 4) by (cbn; lia). cbn [bind].
  now apply unpack_str_app.
Qed.

(** Packed [bytes] are read back, whatever follows them. *)
Lemma unpack_pack_bin (b p : list byte) :
  pack_bin b = Return p ->
  forall d r, unpack d (p ++ r) = Return (PyBytes b, r).
Proof.
  unfold pack_bin, bin_header. set (n := N.of_nat (length b)).
  intros H d r.
  destruct (N.ltb_spec n 256).
  { cbn [bind] in H. apply Return_inj in H as <-. rewrite <- app_assoc. cbn [app].
    rewrite unpack_bin8.
    rewrite read_uint_byte by assumption. cbn [bind].
    apply unpack_bin_app. }
  destruct (N.ltb_spec n 65536).
  { cbn [bind] in H. apply Return_inj in H as <-. rewrite <- app_assoc. cbn [app].
    rewrite unpack_bin16.
    rewrite (read_uint_be 2) by (cbn; lia). cbn [bind].
    apply unpack_bin_app. }
  destruct (N.ltb_spec n (2 ^ 32)); [|discriminate].
  cbn [bind] in H. apply Return_inj in H as <-. rewrite <- app_assoc. cbn [app].
  rewrite unpack_bin32.
  rewrite (read_uint_be 4) by (cbn; lia). cbn [bind].
  apply unpack_bin_app.
Qed.

End MsgpackFacts.

(** ** Tokens through MessagePack *)

Module TokenFacts.
Import Py Msgpack BytesFacts MsgpackFacts.

Lemma utf8_char_scalar (c : N) :
  Codec.scalar c ->
  exists b, Codec.utf8_char c = Some b /\ (1 <= length b <= 4)%nat.
Proof.
  unfold Codec.scalar, Codec.utf8_char. intros H.
  CodecFacts.decide_ltb; cbn [andb]; eexists; (split; [reflexivity | simpl; lia]).
Qed.

Lemma encode_utf8_text (s : pystr) :
  Codec.text s ->
  exists b, Codec.encode_utf8 s = Some b /\ (length b <= 4 * length s)%nat.
Proof.
  induction 1 as [|c s Hc _ IH]; [exists []; split; [reflexivity | simpl; lia]|].
  destruct (utf8_char_scalar c Hc) as (cb & Ec & Hcb).
  destruct IH as (sb & Es & Hsb).
  exists (cb ++ sb). cbn [Codec.encode_utf8]. rewrite Ec, Es.
  split; [reflexivity|]. rewrite length_app. simpl. lia.
Qed.

Lemma str_header_ok (n : N) :
  n < 2 ^ 32 -> exists h, str_header n = Return h /\ h <> [].
Proof.
  intros Hn. unfold str_header.
  CodecFacts.decide_ltb; eexists; (split; [reflexivity | discriminate]).
Qed.

Lemma bin_header_ok (n : N) :
  n < 2 ^ 32 -> exists h, bin_header n = Return h /\ h <> [].
Proof.
  intros Hn. unfold bin_header.
  CodecFacts.decide_ltb; eexists; (split; [reflexivity | discriminate]).
Qed.

(** Text of fewer than 2^30 code points can be packed. *)
Lemma pack_str_text (s : pystr) :
  Codec.text s -> N.of_nat (length s) < 2 ^ 30 ->
  exists p, pack_str s = Return p /\ p <> [].
Proof.
  intros Ht Hlen. destruct (encode_utf8_text s Ht) as (b & E & Hb).
  unfold pack_str. rewrite E.
  destruct (str_header_ok (N.of_nat (length b))) as (h & -> & Hh); [lia|].
  exists (h ++ b). split; [reflexivity|].
  destruct h; [congruence | discriminate].
Qed.

Lemma pack_bin_short (b : list byte) :
  N.of_nat (length b) < 2 ^ 32 -> exists p, pack_bin b = Return p /\ p <> [].
Proof.
  intros Hlen. unfold pack_bin.
  destruct (bin_header_ok _ Hlen) as (h & -> & Hh).
  exists (h ++ b). split; [reflexivity|].
  destruct h; [congruence | discriminate].
Qed.

(** One entry of a map through [unpack_pairs]. *)
Lemma unpack_pairs_entry (d f : nat) (n : N) (k : pystr) (v : pyval)
    (kp vp r : list byte) (acc : list (pykey * pyval)) :
  0 < n ->
  pack_str k = Return kp ->
  (forall r', unpack d (vp ++ r') = Return (v, r')) ->
  unpack_pairs (unpack d) (S f) n (kp ++ vp ++ r) acc
  = unpack_pairs (unpack d) f (n - 1) r (dict_set (KStr k) v acc).
Proof.
  intros Hn Hk Hv. cbn [unpack_pairs].
  destruct (N.eqb_spec n 0); [lia|].
  rewrite (unpack_pack_str _ _ Hk). cbn [bind as_key].
  rewrite Hv. reflexivity.
Qed.

Lemma unpack_pairs_done (elem : list byte -> result (pyval * list byte))
    (f : nat) (bs : list byte) (acc : list (pykey * pyval)) :
  unpack_pairs elem f 0 bs acc = Return (acc, bs).
Proof. destruct f; reflexivity. Qed.

Lemma length_app_nonempty {A} (p q : list A) :
  p <> [] -> exists m, length (p ++ q) = S (m + length q).
Proof.
  destruct p as [|a p]; [congruence|]. intros _. exists (length p).
  simpl. now rewrite length_app.
Qed.

(** The four-entry map of a token is read back as it was packed. *)
Lemma loads_dumps_token (hostname id secret : pystr) (fingerprint : list byte) :
  Codec.text hostname -> N.of_nat (length hostname) < 2 ^ 30 ->
  N.of_nat (length fingerprint) < 2 ^ 32 ->
  Codec.text id -> N.of_nat (length id) < 2 ^ 30 ->
  Codec.text secret -> N.of_nat (length secret) < 2 ^ 30 ->
  let data := PyDict [(KStr (str "hostname"), PyStr hostname);
                      (KStr (str "fingerprint"), PyBytes fingerprint);
                      (KStr (str "id"), PyStr id);
                      (KStr (str "secret"), PyStr secret)] in
  exists packed, dumps data = Return packed /\ loads packed = Return data.
Proof.
  intros Hh Hhl Hfl Hi Hil Hs Hsl data.
  destruct (pack_str_text _ Hh Hhl) as (v1 & Ev1 & N1).
  destruct (pack_bin_short _ Hfl) as (v2 & Ev2 & N2).
  destruct (pack_str_text _ Hi Hil) as (v3 & Ev3 & N3).
  destruct (pack_str_text _ Hs Hsl) as (v4 & Ev4 & N4).
  assert (exists p, pack_str (str "hostname") = Return p /\ p <> [])
    as (k1 & Ek1 & K1) by (eexists; split; [vm_compute; reflexivity | discriminate]).
  assert (exists p, pack_str (str "fingerprint") = Return p /\ p <> [])
    as (k2 & Ek2 & K2) by (eexists; split; [vm_compute; reflexivity | discriminate]).
  assert (exists p, pack_str (str "id") = Return p /\ p <> [])
    as (k3 & Ek3 & K3) by (eexists; split; [vm_compute; reflexivity | discriminate]).
  assert (exists p, pack_str (str "secret") = Return p /\ p <> [])
    as (k4 & Ek4 & K4) by (eexists; split; [vm_compute; reflexivity | discriminate]).
  exists (x84 :: k1 ++ v1 ++ k2 ++ v2 ++ k3 ++ v3 ++ k4 ++ v4 ++ []).
  split.
  - unfold dumps, data. cbn [packb length pack_key].
    change (map_header (N.of_nat 4)) with (Return (A:=list byte) [x84]).
    rewrite Ek1, Ek2, Ek3, Ek4, Ev1, Ev2, Ev3, Ev4. cbn [bind app].
    reflexivity.
  - unfold loads, unpackb.
    change 1024%nat with (S 1023). rewrite unpack_fixmap4.
    set (d := 1023%nat).
    destruct (length_app_nonempty k1 (v1 ++ k2 ++ v2 ++ k3 ++ v3 ++ k4 ++ v4 ++ []) K1)
      as (m1 & ->).
    destruct (length_app_nonempty v1 (k2 ++ v2 ++ k3 ++ v3 ++ k4 ++ v4 ++ []) N1)
      as (m2 & ->).
    destruct (length_app_nonempty k2 (v2 ++ k3 ++ v3 ++ k4 ++ v4 ++ []) K2)
      as (m3 & ->).
    destruct (length_app_nonempty v2 (k3 ++ v3 ++ k4 ++ v4 ++ []) N2)
      as (m4 & ->).
    replace (S (m1 + S (m2 + S (m3 + S (m4 + length (k3 ++ v3 ++ k4 ++ v4 ++ []))))))
      with (S (S (S (S (m1 + m2 + m3 + m4 + length (k3 ++ v3 ++ k4 ++ v4 ++ []))))))
      by lia.
    rewrite (unpack_pairs_entry d _ 4 (str "hostname") (PyStr hostname) k1 v1);
      [| lia | assumption | intros; now apply unpack_pack_str].
    rewrite (unpack_pairs_entry d _ _ (str "fingerprint") (PyBytes fingerprint) k2 v2);
      [| cbn; lia | assumption | intros; now apply unpack_pack_bin].
    rewrite (unpack_pairs_entry d _ _ (str "id") (PyStr id) k3 v3);
      [| cbn; lia | assumption | intros; now apply unpack_pack_str].
    rewrite (unpack_pairs_entry d _ _ (str "secret") (PyStr secret) k4 v4);
      [| cbn; lia | assumption | intros; now apply unpack_pack_str].
    change (4 - 1 - 1 - 1 - 1) with 0. rewrite unpack_pairs_done.
    reflexivity.
Qed.

End TokenFacts.

(** ** The token between issuer and client *)

Module TokenClaims.
Import Py BytesFacts.

(** C1. Round trip of the token: for a hostname that is text (Unicode
    scalar values, fewer than 2^30 of them), a 32-byte fingerprint and a
    32-character id and secret, the dictionary [add_compute] assembles is
    serialized to a token, and decoding that token the way
    [ConnectionString._validate] does gives a map whose [hostname],
    [fingerprint], [id] and [secret] entries are the original fields. *)
Theorem token_round_trip
    (hostname : pystr) (fingerprint : list byte) (id secret : pystr) :
  Codec.text hostname -> N.of_nat (length hostname) < 2 ^ 30 ->
  length fingerprint = 32%nat ->
  Codec.text id -> length id = 32%nat ->
  Codec.text secret -> length secret = 32%nat ->
  exists data token conn_info,
    Issuer.token_data (PyStr hostname) (PyStr (Codec.hex fingerprint))
      {| Issuer.cred_id := PyStr id; Issuer.cred_secret := PyStr secret |}
      = Return data
    /\ Issuer.connection_string data = Return token
    /\ Clustering.decode token = Return conn_info
    /\ get conn_info (str "hostname") = Return (PyStr hostname)
    /\ get conn_info (str "fingerprint") = Return (PyBytes fingerprint)
    /\ get conn_info (str "id") = Return (PyStr id)
    /\ get conn_info (str "secret") = Return (PyStr secret).
Proof.
  intros Hh Hhl Hf Hi Hil Hs Hsl.
  destruct (TokenFacts.loads_dumps_token hostname id secret fingerprint)
    as (packed & Hdumps & Hloads); try assumption; try lia.
  destruct (Base64Facts.base64_roundtrip packed) as (token & Henc & Hdec).
  exists (PyDict [(KStr (str "hostname"), PyStr hostname);
                  (KStr (str "fingerprint"), PyBytes fingerprint);
                  (KStr (str "id"), PyStr id);
                  (KStr (str "secret"), PyStr secret)]), token.
  eexists. split; [|split; [|split]].
  - unfold Issuer.token_data. rewrite HexFacts.fromhex_hex. reflexivity.
  - unfold Issuer.connection_string. rewrite Hdumps. exact Henc.
  - unfold Clustering.decode.
    destruct (Codec.encode_ascii token) as [ascii|e]; [|discriminate].
    cbn [bind] in *. rewrite Hdec. exact Hloads.
  - repeat split; reflexivity.
Qed.

Lemma token_round_trip_witness :
  exists data token conn_info,
    Issuer.token_data (PyStr (str "10.0.0.1"))
      (PyStr (Codec.hex (repeat x01 32)))
      {| Issuer.cred_id := PyStr (repeat 97 32);
         Issuer.cred_secret := PyStr (repeat 98 32) |} = Return data
    /\ Issuer.connection_string data = Return token
    /\ Clustering.decode token = Return conn_info
    /\ get conn_info (str "hostname") = Return (PyStr (str "10.0.0.1"))
    /\ get conn_info (str "fingerprint") = Return (PyBytes (repeat x01 32))
    /\ get conn_info (str "id") = Return (PyStr (repeat 97 32))
    /\ get conn_info (str "secret") = Return (PyStr (repeat 98 32)).
Proof.
  apply (token_round_trip (str "10.0.0.1") (repeat x01 32)
           (repeat 97 32) (repeat 98 32));
    try reflexivity;
    try (repeat (constructor; [left; reflexivity|]); constructor).
Defined.

End TokenClaims.

(** ** Token validation *)

Module ValidationFacts.
Import Py Clustering.

Section Facts.

Variables valid_ipv4 valid_ipv6 : pyval -> result bool.

(** Once the token decodes, [_validate] is its field checks. *)
Lemma validate_decoded (answer : pystr) (conn_info : pyval) :
  decode answer = Return conn_info ->
  _validate valid_ipv4 valid_ipv6 answer
  = validate_fields valid_ipv4 valid_ipv6 answer conn_info.
Proof.
  unfold decode, _validate.
  destruct (Codec.encode_ascii answer) as [ascii|e]; [|discriminate].
  cbn [bind].
  destruct (Base64.decode_as_bytes ascii) as [bs|e]; [|discriminate].
  cbn [bind]. now intros ->.
Qed.

(** On text, [_validate_hostname] returns or raises a [ValueError]. *)
Lemma validate_hostname_text (h : pystr) :
  _validate_hostname (PyStr h) = Return tt
  \/ exists r, _validate_hostname (PyStr h) = Raise (Exn ValueError r).
Proof.
  unfold _validate_hostname. cbn [len bind].
  repeat match goal with
  | |- context [if ?c then _ else _] => destruct c
  end; eauto.
Qed.

Lemma validate_fingerprint_bytes (b : list byte) :
  _validate_fingerprint (PyBytes b) =
  if bool_decide (length b = 32%nat) then Return tt
  else Raise (Exn ValueError (FingerprintLength (N.of_nat (length b)) 32)).
Proof.
  unfold _validate_fingerprint, digest_size. cbn [len bind].
  case_bool_decide as E.
  - rewrite E. reflexivity.
  - destruct (N.eqb_spec (N.of_nat (length b)) 32); [lia | reflexivity].
Qed.

Lemma validate_credential_id_text (s : pystr) :
  _validate_credential_id (PyStr s) =
  if bool_decide (length s = 32%nat) then Return tt
  else Raise (Exn ValueError (CredentialIdLength (N.of_nat (length s)) 32)).
Proof.
  unfold _validate_credential_id. cbn [len bind].
  case_bool_decide as E.
  - rewrite E. reflexivity.
  - destruct (N.eqb_spec (N.of_nat (length s)) 32); [lia | reflexivity].
Qed.

Lemma validate_credential_secret_text (s : pystr) :
  _validate_credential_secret (PyStr s) =
  if bool_decide (length s = 32%nat) then Return tt
  else Raise (Exn ValueError (CredentialSecretLength (N.of_nat (length s)) 32)).
Proof.
  unfold _validate_credential_secret. cbn [len bind].
  case_bool_decide as E.
  - rewrite E. reflexivity.
  - destruct (N.eqb_spec (N.of_nat (length s)) 32); [lia | reflexivity].
Qed.

(** A token with a field of the wrong length is turned down with a message
    that names a field. *)
Lemma wrong_length_rejected (answer : pystr) :
  wrong_length valid_ipv4 valid_ipv6 answer ->
  exists m, _validate valid_ipv4 valid_ipv6 answer = reject answer m
            /\ names_field m = true.
Proof.
  intros (conn_info & h & fp & cid & sec & v4 & v6 &
          Hdec & Hh & H4 & H6 & Hfp & Hid & Hsec & Hlen).
  rewrite (validate_decoded _ _ Hdec). unfold validate_fields.
  rewrite Hh, Hfp, Hid, Hsec.
  assert (Haddr : _validate_address valid_ipv4 valid_ipv6 (PyStr h) = Return tt
                  \/ exists r, _validate_address valid_ipv4 valid_ipv6 (PyStr h)
                               = Raise (Exn ValueError r)).
  { unfold _validate_address. rewrite H4. cbn [bind].
    destruct v4; cbn [bind]; [now left|].
    rewrite H6. cbn [bind]. destruct v6; [now left | right; eauto]. }
  assert (Hrest :
    exists m,
      match _validate_fingerprint (PyBytes fp) with
      | Raise e =>
          if isinstance e ValueError
          then reject answer (FingerprintRejected (exn_reason e))
          else propagate e
      | Return _ =>
          match _validate_credential_id (PyStr cid) with
          | Raise e =>
              if isinstance e ValueError
              then reject answer (CredentialIdRejected (exn_reason e))
              else propagate e
          | Return _ =>
              match _validate_credential_secret (PyStr sec) with
              | Raise e =>
                  if isinstance e ValueError
                  then reject answer (CredentialSecretRejected (exn_reason e))
                  else propagate e
              | Return _ => accept answer conn_info
              end
          end
      end = reject answer m /\ names_field m = true).
  { rewrite validate_fingerprint_bytes, validate_credential_id_text,
      validate_credential_secret_text.
    repeat case_bool_decide; try (eexists; split; reflexivity).
    exfalso. tauto. }
  destruct Hrest as (m & Hm & Hn).
  destruct Haddr as [-> | (r & ->)].
  - exists m. split; [exact Hm | exact Hn].
  - change (isinstance (Exn ValueError r) ValueError) with true. cbv iota.
    destruct (validate_hostname_text h) as [-> | (r' & ->)].
    + exists m. split; [exact Hm | exact Hn].
    + change (isinstance (Exn ValueError r') ValueError) with true. cbv iota.
      eexists. split; reflexivity.
Qed.

(** A text with a character outside ASCII leaves [_validate] as a
    [UnicodeEncodeError]: the handler of the first step catches
    [TypeError] only. *)
Lemma validate_non_ascii (answer : pystr) :
  forallb (fun c => c <? 128) answer = false ->
  _validate valid_ipv4 valid_ipv6 answer
  = propagate (Exn UnicodeEncodeError NoDetail).
Proof.
  intros H. unfold _validate, Codec.encode_ascii. rewrite H. reflexivity.
Qed.

(** Padding that [binascii] refuses is reported as a rejected answer. *)
Lemma validate_bad_padding (answer : pystr) (ascii : list byte) :
  Codec.encode_ascii answer = Return ascii ->
  Base64.a2b_base64 ascii = raise BinasciiError ->
  _validate valid_ipv4 valid_ipv6 answer = reject answer NonAscii.
Proof.
  intros Ha Hb. unfold _validate. rewrite Ha. cbn [bind].
  unfold Base64.decode_as_bytes, Codec.decode_ascii.
  assert (Hascii : forallb (fun x => Byte.to_N x <? 128) ascii = true).
  { unfold Codec.encode_ascii in Ha.
    destruct (forallb (fun c => c <? 128) answer) eqn:E; [|discriminate].
    apply MsgpackFacts.Return_inj in Ha as <-.
    clear -E. induction answer as [|c s IH]; [reflexivity|].
    simpl in *. apply andb_prop in E as [Ec Es].
    apply N.ltb_lt in Ec.
    rewrite BytesFacts.to_N_of_N by lia.
    apply N.ltb_lt in Ec. rewrite Ec. now apply IH. }
  rewrite Hascii. cbn [bind]. unfold Base64.b64decode.
  assert (Hback : Codec.encode_ascii (map Byte.to_N ascii) = Return ascii)
    by now apply Base64Facts.encode_ascii_map_to_N.
  rewrite Hback, Hb. reflexivity.
Qed.

End Facts.

End ValidationFacts.

Module ValidationClaims.
Import Py Snap Clustering ValidationFacts Samples.

Section Flow.

Variables valid_ipv4 valid_ipv6 : pyval -> result bool.
Variable stored_as : pyval -> pyval.
Variable urlopen : Client.request -> Client.urlopen_outcome.
Variable json_loads : pystr -> result pyval.
Variable _load : world -> option pystr.
Variable _input_func : nat -> option pystr.

(** Turns that are all answered with tokens of a wrong length use up the
    retries: nothing is saved and every line printed names a field. *)
Lemma ask_loop_wrong_length (n i : nat) (dflt : option pystr) (w : world) :
  (forall j, (i <= j < i + n)%nat ->
     exists answer, Init.answer_at _input_func dflt j = Some answer
                    /\ wrong_length valid_ipv4 valid_ipv6 answer) ->
  exists log,
    Init.ask_loop valid_ipv4 valid_ipv6 stored_as _input_func n i dflt w
    = (raise InvalidAnswer, log, w)
    /\ Forall (fun e => exists m, e = Init.Stderr m /\ names_field m = true) log.
Proof.
  revert i. induction n as [|n IH]; intros i H.
  - exists []. split; [reflexivity | constructor].
  - destruct (H i ltac:(lia)) as (answer & Ha & Hw).
    destruct (wrong_length_rejected _ _ _ Hw) as (m & Hv & Hm).
    destruct (IH (S i)) as (log & Hlog & Hall).
    { intros j Hj. apply H. lia. }
    exists (Init.Stderr m :: log). cbn [Init.ask_loop].
    rewrite Ha, Hv. cbn [outcome printed reject map]. rewrite Hlog.
    split; [reflexivity|]. constructor; [eauto | exact Hall].
Qed.

(** C4. Field-length invariant: when every answer the operator gives is a
    token whose fingerprint, id or secret has a length other than 32,
    each of them is turned down by [_validate] with a message naming a
    field of the token, and the run of [Clustering.yes] puts no request on
    the network and leaves the node as it was. *)
Theorem wrong_length_never_reaches_network (w : world) :
  (forall i, (i < 3)%nat ->
     exists answer, Init.answer_at _input_func (_load w) i = Some answer
                    /\ wrong_length valid_ipv4 valid_ipv6 answer) ->
  (forall i answer,
     (i < 3)%nat -> Init.answer_at _input_func (_load w) i = Some answer ->
     exists m, _validate valid_ipv4 valid_ipv6 answer = reject answer m
               /\ names_field m = true)
  /\ exists r log,
       Init.connect valid_ipv4 valid_ipv6 stored_as urlopen json_loads
         _load _input_func w = (r, log, w)
       /\ forall req, ~ In (Init.Network req) log.
Proof.
  intros H. split.
  - intros i answer Hi Ha. destruct (H i Hi) as (a & Ha' & Hw).
    rewrite Ha in Ha'. injection Ha' as ->.
    exact (wrong_length_rejected _ _ _ Hw).
  - unfold Init.connect, Init.ask.
    destruct (eq_str (config_get w (key "config.cluster.role")) "control") eqn:Erole.
    + assert (Hc : eq_str (config_get w (key "config.cluster.role")) "compute" = false).
      { unfold eq_str in *.
        destruct (config_get w (key "config.cluster.role")); try reflexivity.
        apply bool_decide_eq_true in Erole. subst s. reflexivity. }
      rewrite Hc. exists (Return tt), []. split; [reflexivity|]. intros req [].
    + destruct (ask_loop_wrong_length Init._retries 0 (_load w) w) as (log & Hl & Hall).
      { intros j Hj. apply H. unfold Init._retries in Hj. lia. }
      rewrite Hl. cbn [bind raise].
      eexists _, log. split; [reflexivity|].
      intros req Hin. rewrite Forall_forall in Hall.
      apply list_elem_of_In in Hin.
      destruct (Hall _ Hin) as (m & Hm & _). discriminate.
Qed.

End Flow.

Lemma short_fingerprint_token_wrong_length :
  wrong_length (fun _ => Return true) (fun _ => Return false)
    short_fingerprint_token.
Proof.
  unfold wrong_length.
  exists (PyDict [(KStr (str "hostname"), PyStr (str "10.0.0.1"));
                  (KStr (str "fingerprint"), PyBytes (repeat x01 31));
                  (KStr (str "id"), PyStr (repeat 97 32));
                  (KStr (str "secret"), PyStr (repeat 98 32))]),
         (str "10.0.0.1"), (repeat x01 31), (repeat 97 32), (repeat 98 32),
         true, false.
  repeat split; try (vm_compute; reflexivity).
  left. vm_compute. lia.
Defined.

Lemma wrong_length_never_reaches_network_witness :
  (forall i answer,
     (i < 3)%nat ->
     Init.answer_at (fun _ => Some short_fingerprint_token) None i = Some answer ->
     exists m, _validate (fun _ => Return true) (fun _ => Return false) answer
               = reject answer m /\ names_field m = true)
  /\ exists r log,
       Init.connect (fun _ => Return true) (fun _ => Return false) (fun v => v)
         (fun _ => Client.MaxRetryError Client.SSLError)
         (fun _ => raise ValueError) (fun _ => None)
         (fun _ => Some short_fingerprint_token) (World PyNone ∅)
       = (r, log, World PyNone ∅)
       /\ forall req, ~ In (Init.Network req) log.
Proof.
  apply (wrong_length_never_reaches_network
           (fun _ => Return true) (fun _ => Return false) (fun v => v)
           (fun _ => Client.MaxRetryError Client.SSLError)
           (fun _ => raise ValueError) (fun _ => None)
           (fun _ => Some short_fingerprint_token) (World PyNone ∅)).
  intros i _. exists short_fingerprint_token.
  split; [reflexivity | exact short_fingerprint_token_wrong_length].
Defined.

(** The token a control node issues passes every check. *)
Example issued_token_accepted :
  exists conn_info,
    _validate (fun _ => Return true) (fun _ => Return false)
      (str "hKhob3N0bmFtZagxMC4wLjAuMatmaW5nZXJwcmludMQgAQEBAQEBAQEBAQEBAQEBAQEBAQEBAQEBAQEBAQEBAQGiaWTZIGFhYWFhYWFhYWFhYWFhYWFhYWFhYWFhYWFhYWFhYWFhpnNlY3JldNkgYmJiYmJiYmJiYmJiYmJiYmJiYmJiYmJiYmJiYmJiYmI=")
    = accept
        (str "hKhob3N0bmFtZagxMC4wLjAuMatmaW5nZXJwcmludMQgAQEBAQEBAQEBAQEBAQEBAQEBAQEBAQEBAQEBAQEBAQGiaWTZIGFhYWFhYWFhYWFhYWFhYWFhYWFhYWFhYWFhYWFhYWFhpnNlY3JldNkgYmJiYmJiYmJiYmJiYmJiYmJiYmJiYmJiYmJiYmJiYmI=")
        conn_info
    /\ get conn_info (str "fingerprint") = Return (PyBytes (repeat x01 32)).
Proof. eexists. split; vm_compute; reflexivity. Qed.

(** A hostname is checked label by label. *)
Example hostnames :
  _validate_hostname (PyStr (str "control.example.com")) = Return tt
  /\ _validate_hostname (PyStr (str "control.example.com.")) = Return tt
  /\ _validate_hostname (PyStr (str "-bad.example.com"))
     = Raise (Exn ValueError HostnameInvalid)
  /\ _validate_hostname (PyStr (str "10.0.0.1"))
     = Raise (Exn ValueError (HostnameNumericTld (PyStr (str "10.0.0.1"))))
  /\ _validate_hostname (PyStr []) = Raise (Exn ValueError HostnameEmpty)
  /\ _validate_hostname PyNone = Raise (Exn ValueError HostnameMissing).
Proof. repeat split; vm_compute; reflexivity. Qed.

(** C7 (the code at the failing input). The answer [é] is not ASCII:
    [answer.encode('ascii')] raises [UnicodeEncodeError], a [ValueError],
    which the [except TypeError] of the decoding step lets through;
    [_validate] raises instead of returning [(answer, False)], and prints
    nothing. *)
Theorem non_ascii_answer_escapes_validate
    (valid_ipv4 valid_ipv6 : pyval -> result bool) :
  _validate valid_ipv4 valid_ipv6 [233]
  = Validation (Raise (Exn UnicodeEncodeError NoDetail)) [] None.
Proof. exact (validate_non_ascii valid_ipv4 valid_ipv6 [233] eq_refl). Qed.

(** C9 (the code at the failing input). A token that decodes to a map
    without a [fingerprint] entry: [conn_info.get('fingerprint')] is
    [None], [len(None)] raises [TypeError], and [_validate] lets it
    through, its handlers catching [ValueError] only. *)
Theorem missing_fingerprint_escapes_validate :
  decode hostname_only_token
  = Return (PyDict [(KStr (str "hostname"), PyStr (str "10.0.0.1"))])
  /\ _validate (fun _ => Return true) (fun _ => Return false) hostname_only_token
     = Validation (Raise (Exn TypeError NoDetail)) [] None.
Proof. split; vm_compute; reflexivity. Qed.

End ValidationClaims.

(** ** The configuration store, the provisioner and the issuer *)

Module SnapFacts.
Import Py Snap.

Lemma dict_lookup_set_eq (k : pykey) (v : pyval) (d : list (pykey * pyval)) :
  dict_lookup k (dict_set k v d) = Some v.
Proof.
  induction d as [|[k' v'] d IH]; cbn [dict_set dict_lookup].
  - now rewrite decide_True.
  - destruct (decide (k' = k)) as [E|E]; cbn [dict_lookup].
    + now rewrite decide_True.
    + now rewrite decide_False.
Qed.

Lemma dict_lookup_set_ne (k k0 : pykey) (v : pyval) (d : list (pykey * pyval)) :
  k <> k0 -> dict_lookup k0 (dict_set k v d) = dict_lookup k0 d.
Proof.
  intros Hne. induction d as [|[k' v'] d IH]; cbn [dict_set dict_lookup].
  - now rewrite decide_False.
  - destruct (decide (k' = k)) as [E|E]; cbn [dict_lookup].
    + subst k'. now rewrite !decide_False.
    + destruct (decide (k' = k0)); [reflexivity | exact IH].
Qed.

(** A key reads what was set at it. *)
Lemma tree_get_set (path : list pystr) (v t : pyval) :
  tree_get path (tree_set path v t) = v.
Proof.
  revert t. induction path as [|k path IH]; intros t; [reflexivity|].
  cbn [tree_set tree_get]. rewrite dict_lookup_set_eq. apply IH.
Qed.

Lemma tree_get_None (k : pystr) (path : list pystr) :
  tree_get (k :: path) PyNone = PyNone.
Proof. reflexivity. Qed.

(** Setting a key leaves its siblings alone. *)
Lemma tree_get_set_sibling (prefix : list pystr) (k1 k2 : pystr) (v t : pyval) :
  k1 <> k2 ->
  tree_get (prefix ++ [k1]) (tree_set (prefix ++ [k2]) v t)
  = tree_get (prefix ++ [k1]) t.
Proof.
  intros Hne. revert t. induction prefix as [|k prefix IH]; intros t.
  - cbn [app tree_set tree_get].
    rewrite dict_lookup_set_ne by congruence.
    destruct t; reflexivity.
  - cbn [app tree_set tree_get]. rewrite dict_lookup_set_eq, IH.
    destruct t as [| | | | | | |d|]; try (destruct prefix; reflexivity).
    destruct (dict_lookup (KStr k) d); [reflexivity|].
    destruct prefix; reflexivity.
Qed.

End SnapFacts.

Module TlsClaims.
Import Py Snap ClusterTls SnapFacts Samples.

Section Provisioner.

Variable stored_as : pyval -> pyval.
Variables private_key certificate : Type.
Variable generate_private_key : N -> N -> N -> private_key.
Variable sign : certificate_fields -> private_key -> certificate.
Variable fingerprint_sha256 : certificate -> list byte.
Variable public_bytes : certificate -> list byte.
Variable private_bytes : private_key -> list byte.

Local Abbreviation generate_selfsigned :=
  (generate_selfsigned stored_as private_key certificate generate_private_key
     sign fingerprint_sha256 public_bytes private_bytes).

(** With both files in place the call changes nothing and returns [None]. *)
Lemma generate_selfsigned_existing (d : draw) (w : world)
    (cert_path key_path : pystr) :
  config_get w (key "config.cluster.tls-cert-path") = PyStr cert_path ->
  config_get w (key "config.cluster.tls-key-path") = PyStr key_path ->
  path_exists w cert_path = true ->
  path_exists w key_path = true ->
  generate_selfsigned d w = (Return PyNone, w).
Proof.
  intros Hc Hk Ec Ek. unfold ClusterTls.generate_selfsigned.
  rewrite Hc, Hk. cbn [Path bind]. now rewrite Ec, Ek.
Qed.

(** A call that returns had text for both paths. *)
Lemma generate_selfsigned_paths (d : draw) (w : world) (v : pyval) :
  fst (generate_selfsigned d w) = Return v ->
  exists cert_path key_path,
    config_get w (key "config.cluster.tls-cert-path") = PyStr cert_path
    /\ config_get w (key "config.cluster.tls-key-path") = PyStr key_path.
Proof.
  unfold ClusterTls.generate_selfsigned. intros H.
  destruct (config_get w (key "config.cluster.tls-cert-path")); try discriminate.
  destruct (config_get w (key "config.cluster.tls-key-path")); try discriminate.
  eauto.
Qed.

Lemma config_get_after_fingerprint (w : world) (v : pyval) (k : pystr) :
  k <> str "fingerprint" ->
  config_get (config_set stored_as [(key "config.cluster.fingerprint", v)] w)
    ([str "config"; str "cluster"] ++ [k])
  = config_get w ([str "config"; str "cluster"] ++ [k]).
Proof.
  intros Hk. unfold config_get, config_set. cbn [config fold_left fst snd].
  change (key "config.cluster.fingerprint")
    with ([str "config"; str "cluster"] ++ [str "fingerprint"]).
  now apply tree_get_set_sibling.
Qed.

(** What a generating call leaves in the configuration. *)
Lemma generate_selfsigned_records (d : draw) (w : world)
    (cert_path key_path : pystr) :
  config_get w (key "config.cluster.tls-cert-path") = PyStr cert_path ->
  config_get w (key "config.cluster.tls-key-path") = PyStr key_path ->
  path_exists w cert_path && path_exists w key_path = false ->
  exists cert,
    config_get (snd (generate_selfsigned d w)) (key "config.cluster.fingerprint")
    = stored_as (PyStr (Codec.hex (fingerprint_sha256 cert))).
Proof.
  intros Hc Hk Hex. unfold ClusterTls.generate_selfsigned.
  rewrite Hc, Hk. cbn [Path bind]. rewrite Hex. cbn [snd].
  eexists. unfold config_get, write_bytes, config_set.
  cbn [config fold_left fst snd]. apply tree_get_set.
Qed.

(** C8 (amended). With the certificate and the key file in place
    [generate_selfsigned] returns [None] and leaves the files and the
    configuration, the stored fingerprint included, as they are; and a
    call that follows a call that returned finds both files and is such a
    call. *)
Theorem generate_selfsigned_idempotent (d1 d2 : draw) (w : world) :
  (forall cert_path key_path,
     config_get w (key "config.cluster.tls-cert-path") = PyStr cert_path ->
     config_get w (key "config.cluster.tls-key-path") = PyStr key_path ->
     path_exists w cert_path = true ->
     path_exists w key_path = true ->
     generate_selfsigned d1 w = (Return PyNone, w))
  /\ (forall v,
        fst (generate_selfsigned d1 w) = Return v ->
        generate_selfsigned d2 (snd (generate_selfsigned d1 w))
        = (Return PyNone, snd (generate_selfsigned d1 w))).
Proof.
  split; [intros; eapply generate_selfsigned_existing; eassumption|].
  intros v Hret.
  destruct (generate_selfsigned_paths _ _ _ Hret) as (cp & kp & Hc & Hk).
  destruct (path_exists w cp && path_exists w kp) eqn:Hex.
  - apply andb_prop in Hex as [Ec Ek].
    rewrite (generate_selfsigned_existing d1 w cp kp Hc Hk Ec Ek). cbn [snd].
    exact (generate_selfsigned_existing d2 w cp kp Hc Hk Ec Ek).
  - assert (Hw : exists cert k,
        snd (generate_selfsigned d1 w)
        = write_bytes kp (private_bytes k)
            (write_bytes cp (public_bytes cert)
               (config_set stored_as
                  [(key "config.cluster.fingerprint",
                    PyStr (Codec.hex (fingerprint_sha256 cert)))] w))).
    { unfold ClusterTls.generate_selfsigned. rewrite Hc, Hk. cbn [Path bind].
      rewrite Hex. cbn [snd]. eauto. }
    destruct Hw as (cert & k & ->).
    apply (generate_selfsigned_existing d2 _ cp kp).
    + change (key "config.cluster.tls-cert-path")
        with ([str "config"; str "cluster"] ++ [str "tls-cert-path"]) in *.
      unfold write_bytes. unfold config_get at 1. cbn [config].
      rewrite <- Hc. apply config_get_after_fingerprint. discriminate.
    + change (key "config.cluster.tls-key-path")
        with ([str "config"; str "cluster"] ++ [str "tls-key-path"]) in *.
      unfold write_bytes. unfold config_get at 1. cbn [config].
      rewrite <- Hk. apply config_get_after_fingerprint. discriminate.
    + unfold path_exists, write_bytes. cbn [files].
      apply bool_decide_eq_true.
      destruct (decide (kp = cp)) as [->|Hne].
      * rewrite lookup_insert_eq. eauto.
      * rewrite lookup_insert_ne by exact Hne. rewrite lookup_insert_eq. eauto.
    + unfold path_exists, write_bytes. cbn [files].
      apply bool_decide_eq_true. rewrite lookup_insert_eq. eauto.
Qed.

End Provisioner.

Lemma generate_selfsigned_idempotent_witness :
  (forall cert_path key_path,
     config_get provisioned_node (key "config.cluster.tls-cert-path")
     = PyStr cert_path ->
     config_get provisioned_node (key "config.cluster.tls-key-path")
     = PyStr key_path ->
     path_exists provisioned_node cert_path = true ->
     path_exists provisioned_node key_path = true ->
     sample_generate {| entropy := 1; random_serial_number := 2; utcnow := 3 |}
       provisioned_node = (Return PyNone, provisioned_node))
  /\ (forall v,
        fst (sample_generate {| entropy := 1; random_serial_number := 2; utcnow := 3 |}
               provisioned_node) = Return v ->
        sample_generate {| entropy := 4; random_serial_number := 5; utcnow := 6 |}
          (snd (sample_generate {| entropy := 1; random_serial_number := 2; utcnow := 3 |}
                  provisioned_node))
        = (Return PyNone,
           snd (sample_generate {| entropy := 1; random_serial_number := 2; utcnow := 3 |}
                  provisioned_node))).
Proof.
  exact (generate_selfsigned_idempotent (fun v => v) N (list byte)
           (fun _ _ entropy => entropy)
           (fun fields k => Bytes.be_encode 4 (serial_number fields + k))
           (fun cert => cert ++ repeat x00 28)
           (fun cert => cert)
           (fun k => Bytes.be_encode 4 k)
           {| entropy := 1; random_serial_number := 2; utcnow := 3 |}
           {| entropy := 4; random_serial_number := 5; utcnow := 6 |}
           provisioned_node).
Defined.

(** C8 as stated fails: on a node with both files in place the call
    returns [None], not the fingerprint the configuration holds. *)
Lemma generate_selfsigned_returns_no_fingerprint :
  path_exists provisioned_node (str "/cert.pem") = true
  /\ path_exists provisioned_node (str "/key.pem") = true
  /\ config_get provisioned_node (key "config.cluster.fingerprint")
     = PyStr (str "ab")
  /\ fst (sample_generate {| entropy := 1; random_serial_number := 2; utcnow := 3 |}
            provisioned_node) = Return PyNone
  /\ fst (sample_generate {| entropy := 1; random_serial_number := 2; utcnow := 3 |}
            provisioned_node)
     <> Return (config_get provisioned_node (key "config.cluster.fingerprint")).
Proof.
  repeat split; try (vm_compute; reflexivity).
  vm_compute. discriminate.
Qed.

End TlsClaims.

Module IssuerClaims.
Import Py Snap Issuer Samples.

(** C10. When the configuration holds, as [generate_selfsigned] writes
    it, the hexadecimal text of a 32-byte digest, the [fingerprint] entry
    of the dictionary [add_compute] assembles is that digest (whatever the
    hostname and the credential), every token [add_compute] returns is
    the serialization of such a dictionary, and the entry passes
    [_validate_fingerprint]. *)
Theorem issued_fingerprint_is_digest
    (application_credentials_create : pyval -> credential_request -> result app_cred)
    (now : N) (token_urlsafe : pystr)
    (w : world) (digest : list byte) :
  config_get w (key "config.cluster.fingerprint") = PyStr (Codec.hex digest) ->
  length digest = 32%nat ->
  (forall hostname cred,
     exists data,
       token_data hostname (config_get w (key "config.cluster.fingerprint")) cred
       = Return data
       /\ get data (str "fingerprint") = Return (PyBytes digest))
  /\ (forall token,
        add_compute application_credentials_create now token_urlsafe w
        = Return token ->
        exists data,
          connection_string data = Return token
          /\ get data (str "fingerprint") = Return (PyBytes digest))
  /\ Clustering._validate_fingerprint (PyBytes digest) = Return tt.
Proof.
  intros Hcfg Hlen.
  assert (Hdata : forall hostname cred,
     exists data,
       token_data hostname (config_get w (key "config.cluster.fingerprint")) cred
       = Return data
       /\ get data (str "fingerprint") = Return (PyBytes digest)).
  { intros hostname cred. rewrite Hcfg. unfold token_data.
    rewrite HexFacts.fromhex_hex. cbn [bind]. eexists. split; reflexivity. }
  split; [exact Hdata|]. split.
  - intros token. unfold add_compute.
    destruct (negb _); [discriminate|].
    destruct (_create_credential _ _ _ w) as [cred|e]; [|discriminate].
    cbn [bind].
    destruct (Hdata (config_get w (key "config.network.control-ip")) cred)
      as (data & -> & Hfp).
    cbn [bind]. intros Htoken. exists data. split; assumption.
  - rewrite ValidationFacts.validate_fingerprint_bytes.
    now rewrite bool_decide_eq_true_2.
Qed.

Lemma issued_fingerprint_is_digest_witness :
  (forall hostname cred,
     exists data,
       token_data hostname
         (config_get control_node (key "config.cluster.fingerprint")) cred
       = Return data
       /\ get data (str "fingerprint") = Return (PyBytes (repeat x01 32)))
  /\ (forall token,
        add_compute issuing_keystone 0 (repeat 98 43) control_node = Return token ->
        exists data,
          connection_string data = Return token
          /\ get data (str "fingerprint") = Return (PyBytes (repeat x01 32)))
  /\ Clustering._validate_fingerprint (PyBytes (repeat x01 32)) = Return tt.
Proof.
  apply (issued_fingerprint_is_digest issuing_keystone 0 (repeat 98 43)
           control_node (repeat x01 32)); reflexivity.
Defined.

Example control_node_issues_token :
  add_compute issuing_keystone 0 (repeat 98 43) control_node
  = Return (str "hKhob3N0bmFtZagxMC4wLjAuMatmaW5nZXJwcmludMQgAQEBAQEBAQEBAQEBAQEBAQEBAQEBAQEBAQEBAQEBAQGiaWTZIGFhYWFhYWFhYWFhYWFhYWFhYWFhYWFhYWFhYWFhYWFhpnNlY3JldNkgYmJiYmJiYmJiYmJiYmJiYmJiYmJiYmJiYmJiYmJiYmI=").
Proof. vm_compute. reflexivity. Qed.

End IssuerClaims.

(** ** The join server *)

Module DaemonClaims.
Import Py Snap Daemon Samples.

Section Server.

Variable Version : string -> option Semver.Version.
Variable json_loads : list byte -> option pyval.
Variable keystone : pyval -> pyval -> keystone_outcome.
Variable w : world.

Local Abbreviation join := (join Version json_loads keystone w).
Local Abbreviation join_same_major := (join_same_major json_loads keystone w).
Local Abbreviation post_join := (post_join Version json_loads keystone w).

Lemma join_missing (req : request) :
  headers_get "API-Version" (headers req) = None ->
  join req = Raises (Api APIVersionMissing).
Proof. unfold Daemon.join. now intros ->. Qed.

Lemma join_invalid (req : request) (v : string) :
  headers_get "API-Version" (headers req) = Some v -> Version v = None ->
  join req = Raises (Api APIVersionInvalid).
Proof. unfold Daemon.join. now intros -> ->. Qed.

Lemma join_newer (req : request) (v : string) (api_version : Semver.Version) :
  headers_get "API-Version" (headers req) = Some v ->
  Version v = Some api_version ->
  1 < Semver.major api_version ->
  join req = Raises (Api APIVersionNotImplemented).
Proof.
  unfold Daemon.join. intros -> -> Hlt.
  change (Semver.major API_VERSION) with 1.
  now destruct (N.ltb_spec 1 (Semver.major api_version)); [|lia].
Qed.

Lemma join_older (req : request) (v : string) (api_version : Semver.Version) :
  headers_get "API-Version" (headers req) = Some v ->
  Version v = Some api_version ->
  Semver.major api_version < 1 ->
  join req = Raises (Api APIVersionDropped).
Proof.
  unfold Daemon.join. intros -> -> Hlt.
  change (Semver.major API_VERSION) with 1.
  destruct (N.ltb_spec 1 (Semver.major api_version)); [lia|].
  now destruct (N.ltb_spec (Semver.major api_version) 1); [|lia].
Qed.

Lemma join_same (req : request) (v : string) (api_version : Semver.Version) :
  headers_get "API-Version" (headers req) = Some v ->
  Version v = Some api_version ->
  Semver.major api_version = 1 ->
  join req = join_same_major req.
Proof. unfold Daemon.join. now intros -> -> ->. Qed.

(** An exception with a registered handler becomes its JSON response. *)
Lemma post_join_raises (req : request) (e : APIException) :
  join req = Raises (Api e) -> errorhandler e = true ->
  post_join req = _handle_api_version_exception e.
Proof.
  unfold Daemon.post_join. intros -> He. cbn [dispatch]. now rewrite He.
Qed.

Example parse_versions :
  Semver.parse "1.0.0" = Some API_VERSION
  /\ option_map Semver.major (Semver.parse "2.10.3-rc.1+build.7") = Some 2
  /\ Semver.parse "abc" = None
  /\ Semver.parse "1.0" = None
  /\ Semver.parse "01.0.0" = None
  /\ Semver.parse "1.0.0.0" = None.
Proof. repeat split; reflexivity. Qed.

(** C3. Version policy of [POST /join], the server being at major version
    1: without an [API-Version] header the answer is 400 with the
    [APIVersionMissing] message; with a header that is not a semantic
    version, 400 with the [APIVersionInvalid] message; with a greater
    major version, 501; with a smaller one, 410; and the content and
    credential checks are reached exactly by the requests of major
    version 1. *)
Theorem version_policy (req : request) :
  Semver.major API_VERSION = 1
  /\ (headers_get "API-Version" (headers req) = None ->
      post_join req = _handle_api_version_exception APIVersionMissing
      /\ status (post_join req) = 400)
  /\ (forall v,
        headers_get "API-Version" (headers req) = Some v -> Version v = None ->
        post_join req = _handle_api_version_exception APIVersionInvalid
        /\ status (post_join req) = 400)
  /\ (forall v api_version,
        headers_get "API-Version" (headers req) = Some v ->
        Version v = Some api_version ->
        (1 < Semver.major api_version ->
         post_join req = _handle_api_version_exception APIVersionNotImplemented
         /\ status (post_join req) = 501)
        /\ (Semver.major api_version < 1 ->
            post_join req = _handle_api_version_exception APIVersionDropped
            /\ status (post_join req) = 410)
        /\ (Semver.major api_version = 1 -> join req = join_same_major req))
  /\ (join req = join_same_major req \/
      exists e, join req = Raises (Api e)
                /\ In e [APIVersionMissing; APIVersionInvalid;
                         APIVersionNotImplemented; APIVersionDropped]).
Proof.
  split; [reflexivity|]. split; [|split; [|split]].
  - intros H. now rewrite (post_join_raises _ _ (join_missing req H) eq_refl).
  - intros v Hh Hv. now rewrite (post_join_raises _ _ (join_invalid req v Hh Hv) eq_refl).
  - intros v api_version Hh Hv. split; [|split].
    + intros Hlt. now rewrite (post_join_raises _ _ (join_newer req v _ Hh Hv Hlt) eq_refl).
    + intros Hlt. now rewrite (post_join_raises _ _ (join_older req v _ Hh Hv Hlt) eq_refl).
    + exact (join_same req v _ Hh Hv).
  - destruct (headers_get "API-Version" (headers req)) as [v|] eqn:Hh.
    2: { right. exists APIVersionMissing.
         split; [now apply join_missing | simpl; tauto]. }
    destruct (Version v) as [api_version|] eqn:Hv.
    2: { right. exists APIVersionInvalid.
         split; [now apply (join_invalid req v) | simpl; tauto]. }
    destruct (N.lt_trichotomy (Semver.major api_version) 1) as [Hlt | [Heq | Hgt]].
    + right. exists APIVersionDropped.
      split; [now apply (join_older req v api_version) | simpl; tauto].
    + left. now apply (join_same req v api_version).
    + right. exists APIVersionNotImplemented.
      split; [now apply (join_newer req v api_version) | simpl; tauto].
Qed.

(** A request of major version 1 whose JSON body lacks a truthy
    [credential-id] or [credential-secret]: the view returns the
    [MissingAuthDataInRequest] object instead of raising it, Flask finds
    no response in it, and the client gets a 500. *)
Lemma missing_auth_data_is_500 (req : request) (v : string)
    (api_version : Semver.Version) (req_json credential_id credential_secret : pyval) :
  headers_get "API-Version" (headers req) = Some v ->
  Version v = Some api_version ->
  Semver.major api_version = 1 ->
  request_json json_loads req = Returns req_json ->
  req_json <> PyNone ->
  get req_json (str "credential-id") = Return credential_id ->
  get req_json (str "credential-secret") = Return credential_secret ->
  truthy credential_id = false \/ truthy credential_secret = false ->
  join req = Returns (ExceptionObject MissingAuthDataInRequest)
  /\ post_join req = internal_server_error.
Proof.
  intros Hh Hv Hm Hj Hn Hid Hsec Hfalsy.
  assert (E : join req = Returns (ExceptionObject MissingAuthDataInRequest)).
  { unfold Daemon.join. rewrite Hh, Hv, Hm. cbn.
    unfold Daemon.join_same_major. rewrite Hj.
    destruct req_json; try congruence; rewrite Hid, Hsec; cbn [bind];
      destruct Hfalsy as [-> | ->]; cbn [negb orb];
      rewrite ?orb_true_r; reflexivity. }
  split; [exact E|]. unfold Daemon.post_join. now rewrite E.
Qed.

End Server.

(** C6. [POST /join] with [API-Version: 1.0.0], [Content-Type: text/plain]
    and the body [not json] is answered with 400 and the
    [IncorrectContentType] message, whatever the JSON parser would make
    of the body: the content type decides before the body is parsed. *)
Theorem text_plain_is_incorrect_content_type
    (json_loads : list byte -> option pyval)
    (keystone : pyval -> pyval -> keystone_outcome) (w : world) :
  post_join Semver.parse json_loads keystone w text_plain_request
  = {| status := 400;
       content := Jsonify (PyDict [(KStr (str "message"),
         PyStr (str "The request does not have a Content-Type header set to application/json."))]) |}
  /\ join Semver.parse json_loads keystone w text_plain_request
     = Raises (Api IncorrectContentType)
  /\ join Semver.parse json_loads keystone w text_plain_request
     <> Raises (Api InvalidJSONInRequest).
Proof. repeat split; try reflexivity. discriminate. Qed.

(** C5 (the code at the failing input): the empty object is answered with
    500 and an error page, not with 400 and the message of
    [MissingAuthDataInRequest]. *)
Theorem empty_object_is_500
    (json_loads : list byte -> option pyval)
    (keystone : pyval -> pyval -> keystone_outcome) (w : world) :
  json_loads (data empty_object_request) = Some (PyDict []) ->
  post_join Semver.parse json_loads keystone w empty_object_request
  = {| status := 500; content := ErrorPage |}.
Proof.
  intros Hj.
  apply (missing_auth_data_is_500 Semver.parse json_loads keystone w
           empty_object_request "1.0.0" API_VERSION (PyDict []) PyNone PyNone);
    try reflexivity; [| discriminate | now left].
  unfold request_json.
  replace (is_json empty_object_request) with true by reflexivity.
  now rewrite Hj.
Qed.

Lemma empty_object_is_500_witness :
  post_join Semver.parse
    (fun b => if bool_decide (b = list_byte_of_string "{}")
              then Some (PyDict []) else None)
    (fun _ _ => CatalogListed) (World PyNone ∅) empty_object_request
  = {| status := 500; content := ErrorPage |}.
Proof.
  apply (empty_object_is_500
           (fun b => if bool_decide (b = list_byte_of_string "{}")
                     then Some (PyDict []) else None)
           (fun _ _ => CatalogListed) (World PyNone ∅)).
  reflexivity.
Defined.

Lemma version_policy_witness :
  Semver.major API_VERSION = 1
  /\ post_join Semver.parse (fun _ => None) (fun _ _ => CatalogListed)
       (World PyNone ∅) {| headers := []; data := [] |}
     = _handle_api_version_exception APIVersionMissing
  /\ post_join Semver.parse (fun _ => None) (fun _ _ => CatalogListed)
       (World PyNone ∅) {| headers := [("API-Version", "abc")]; data := [] |}
     = _handle_api_version_exception APIVersionInvalid
  /\ status (post_join Semver.parse (fun _ => None) (fun _ _ => CatalogListed)
       (World PyNone ∅) {| headers := [("API-Version", "2.1.0")]; data := [] |})
     = 501
  /\ status (post_join Semver.parse (fun _ => None) (fun _ _ => CatalogListed)
       (World PyNone ∅) {| headers := [("api-version", "0.9.3")]; data := [] |})
     = 410.
Proof.
  split; [reflexivity|]. split; [|split; [|split]].
  - apply (version_policy Semver.parse (fun _ => None) (fun _ _ => CatalogListed)
             (World PyNone ∅) {| headers := []; data := [] |}).
    reflexivity.
  - apply (version_policy Semver.parse (fun _ => None) (fun _ _ => CatalogListed)
             (World PyNone ∅) {| headers := [("API-Version", "abc")]; data := [] |})
      with (v := "abc"%string); reflexivity.
  - apply (version_policy Semver.parse (fun _ => None) (fun _ _ => CatalogListed)
             (World PyNone ∅) {| headers := [("API-Version", "2.1.0")]; data := [] |})
      with (v := "2.1.0"%string)
           (api_version := {| Semver.major := 2; Semver.minor := 1;
                              Semver.patch := 0; Semver.prerelease := [];
                              Semver.build := [] |});
      reflexivity.
  - apply (version_policy Semver.parse (fun _ => None) (fun _ _ => CatalogListed)
             (World PyNone ∅) {| headers := [("api-version", "0.9.3")]; data := [] |})
      with (v := "0.9.3"%string)
           (api_version := {| Semver.major := 0; Semver.minor := 9;
                              Semver.patch := 3; Semver.prerelease := [];
                              Semver.build := [] |});
      reflexivity.
Defined.

End DaemonClaims.

(** ** The join client *)

Module ClientClaims.
Import Py Snap Client Samples.

Section Pinning.

Variable stored_as : pyval -> pyval.
Variable urlopen : request -> urlopen_outcome.
Variable json_loads : pystr -> result pyval.

Local Abbreviation join := (join stored_as urlopen json_loads).

Lemma messages_differ :
  fingerprint_message <> no_response_message
  /\ fingerprint_message <> unexpected_status_message
  /\ fingerprint_message <> invalid_utf8_message
  /\ fingerprint_message <> empty_response_message
  /\ no_response_message <> unexpected_status_message
  /\ no_response_message <> invalid_utf8_message
  /\ no_response_message <> empty_response_message.
Proof. repeat split; discriminate. Qed.

(** The request is built with the pin and without the other checks. *)
Lemma request_of_pins (w : world) (req : request) :
  request_of w = Return req ->
  getitem (config_get w (key "config.cluster")) (str "fingerprint")
  = Return (assert_fingerprint req)
  /\ assert_hostname req = false /\ cert_reqs req = "CERT_NONE"%string
  /\ port req = 10002 /\ retries req = 0.
Proof.
  unfold request_of.
  destruct (getitem _ (str "hostname")); [|discriminate].
  destruct (getitem _ (str "fingerprint")); [|discriminate].
  destruct (getitem _ (str "credential-id")); [|discriminate].
  destruct (getitem _ (str "credential-secret")); [|discriminate].
  cbn [bind]. intros [= <-]. repeat split; reflexivity.
Qed.

(** C2. When [urlopen] gives up with a [MaxRetryError] whose reason is an
    [SSLError] (what the pool raises when the presented certificate does
    not have the pinned fingerprint), [join] raises the exception with
    the fingerprint message, chained to that reason; the message names a
    wrong token and interception.  With any other reason it raises the
    exception with the generic message.  The two messages differ, and
    [join] raises each of them in no other case. *)
Theorem fingerprint_mismatch_is_distinct (w : world) (req : request) :
  request_of w = Return req ->
  (urlopen req = MaxRetryError SSLError ->
   join w = Raises (PlainException fingerprint_message None (FromReason SSLError)))
  /\ (forall reason,
        reason <> SSLError -> urlopen req = MaxRetryError reason ->
        join w = Raises (PlainException no_response_message None
                           (FromMaxRetryError reason)))
  /\ (forall argument c,
        join w = Raises (PlainException fingerprint_message argument c) ->
        urlopen req = MaxRetryError SSLError)
  /\ (forall argument c,
        join w = Raises (PlainException no_response_message argument c) ->
        exists reason, reason <> SSLError /\ urlopen req = MaxRetryError reason)
  /\ fingerprint_message <> no_response_message
  /\ contains (list_ascii_of_string "a correct token was specified")
       (list_ascii_of_string fingerprint_message) = true
  /\ contains (list_ascii_of_string "MITM attacks")
       (list_ascii_of_string fingerprint_message) = true.
Proof.
  intros Hreq. unfold Client.join. rewrite Hreq.
  destruct messages_differ as (D1 & D2 & D3 & D4 & D5 & D6 & D7).
  split; [now intros ->|]. split.
  { intros reason Hne ->. now destruct reason. }
  split.
  { intros argument c.
    destruct (urlopen req) as [status data | reason | e].
    - destruct (status =? 401).
      { destruct (decode_utf8 data); [|discriminate].
        destruct (truthy _); [|discriminate].
        destruct (let* d := json_loads a in getitem d (str "message"));
          discriminate. }
      destruct (negb (status =? 200)); [intros [= E _ _]; congruence|].
      destruct (decode_utf8 data) as [s|e].
      + destruct (negb _); [intros [= E _ _]; congruence|].
        unfold lift. destruct (apply_response _ _ _ _); discriminate.
      + destruct (isinstance _ _); [intros [= E _ _]; congruence | discriminate].
    - destruct reason; try reflexivity; intros [= E _ _]; congruence.
    - discriminate. }
  split.
  { intros argument c.
    destruct (urlopen req) as [status data | reason | e].
    - destruct (status =? 401).
      { destruct (decode_utf8 data); [|discriminate].
        destruct (truthy _); [|discriminate].
        destruct (let* d := json_loads a in getitem d (str "message"));
          discriminate. }
      destruct (negb (status =? 200)); [intros [= E _ _]; congruence|].
      destruct (decode_utf8 data) as [s|e].
      + destruct (negb _); [intros [= E _ _]; congruence|].
        unfold lift. destruct (apply_response _ _ _ _); discriminate.
      + destruct (isinstance _ _); [intros [= E _ _]; congruence | discriminate].
    - destruct reason; try (intros [= E _ _]; congruence);
        intros _; eexists; (split; [|reflexivity]); discriminate.
    - discriminate. }
  split; [exact D1|]. split; vm_compute; reflexivity.
Qed.

End Pinning.

Lemma fingerprint_mismatch_is_distinct_witness :
  request_of joining_node = Return joining_request
  /\ join (fun v => v) (fun _ => MaxRetryError SSLError) (fun _ => raise ValueError)
       joining_node
     = Raises (PlainException fingerprint_message None (FromReason SSLError))
  /\ join (fun v => v) (fun _ => MaxRetryError NewConnectionError)
       (fun _ => raise ValueError) joining_node
     = Raises (PlainException no_response_message None
                 (FromMaxRetryError NewConnectionError)).
Proof.
  split; [vm_compute; reflexivity|]. split.
  - apply (fingerprint_mismatch_is_distinct (fun v => v)
             (fun _ => MaxRetryError SSLError) (fun _ => raise ValueError)
             joining_node joining_request);
      [vm_compute; reflexivity | reflexivity].
  - apply (fingerprint_mismatch_is_distinct (fun v => v)
             (fun _ => MaxRetryError NewConnectionError)
             (fun _ => raise ValueError) joining_node joining_request);
      [vm_compute; reflexivity | discriminate | reflexivity].
Defined.

End ClientClaims.

(* ================================================================== *)
(** * Further properties *)
(* ================================================================== *)

(** ** Validation of the connection string *)

Module ValidationExtras.
Import Py Snap Clustering ValidationFacts.

Section Extras.

Variables valid_ipv4 valid_ipv6 : pyval -> result bool.

Local Abbreviation _validate := (_validate valid_ipv4 valid_ipv6).
Local Abbreviation validate_fields := (validate_fields valid_ipv4 valid_ipv6).
Local Abbreviation _validate_address := (_validate_address valid_ipv4 valid_ipv6).







(** X3. The handler of [FormatError] is never reached: whatever the
    answer, [_validate] does not print the line of its
    [except msgpack.exceptions.FormatError] branch. *)
Theorem format_message_never_printed (answer : pystr) :
  ~ In FormatInvalid (printed (_validate answer)).
Proof.
  unfold Clustering._validate.
  destruct (let* ascii := Codec.encode_ascii answer in
            Base64.decode_as_bytes ascii) as [bs|e].
  - destruct (Msgpack.loads bs) as [conn_info|e].
    + unfold Clustering.validate_fields.
      repeat match goal with
      | |- context [match ?x with _ => _ end] =>
          lazymatch x with
          | context [match _ with _ => _ end] => fail
          | _ => destruct x
          end
      end; cbn; try tauto; intros [H|H]; try discriminate; try contradiction.
    + destruct e as [c r]. destruct c; cbn; try tauto; intros [H|H]; try discriminate; try contradiction.
  - destruct (isinstance e TypeError); cbn; try tauto; intros [H|H]; try discriminate; try contradiction.
Qed.

(** An answer that decodes to a map with typed fields of the right
    lengths and a hostname the address check takes. *)
Lemma typed_fields_accepted (answer : pystr) (conn_info hostname fingerprint : pyval)
    (credential_id credential_secret : pystr) :
  decode answer = Return conn_info ->
  get conn_info (str "hostname") = Return hostname ->
  _validate_address hostname = Return tt ->
  get conn_info (str "fingerprint") = Return fingerprint ->
  len fingerprint = Return 32 ->
  get conn_info (str "id") = Return (PyStr credential_id) ->
  length credential_id = 32%nat ->
  get conn_info (str "secret") = Return (PyStr credential_secret) ->
  length credential_secret = 32%nat ->
  _validate answer = accept answer conn_info.
Proof.
  intros Hd Hh Ha Hf Hfl Hi Hil Hs Hsl.
  rewrite (validate_decoded _ _ _ _ Hd). unfold Clustering.validate_fields.
  rewrite Hh, Ha, Hf. unfold _validate_fingerprint, digest_size.
  rewrite Hfl. cbn [bind]. change (negb (32 =? 32)) with false. cbv iota.
  rewrite Hi, validate_credential_id_text, bool_decide_eq_true_2 by assumption.
  rewrite Hs, validate_credential_secret_text, bool_decide_eq_true_2 by assumption.
  reflexivity.
Qed.

Lemma get_getitem (x : pyval) (k : pystr) (v : pyval) :
  get x k = Return v -> v <> PyNone -> getitem x k = Return v.
Proof.
  unfold get, getitem. destruct x; try discriminate.
  destruct (dict_lookup (KStr k) d); cbn; congruence.
Qed.

End Extras.

Section AfterExtras.

Variables valid_ipv4 valid_ipv6 : pyval -> result bool.
Variable stored_as : pyval -> pyval.
Variable _input_func : nat -> option pystr.

(** X4. The fingerprint check looks at the length only: a token whose
    fingerprint is a text of 32 characters is accepted by [_validate];
    [after] then fails on [.hex()] with an [AttributeError], and [ask]
    raises it with the raw answer already saved and no field stored. *)
Theorem text_fingerprint_passes_validate
    (answer : pystr) (conn_info hostname : pyval)
    (fingerprint credential_id credential_secret : pystr)
    (n i : nat) (dflt : option pystr) (w : world) :
  decode answer = Return conn_info ->
  get conn_info (str "hostname") = Return hostname ->
  Clustering._validate_address valid_ipv4 valid_ipv6 hostname = Return tt ->
  get conn_info (str "fingerprint") = Return (PyStr fingerprint) ->
  length fingerprint = 32%nat ->
  get conn_info (str "id") = Return (PyStr credential_id) ->
  length credential_id = 32%nat ->
  get conn_info (str "secret") = Return (PyStr credential_secret) ->
  length credential_secret = 32%nat ->
  Init.answer_at _input_func dflt i = Some answer ->
  Clustering._validate valid_ipv4 valid_ipv6 answer = accept answer conn_info
  /\ Init.after stored_as conn_info (Init._save stored_as answer w)
     = raise AttributeError
  /\ Init.ask_loop valid_ipv4 valid_ipv6 stored_as _input_func (S n) i dflt w
     = (raise AttributeError, [], Init._save stored_as answer w).
Proof.
  intros Hd Hh Ha Hf Hfl Hi Hil Hs Hsl Hans.
  assert (Hacc : Clustering._validate valid_ipv4 valid_ipv6 answer
                 = accept answer conn_info).
  { apply (typed_fields_accepted valid_ipv4 valid_ipv6 answer conn_info hostname
             (PyStr fingerprint) credential_id credential_secret);
      try assumption.
    cbn [len]. now rewrite Hfl. }
  assert (Haft : forall w0, Init.after stored_as conn_info w0 = raise AttributeError).
  { intros w0. unfold Init.after.
    rewrite (get_getitem _ _ _ Hh).
    2: { intros ->. discriminate Ha. }
    cbn [bind]. rewrite (get_getitem _ _ _ Hf) by discriminate. reflexivity. }
  split; [exact Hacc|]. split; [apply Haft|].
  cbn [Init.ask_loop]. rewrite Hans, Hacc. cbn [outcome accept printed map _conn_info default].
  now rewrite Haft.
Qed.

End AfterExtras.

End ValidationExtras.

Module ValidationExtraWitnesses.
Import Py Snap Clustering MoreSamples ValidationExtras.



Lemma text_fingerprint_passes_validate_witness :
  _validate sample_ipv4 sample_ipv6 text_fingerprint_token
  = accept text_fingerprint_token text_fingerprint_data
  /\ Init.after (fun v => v) text_fingerprint_data
       (Init._save (fun v => v) text_fingerprint_token compute_node)
     = raise AttributeError
  /\ Init.ask_loop sample_ipv4 sample_ipv6 (fun v => v)
       (fun _ => Some text_fingerprint_token) 3 0 None compute_node
     = (raise AttributeError, [],
        Init._save (fun v => v) text_fingerprint_token compute_node).
Proof.
  apply (text_fingerprint_passes_validate sample_ipv4 sample_ipv6 (fun v => v)
           (fun _ => Some text_fingerprint_token)
           text_fingerprint_token text_fingerprint_data (PyStr (str "10.0.0.1"))
           (repeat 102 32) (repeat 97 32) (repeat 98 32) 2 0 None compute_node);
    vm_compute; reflexivity.
Defined.

End ValidationExtraWitnesses.

(** ** The configuration store *)

Module StoreFacts.
Import Py Snap SnapFacts.

(** Setting a key leaves alone every key that leaves its path earlier. *)
Lemma tree_get_set_diverge (prefix : list pystr) (k1 k2 : pystr)
    (r1 r2 : list pystr) (v t : pyval) :
  k1 <> k2 ->
  tree_get (prefix ++ k1 :: r1) (tree_set (prefix ++ k2 :: r2) v t)
  = tree_get (prefix ++ k1 :: r1) t.
Proof.
  intros Hne. revert t. induction prefix as [|k prefix IH]; intros t.
  - cbn [app tree_set tree_get].
    rewrite dict_lookup_set_ne by congruence.
    destruct t; reflexivity.
  - cbn [app tree_set tree_get]. rewrite dict_lookup_set_eq, IH.
    destruct t as [| | | | | | |d|]; try (destruct prefix; reflexivity).
    destruct (dict_lookup (KStr k) d); [reflexivity|].
    destruct prefix; reflexivity.
Qed.

(** A value found at a path is an entry of the dictionary one level up. *)
Lemma getitem_tree_get (p : list pystr) (k : pystr) (t v : pyval) :
  tree_get (p ++ [k]) t = v -> v <> PyNone ->
  getitem (tree_get p t) k = Return v.
Proof.
  revert t. induction p as [|k0 p IH]; intros t Hv Hn.
  - cbn [app tree_get] in *. unfold getitem.
    destruct t; try congruence.
    destruct (dict_lookup (KStr k) d); congruence.
  - cbn [app tree_get] in *.
    destruct t; try congruence.
    destruct (dict_lookup (KStr k0) d); [|congruence].
    now apply IH.
Qed.

End StoreFacts.

Module FlowFacts.
Import Py Snap Clustering ValidationFacts ValidationExtras SnapFacts StoreFacts.

Section Flow.

Variables valid_ipv4 valid_ipv6 : pyval -> result bool.
Variable stored_as : pyval -> pyval.

Local Abbreviation cluster := [str "config"; str "cluster"].

(** What [after] writes, for a map that has the four entries and a
    [bytes] fingerprint. *)
Lemma after_writes (conn_info hostname credential_id credential_secret : pyval)
    (fingerprint : list byte) (w : world) :
  getitem conn_info (str "hostname") = Return hostname ->
  getitem conn_info (str "fingerprint") = Return (PyBytes fingerprint) ->
  getitem conn_info (str "id") = Return credential_id ->
  getitem conn_info (str "secret") = Return credential_secret ->
  Init.after stored_as conn_info w
  = Return (config_set stored_as
              [(key "config.cluster.hostname", hostname);
               (key "config.cluster.fingerprint", PyStr (Codec.hex fingerprint));
               (key "config.cluster.credential-id", credential_id);
               (key "config.cluster.credential-secret", credential_secret)] w).
Proof. unfold Init.after. now intros -> -> -> ->. Qed.

Lemma cluster_fields_read_back (hostname fingerprint credential_id credential_secret : pyval)
    (w : world) :
  let w' := config_set stored_as
              [(key "config.cluster.hostname", hostname);
               (key "config.cluster.fingerprint", fingerprint);
               (key "config.cluster.credential-id", credential_id);
               (key "config.cluster.credential-secret", credential_secret)] w in
  config_get w' (key "config.cluster.hostname") = stored_as hostname
  /\ config_get w' (key "config.cluster.fingerprint") = stored_as fingerprint
  /\ config_get w' (key "config.cluster.credential-id") = stored_as credential_id
  /\ config_get w' (key "config.cluster.credential-secret")
     = stored_as credential_secret
  /\ files w' = files w.
Proof.
  intros w'. subst w'. unfold config_get, config_set.
  cbn [config files fold_left fst snd].
  change (key "config.cluster.hostname") with (cluster ++ [str "hostname"]).
  change (key "config.cluster.fingerprint") with (cluster ++ [str "fingerprint"]).
  change (key "config.cluster.credential-id") with (cluster ++ [str "credential-id"]).
  change (key "config.cluster.credential-secret")
    with (cluster ++ [str "credential-secret"]).
  repeat split.
  - rewrite !tree_get_set_sibling by discriminate. apply tree_get_set.
  - rewrite !tree_get_set_sibling by discriminate. apply tree_get_set.
  - rewrite !tree_get_set_sibling by discriminate. apply tree_get_set.
  - apply tree_get_set.
Qed.

(** Keys outside the four are not touched by [after]'s [config_set]. *)
Lemma cluster_fields_frame (hostname fingerprint credential_id credential_secret : pyval)
    (w : world) (k : pystr) (rest : list pystr) :
  k <> str "hostname" -> k <> str "fingerprint" ->
  k <> str "credential-id" -> k <> str "credential-secret" ->
  config_get (config_set stored_as
              [(key "config.cluster.hostname", hostname);
               (key "config.cluster.fingerprint", fingerprint);
               (key "config.cluster.credential-id", credential_id);
               (key "config.cluster.credential-secret", credential_secret)] w)
    (cluster ++ k :: rest)
  = config_get w (cluster ++ k :: rest).
Proof.
  intros H1 H2 H3 H4. unfold config_get, config_set.
  cbn [config files fold_left fst snd].
  change (key "config.cluster.hostname") with (cluster ++ [str "hostname"]).
  change (key "config.cluster.fingerprint") with (cluster ++ [str "fingerprint"]).
  change (key "config.cluster.credential-id") with (cluster ++ [str "credential-id"]).
  change (key "config.cluster.credential-secret")
    with (cluster ++ [str "credential-secret"]).
  rewrite !tree_get_set_diverge by congruence. reflexivity.
Qed.

(** The request [join] builds from a node that holds four text fields. *)
Lemma request_of_fields (w : world) (hostname fingerprint credential_id credential_secret : pystr) :
  config_get w (key "config.cluster.hostname") = PyStr hostname ->
  config_get w (key "config.cluster.fingerprint") = PyStr fingerprint ->
  config_get w (key "config.cluster.credential-id") = PyStr credential_id ->
  config_get w (key "config.cluster.credential-secret") = PyStr credential_secret ->
  Client.request_of w
  = Return {| Client.host := PyStr hostname;
              Client.port := 10002;
              Client.assert_fingerprint := PyStr fingerprint;
              Client.assert_hostname := false;
              Client.cert_reqs := "CERT_NONE";
              Client.method := "POST";
              Client.url := "/join";
              Client.retries := 0;
              Client.headers := [("API-VERSION", "1.0.0");
                                 ("Content-Type", "application/json")];
              Client.body :=
                PyDict [(KStr (str "credential-id"), PyStr credential_id);
                        (KStr (str "credential-secret"), PyStr credential_secret)] |}.
Proof.
  intros Hh Hf Hi Hs. unfold Client.request_of, config_get in *.
  change (key "config.cluster") with cluster.
  change (key "config.cluster.hostname") with (cluster ++ [str "hostname"]) in Hh.
  change (key "config.cluster.fingerprint") with (cluster ++ [str "fingerprint"]) in Hf.
  change (key "config.cluster.credential-id")
    with (cluster ++ [str "credential-id"]) in Hi.
  change (key "config.cluster.credential-secret")
    with (cluster ++ [str "credential-secret"]) in Hs.
  rewrite (getitem_tree_get _ _ _ _ Hh) by discriminate.
  rewrite (getitem_tree_get _ _ _ _ Hf) by discriminate.
  rewrite (getitem_tree_get _ _ _ _ Hi) by discriminate.
  rewrite (getitem_tree_get _ _ _ _ Hs) by discriminate.
  reflexivity.
Qed.

End Flow.

End FlowFacts.

(** ** Dotted names *)

Module DotsFacts.
Import Py InitShell.

Lemma split_dots_cons (c : N) (s : pystr) :
  split_dots (c :: s)
  = if c =? 46 then [] :: split_dots s
    else match split_dots s with
         | [] => [[c]]
         | l :: acc => (c :: l) :: acc
         end.
Proof. reflexivity. Qed.

Lemma split_dots_not_nil (s : pystr) : split_dots s <> [].
Proof.
  induction s as [|c s IH]; [discriminate|].
  rewrite split_dots_cons. destruct (c =? 46); [discriminate|].
  destruct (split_dots s); discriminate.
Qed.

(** Every character of a text is a dot or sits in one of its labels. *)
Lemma split_dots_chars (s : pystr) (c : N) :
  In c s -> c = 46 \/ exists l, In l (split_dots s) /\ In c l.
Proof.
  induction s as [|a s IH]; [contradiction|].
  intros Hin. rewrite split_dots_cons.
  destruct (N.eqb_spec a 46) as [->|Ha].
  - destruct Hin as [<-|Hin]; [now left|].
    destruct (IH Hin) as [->|(l & Hl & Hc)]; [now left|].
    right. exists l. split; [now right|assumption].
  - pose proof (split_dots_not_nil s) as Hn.
    destruct (split_dots s) as [|l0 acc]; [congruence|].
    destruct Hin as [<-|Hin].
    + right. exists (a :: l0). split; [now left|now left].
    + destruct (IH Hin) as [->|(l & [<-|Hl] & Hc)]; [now left| |].
      * right. exists (a :: l0). split; [now left|now right].
      * right. exists l. split; [now right|assumption].
Qed.

(** The first label starts as the text does. *)
Lemma split_dots_head (s : pystr) :
  head s = match head (split_dots s) with
           | Some (c :: _) => Some c
           | Some [] => match s with [] => None | _ => Some 46 end
           | None => None
           end.
Proof.
  destruct s as [|a s]; [reflexivity|].
  rewrite split_dots_cons.
  destruct (N.eqb_spec a 46) as [->|Ha]; [reflexivity|].
  destruct (split_dots s); reflexivity.
Qed.

Lemma last_removelast (x : pystr) (c : N) :
  last x = Some c -> x = removelast x ++ [c].
Proof.
  intros H. destruct (exists_last (l := x)) as (l & a & ->).
  { intros ->. discriminate. }
  rewrite last_snoc in H. injection H as ->.
  now rewrite removelast_last.
Qed.

Lemma join_dots_cons (x : pystr) (l : list pystr) (v : pystr) :
  join_dots (x :: l ++ [v]) = x ++ 46 :: join_dots (l ++ [v]).
Proof. cbn [join_dots]. destruct l; reflexivity. Qed.

Lemma last_cons_Some {A} (c a : A) (l : list A) :
  last l = Some a -> last (c :: l) = Some a.
Proof. destruct l; [discriminate|]. intros H. exact H. Qed.

(** A text is its labels but the last, each followed by a dot, and then
    its last label, which holds no dot. *)
Lemma split_dots_last (s : pystr) :
  exists init l,
    split_dots s = init ++ [l]
    /\ ~ In 46 l
    /\ s = join_dots (init ++ [[]]) ++ l
    /\ (forall v, join_dots (init ++ [v]) = join_dots (init ++ [[]]) ++ v)
    /\ (init = [] -> join_dots (init ++ [[]]) = [])
    /\ (init <> [] -> last (join_dots (init ++ [[]])) = Some 46).
Proof.
  induction s as [|c s IH].
  - exists [], []. cbn. repeat split; auto. congruence.
  - destruct IH as (init & l & Hs & Hl & Hjoin & Hv & Hnil & Hdot).
    rewrite split_dots_cons.
    destruct (N.eqb_spec c 46) as [->|Hc].
    + exists ([] :: init), l. rewrite Hs. cbn [app].
      split; [reflexivity|]. split; [assumption|].
      rewrite !join_dots_cons. cbn [app]. split; [f_equal; exact Hjoin|].
      split; [intros v; rewrite join_dots_cons; cbn [app]; now rewrite Hv|].
      split; [discriminate|].
      intros _. destruct init as [|x init].
      * reflexivity.
      * apply last_cons_Some, Hdot. discriminate.
    + rewrite Hs. destruct init as [|x init].
      * exists [], (c :: l). cbn [app].
        split; [reflexivity|]. split.
        { intros [E|E]; [congruence|contradiction]. }
        cbn [join_dots app]. rewrite Hnil in Hjoin by reflexivity.
        cbn [app] in Hjoin. split; [now rewrite Hjoin|].
        split; [reflexivity|]. split; [reflexivity|congruence].
      * exists ((c :: x) :: init), l. cbn [app].
        split; [reflexivity|]. split; [assumption|].
        cbn [app] in Hjoin, Hv, Hdot.
        rewrite join_dots_cons in Hjoin. rewrite !join_dots_cons.
        split; [cbn [app]; f_equal; exact Hjoin|].
        split.
        { intros v. specialize (Hv v). rewrite !join_dots_cons in Hv.
          rewrite !join_dots_cons. cbn [app]. f_equal. exact Hv. }
        split; [discriminate|]. intros _.
        specialize (Hdot ltac:(discriminate)). rewrite join_dots_cons in Hdot.
        cbn [app]. apply last_cons_Some, Hdot.
Qed.

(** [split] and [join] are inverse on a text. *)
Lemma join_split_dots (s : pystr) : join_dots (split_dots s) = s.
Proof.
  destruct (split_dots_last s) as (init & l & Hs & _ & Hjoin & Hv & _).
  now rewrite Hs, Hv, <- Hjoin.
Qed.

End DotsFacts.

Module HostnameExtras.
Import Py Clustering DotsFacts.

(** A label [allowed] matches is made of label characters, a newline at
    its end apart, and is neither empty nor starts with a dash. *)
Lemma allowed_match_chars (x : pystr) :
  allowed_match x = true ->
  (exists c, head x = Some c /\ c <> 45)
  /\ forall c, In c x -> label_char c = true \/ c = 10.
Proof.
  unfold allowed_match. intros H.
  apply andb_prop in H as [H Hlast].
  apply andb_prop in H as [H Hhead].
  apply andb_prop in H as [H Hchars].
  apply andb_prop in H as [Hlo Hhi].
  apply N.leb_le in Hlo.
  rewrite forallb_forall in Hchars.
  apply negb_true_iff, bool_decide_eq_false in Hhead.
  destruct (last x) as [c0|] eqn:Hl.
  - destruct (N.eq_dec c0 10) as [->|Hne].
    + change (match Some 10 with Some 10 => removelast x | _ => x end)
        with (removelast x) in *.
      pose proof (last_removelast _ _ Hl) as Hx.
      destruct (removelast x) as [|b body] eqn:Hb; [cbn in Hlo; lia|].
      rewrite Hx. split.
      * exists b. split; [reflexivity|]. cbn in Hhead. congruence.
      * intros c Hin. apply in_app_or in Hin as [Hin|[<-|[]]]; [|now right].
        left. apply Hchars. assumption.
    + assert (Hx : match Some c0 with Some 10 => removelast x | _ => x end = x).
      { destruct c0 as [|p]; [reflexivity|].
        do 4 (destruct p as [p|p|]; try reflexivity). congruence. }
      rewrite Hx in *.
      destruct x as [|b body]; [cbn in Hlo; lia|]. split.
      * exists b. split; [reflexivity|]. cbn in Hhead. congruence.
      * intros c Hin. left. apply Hchars. assumption.
  - destruct x as [|b body]; [cbn in Hlo; lia|].
    destruct (exists_last (l := b :: body)) as (l & a & E); [discriminate|].
    rewrite E, last_snoc in Hl. discriminate.
Qed.

(** X5. A hostname [_validate_hostname] accepts has between 1 and 254
    characters, starts with neither a dot nor a dash, holds a letter or
    a dash, and is made of the characters a label may have, dots and
    newlines only. *)
Theorem accepted_hostname_shape (h : pystr) :
  _validate_hostname (PyStr h) = Return tt ->
  (1 <= length h <= 254)%nat
  /\ head h <> Some 46
  /\ head h <> Some 45
  /\ (exists c, In c h /\ alpha_or_dash c = true)
  /\ (forall c, In c h -> label_char c = true \/ c = 46 \/ c = 10).
Proof.
  unfold _validate_hostname. cbn [len bind].
  destruct (N.eqb_spec (N.of_nat (length h)) 0) as [|Hlen]; [discriminate|].
  set (name := match last h with Some 46 => removelast h | _ => h end).
  assert (Hname : h = name \/ h = name ++ [46]).
  { subst name. destruct (last h) as [c0|] eqn:Hl; [|now left].
    destruct (N.eq_dec c0 46) as [->|Hne].
    - right. now apply last_removelast.
    - left. destruct c0 as [|p]; [reflexivity|].
      do 6 (destruct p as [p|p|]; try reflexivity). congruence. }
  clearbody name.
  destruct (N.ltb_spec 253 (N.of_nat (length name))) as [|Hlong]; [discriminate|].
  destruct (existsb alpha_or_dash (default [] (last (split_dots name))))
    eqn:Htld; [|discriminate]. cbn [negb].
  destruct (existsb (fun x => negb (allowed_match x)) (split_dots name))
    eqn:Hall; [discriminate|]. intros _.
  assert (Hlabels : forall l, In l (split_dots name) -> allowed_match l = true).
  { intros l Hl. destruct (allowed_match l) eqn:E; [reflexivity|].
    assert (existsb (fun x => negb (allowed_match x)) (split_dots name) = true)
      by (apply existsb_exists; exists l; split; [assumption|now rewrite E]).
    congruence. }
  assert (Hchars : forall c, In c name -> label_char c = true \/ c = 46 \/ c = 10).
  { intros c Hin. destruct (split_dots_chars _ _ Hin) as [->|(l & Hl & Hc)]; [auto|].
    destruct (allowed_match_chars l (Hlabels l Hl)) as [_ Hok].
    destruct (Hok c Hc); auto. }
  assert (Hhead : exists c, head name = Some c /\ c <> 46 /\ c <> 45).
  { pose proof (split_dots_not_nil name) as Hn.
    pose proof (split_dots_head name) as Hh.
    destruct (split_dots name) as [|l0 acc] eqn:Hs; [congruence|].
    destruct (allowed_match_chars l0 (Hlabels l0 (or_introl eq_refl)))
      as [(c & Hc & Hd) Hok].
    destruct l0 as [|c' l0]; [discriminate|]. cbn in Hc, Hh.
    injection Hc as ->. exists c. split; [assumption|]. split; [|assumption].
    intros ->.
    destruct name as [|a name']; [discriminate|].
    rewrite split_dots_cons in Hs. cbn in Hh. injection Hh as ->.
    cbn in Hs. discriminate. }
  assert (Halpha : exists c, In c name /\ alpha_or_dash c = true).
  { apply existsb_exists in Htld as (c & Hc & Ha). exists c. split; [|assumption].
    destruct (last (split_dots name)) as [l|] eqn:Hl; [|contradiction].
    cbn [default] in Hc.
    assert (Hin : In l (split_dots name)).
    { apply last_Some in Hl as [l' ->]. apply in_or_app. right. now left. }
    clear - Hin Hc. revert l Hin Hc.
    induction name as [|a s IH]; intros l Hin Hc.
    - cbn in Hin. destruct Hin as [<-|[]]. contradiction.
    - rewrite split_dots_cons in Hin.
      destruct (a =? 46).
      + destruct Hin as [<-|Hin]; [contradiction|]. right. eauto.
      + pose proof (split_dots_not_nil s) as Hn.
        destruct (split_dots s) as [|l0 acc]; [congruence|].
        destruct Hin as [<-|Hin].
        * destruct Hc as [<-|Hc]; [now left|].
          right. apply (IH l0); [now left|assumption].
        * right. apply (IH l); [now right|assumption]. }
  destruct Hhead as (c0 & Hc0 & H46 & H45).
  destruct Halpha as (ca & Hca & Ha).
  destruct Hname as [->| ->].
  - repeat split; try lia.
    + rewrite Hc0. congruence.
    + rewrite Hc0. congruence.
    + eauto.
    + assumption.
  - rewrite length_app. cbn [length]. repeat split; try lia.
    + destruct name; [discriminate|]. cbn in *. congruence.
    + destruct name; [discriminate|]. cbn in *. congruence.
    + exists ca. split; [apply in_or_app; now left|assumption].
    + intros c Hin. apply in_app_or in Hin as [Hin|[<-|[]]]; auto.
Qed.

End HostnameExtras.

(** ** From the issued token to the join request *)

Module FlowExtras.
Import Py Snap Clustering ValidationFacts ValidationExtras SnapFacts StoreFacts FlowFacts.

Section Flow.

Variables valid_ipv4 valid_ipv6 : pyval -> result bool.
Variable stored_as : pyval -> pyval.
Variable urlopen : Client.request -> Client.urlopen_outcome.
Variable json_loads : pystr -> result pyval.
Variable _load : world -> option pystr.
Variable _input_func : nat -> option pystr.

Local Abbreviation _validate := (_validate valid_ipv4 valid_ipv6).
Local Abbreviation ask_loop :=
  (Init.ask_loop valid_ipv4 valid_ipv6 stored_as _input_func).

(** [_validate] ends in one of three ways. *)
Lemma validate_cases (answer : pystr) :
  (exists conn_info, _validate answer = accept answer conn_info)
  \/ (exists m, _validate answer = reject answer m)
  \/ (exists e, _validate answer = propagate e).
Proof.
  unfold Clustering._validate.
  destruct (let* ascii := Codec.encode_ascii answer in
            Base64.decode_as_bytes ascii) as [bs|e].
  - destruct (Msgpack.loads bs) as [conn_info|e].
    + unfold Clustering.validate_fields.
      repeat match goal with
      | |- context [match ?x with _ => _ end] =>
          lazymatch x with
          | context [match _ with _ => _ end] => fail
          | _ => destruct x
          end
      end; eauto.
    + destruct e as [c r]. destruct c; cbn; eauto.
  - destruct (isinstance e TypeError); eauto.
Qed.

(** X8. What [Question.ask] returns for the connection string is an
    answer given at one of the turns and accepted by [_validate]; the
    turns before it were rejected with one line each, and the node is
    left as [_save] and [after] of that answer make it. *)
Theorem ask_returns_a_validated_answer
    (n i : nat) (dflt : option pystr) (w w' : world)
    (awr : pystr) (log : list Init.event) :
  ask_loop n i dflt w = (Return awr, log, w') ->
  exists j conn_info,
    (i <= j < i + n)%nat
    /\ Init.answer_at _input_func dflt j = Some awr
    /\ _validate awr = accept awr conn_info
    /\ Init.after stored_as conn_info (Init._save stored_as awr w) = Return w'
    /\ length log = (j - i)%nat
    /\ (forall k, (i <= k < j)%nat ->
          exists a m, Init.answer_at _input_func dflt k = Some a
                      /\ _validate a = reject a m).
Proof.
  revert i log. induction n as [|n IH]; intros i log H; [discriminate|].
  cbn [Init.ask_loop] in H.
  destruct (Init.answer_at _input_func dflt i) as [answer|] eqn:Ha;
    [|discriminate].
  destruct (validate_cases answer) as [(ci & Hv) | [(m & Hv) | (e & Hv)]];
    rewrite Hv in H; cbn [outcome printed _conn_info accept reject propagate map] in H.
  - cbn [default] in H. unfold id in H.
    destruct (Init.after stored_as ci (Init._save stored_as answer w)) as [w1|e] eqn:Haft;
      [|discriminate].
    injection H as <- <- <-.
    exists i, ci.
    repeat split; try lia; try assumption; try (cbn; lia); intros k Hk; lia.
  - destruct (Init.ask_loop valid_ipv4 valid_ipv6 stored_as _input_func n (S i) dflt w)
      as [[r l] w1] eqn:Hrec.
    injection H as -> <- ->.
    destruct (IH (S i) l Hrec) as (j & ci & Hj & Hans & Hacc & Haft & Hlen & Hbefore).
    exists j, ci. repeat split; try lia; try assumption.
    + cbn [app length]. lia.
    + intros k Hk. destruct (decide (k = i)) as [->|Hne].
      * exists answer, m. split; assumption.
      * apply Hbefore. lia.
  - discriminate.
Qed.

(** X7. [after] stores the four fields of the token under
    [config.cluster]: read back, they are the hostname, the hexadecimal
    text of the fingerprint, the id and the secret as the store keeps
    them; the other keys under [config.cluster] and the files are left
    alone. *)
Theorem after_stores_the_token
    (conn_info hostname credential_id credential_secret : pyval)
    (fingerprint : list byte) (w : world) :
  getitem conn_info (str "hostname") = Return hostname ->
  getitem conn_info (str "fingerprint") = Return (PyBytes fingerprint) ->
  getitem conn_info (str "id") = Return credential_id ->
  getitem conn_info (str "secret") = Return credential_secret ->
  exists w',
    Init.after stored_as conn_info w = Return w'
    /\ config_get w' (key "config.cluster.hostname") = stored_as hostname
    /\ config_get w' (key "config.cluster.fingerprint")
       = stored_as (PyStr (Codec.hex fingerprint))
    /\ config_get w' (key "config.cluster.credential-id") = stored_as credential_id
    /\ config_get w' (key "config.cluster.credential-secret")
       = stored_as credential_secret
    /\ config_get w' (key "config.cluster.role")
       = config_get w (key "config.cluster.role")
    /\ files w' = files w.
Proof.
  intros Hh Hf Hi Hs. eexists.
  split; [exact (after_writes stored_as _ _ _ _ _ w Hh Hf Hi Hs)|].
  destruct (cluster_fields_read_back stored_as hostname
              (PyStr (Codec.hex fingerprint)) credential_id credential_secret w)
    as (R1 & R2 & R3 & R4 & R5).
  repeat split; try assumption.
  change (key "config.cluster.role")
    with ([str "config"; str "cluster"] ++ str "role" :: []).
  apply cluster_fields_frame; discriminate.
Qed.

(** X9. On a compute node, a first answer that is a token with a text
    hostname the address check takes, a 32-byte fingerprint and a
    32-character id and secret makes [Clustering.yes] put exactly one
    request on the network: to the token's hostname, port 10002, with the
    hexadecimal text of the token's fingerprint as the pin, host name and
    CA checks off, and the token's credential as the body.  The store is
    taken to give text back as it was set. *)
Theorem accepted_token_is_what_join_pins
    (w : world) (token : pystr) (conn_info : pyval)
    (hostname : pystr) (fingerprint : list byte)
    (credential_id credential_secret : pystr) :
  (forall s, stored_as (PyStr s) = PyStr s) ->
  eq_str (config_get w (key "config.cluster.role")) "compute" = true ->
  Init.answer_at _input_func (_load w) 0 = Some token ->
  decode token = Return conn_info ->
  get conn_info (str "hostname") = Return (PyStr hostname) ->
  Clustering._validate_address valid_ipv4 valid_ipv6 (PyStr hostname) = Return tt ->
  get conn_info (str "fingerprint") = Return (PyBytes fingerprint) ->
  length fingerprint = 32%nat ->
  get conn_info (str "id") = Return (PyStr credential_id) ->
  length credential_id = 32%nat ->
  get conn_info (str "secret") = Return (PyStr credential_secret) ->
  length credential_secret = 32%nat ->
  exists r w',
    Init.connect valid_ipv4 valid_ipv6 stored_as urlopen json_loads
      _load _input_func w
    = (r,
       [Init.Network
          {| Client.host := PyStr hostname;
             Client.port := 10002;
             Client.assert_fingerprint := PyStr (Codec.hex fingerprint);
             Client.assert_hostname := false;
             Client.cert_reqs := "CERT_NONE";
             Client.method := "POST";
             Client.url := "/join";
             Client.retries := 0;
             Client.headers := [("API-VERSION", "1.0.0");
                                ("Content-Type", "application/json")];
             Client.body :=
               PyDict [(KStr (str "credential-id"), PyStr credential_id);
                       (KStr (str "credential-secret"), PyStr credential_secret)] |}],
       w').
Proof.
  intros Hst Hrole Hans Hd Hh Ha Hf Hfl Hi Hil Hs Hsl.
  assert (Hacc : _validate token = accept token conn_info).
  { apply (typed_fields_accepted valid_ipv4 valid_ipv6 token conn_info
             (PyStr hostname) (PyBytes fingerprint) credential_id credential_secret);
      try assumption.
    cbn [len]. now rewrite Hfl. }
  set (w0 := Init._save stored_as token w).
  pose proof (after_writes stored_as conn_info (PyStr hostname)
                (PyStr credential_id) (PyStr credential_secret) fingerprint w0
                (get_getitem _ _ _ Hh ltac:(discriminate))
                (get_getitem _ _ _ Hf ltac:(discriminate))
                (get_getitem _ _ _ Hi ltac:(discriminate))
                (get_getitem _ _ _ Hs ltac:(discriminate))) as Haft.
  set (w1 := config_set stored_as _ w0) in Haft.
  destruct (cluster_fields_read_back stored_as (PyStr hostname)
              (PyStr (Codec.hex fingerprint)) (PyStr credential_id)
              (PyStr credential_secret) w0) as (R1 & R2 & R3 & R4 & _).
  fold w1 in R1, R2, R3, R4. rewrite Hst in R1, R2, R3, R4.
  assert (Hrole1 : config_get w1 (key "config.cluster.role")
                   = config_get w (key "config.cluster.role")).
  { change (key "config.cluster.role")
      with ([str "config"; str "cluster"] ++ str "role" :: []).
    unfold w1. rewrite cluster_fields_frame by discriminate.
    unfold w0, Init._save, config_get, config_set.
    cbn [config fold_left fst snd].
    change Init.config_key
      with ([str "config"; str "cluster"] ++ str "connection-string" :: [str "raw"]).
    now rewrite tree_get_set_diverge by discriminate. }
  assert (Hnc : eq_str (config_get w (key "config.cluster.role")) "control" = false).
  { unfold eq_str in *.
    destruct (config_get w (key "config.cluster.role")); try discriminate.
    apply bool_decide_eq_true in Hrole. subst s. reflexivity. }
  unfold Init.connect, Init.ask. rewrite Hnc.
  unfold Init._retries. cbn [Init.ask_loop]. rewrite Hans, Hacc.
  cbn [outcome accept printed map _conn_info default]. unfold id.
  fold w0. rewrite Haft. cbn [bind]. rewrite Hrole1, Hrole.
  rewrite (request_of_fields w1 _ _ _ _ R1 R2 R3 R4).
  destruct (Client.join stored_as urlopen json_loads w1); eauto.
Qed.

End Flow.

(** X6. A token issued for a text hostname the address check takes, a
    32-byte digest and a 32-character id and secret is accepted by
    [_validate], and [_conn_info] is the dictionary the issuer packed. *)
Theorem issued_token_is_accepted
    (valid_ipv4 valid_ipv6 : pyval -> result bool)
    (hostname : pystr) (digest : list byte) (id secret : pystr) :
  Codec.text hostname -> N.of_nat (length hostname) < 2 ^ 30 ->
  length digest = 32%nat ->
  Codec.text id -> length id = 32%nat ->
  Codec.text secret -> length secret = 32%nat ->
  Clustering._validate_address valid_ipv4 valid_ipv6 (PyStr hostname) = Return tt ->
  exists data token,
    Issuer.token_data (PyStr hostname) (PyStr (Codec.hex digest))
      {| Issuer.cred_id := PyStr id; Issuer.cred_secret := PyStr secret |}
    = Return data
    /\ Issuer.connection_string data = Return token
    /\ Clustering._validate valid_ipv4 valid_ipv6 token = accept token data.
Proof.
  intros Hh Hhl Hf Hi Hil Hs Hsl Haddr.
  destruct (TokenFacts.loads_dumps_token hostname id secret digest)
    as (packed & Hdumps & Hloads); try assumption; try lia.
  destruct (Base64Facts.base64_roundtrip packed) as (token & Henc & Hdec).
  exists (PyDict [(KStr (str "hostname"), PyStr hostname);
                  (KStr (str "fingerprint"), PyBytes digest);
                  (KStr (str "id"), PyStr id);
                  (KStr (str "secret"), PyStr secret)]), token.
  split; [|split].
  - unfold Issuer.token_data. rewrite HexFacts.fromhex_hex. reflexivity.
  - unfold Issuer.connection_string. rewrite Hdumps. exact Henc.
  - apply (typed_fields_accepted valid_ipv4 valid_ipv6 token _
             (PyStr hostname) (PyBytes digest) id secret);
      try assumption; try reflexivity.
    + unfold decode.
      destruct (Codec.encode_ascii token) as [ascii|e]; [|discriminate].
      cbn [bind] in *. rewrite Hdec. exact Hloads.
    + cbn [len]. now rewrite Hf.
Qed.

End FlowExtras.

(** ** The role question *)

Module RoleExtras.
Import Py Role.

Section Input.

Variable input : nat -> result pystr.

(** The loop stops at the first line that is a role or at the first
    failing read, and gives up after [n] lines. *)
Lemma attempts_spec (n i : nat) :
  let r := fst (attempts input n i) in
  let t := snd (attempts input n i) in
  (reads t <= n)%nat
  /\ (forall j, (j < complaints t)%nat ->
        exists line, input (i + j)%nat = Return line /\ ~ In line _valid_roles)
  /\ match r with
     | Return role =>
         In role _valid_roles
         /\ reads t = S (complaints t)
         /\ input (i + complaints t)%nat = Return role
     | Raise e =>
         (e = Exn InvalidAnswer NoDetail
          /\ reads t = n /\ complaints t = n)
         \/ (reads t = S (complaints t)
             /\ input (i + complaints t)%nat = Raise e)
     end.
Proof.
  revert i. induction n as [|n IH]; intros i; cbn [attempts].
  - cbn. split; [lia|]. split; [intros j Hj; lia|]. left. auto.
  - destruct (input i) as [role|e] eqn:Hi.
    + destruct (bool_decide (In role _valid_roles)) eqn:Hv.
      * cbn [fst snd reads complaints]. split; [lia|].
        split; [intros j Hj; lia|].
        apply bool_decide_eq_true in Hv. rewrite Nat.add_0_r. auto.
      * apply bool_decide_eq_false in Hv.
        specialize (IH (S i)).
        destruct (attempts input n (S i)) as [r t].
        cbn [fst snd reads complaints] in *.
        destruct IH as (Hr & Hc & Hres). split; [lia|]. split.
        { intros [|j] Hj.
          - rewrite Nat.add_0_r. eauto.
          - replace (i + S j)%nat with (S i + j)%nat by lia.
            apply Hc. lia. }
        replace (i + S (complaints t))%nat with (S i + complaints t)%nat by lia.
        destruct r as [role'|e].
        { destruct Hres as (? & ? & ?). repeat split; try assumption. lia. }
        destruct Hres as [(? & ? & ?)|(? & ?)]; [left|right];
          repeat split; try assumption; lia.
    + cbn [fst snd reads complaints]. split; [lia|].
      split; [intros j Hj; lia|]. right. rewrite Nat.add_0_r. auto.
Qed.

(** X10. Asked interactively, [Role._input_func] reads at most three
    lines and prints one complaint for every line it turns down.  What
    it returns is [control] or [compute], the first such line; it raises
    [InvalidAnswer] after three lines that are neither, and otherwise
    only what [input] raised.  Not interactive, it reads and prints
    nothing and returns [None]. *)
Theorem input_func_returns_a_role (interactive : bool) :
  let r := fst (_input_func input interactive) in
  let t := snd (_input_func input interactive) in
  (reads t <= 3)%nat
  /\ (forall j, (j < complaints t)%nat ->
        exists line, input j = Return line /\ ~ In line _valid_roles)
  /\ match r with
     | Return None => interactive = false /\ reads t = 0%nat /\ complaints t = 0%nat
     | Return (Some role) =>
         interactive = true
         /\ (role = str "control" \/ role = str "compute")
         /\ reads t = S (complaints t)
         /\ input (complaints t) = Return role
     | Raise e =>
         interactive = true
         /\ ((e = Exn InvalidAnswer NoDetail
              /\ reads t = 3%nat /\ complaints t = 3%nat)
             \/ (reads t = S (complaints t)
                 /\ input (complaints t) = Raise e))
     end.
Proof.
  unfold _input_func. destruct interactive; cbn [negb].
  - pose proof (attempts_spec 3 0) as H.
    destruct (attempts input 3 0) as [r t]. cbn [fst snd] in *.
    destruct H as (Hr & Hc & Hres). split; [exact Hr|]. split; [exact Hc|].
    destruct r as [role|e]; cbn [bind].
    + destruct Hres as (Hin & Hn & Hi). split; [reflexivity|].
      split; [|split; assumption].
      unfold _valid_roles in Hin. destruct Hin as [<-|[<-|[]]]; auto.
    + split; [reflexivity|]. exact Hres.
  - cbn. split; [lia|]. split; [intros j Hj; lia|]. auto.
Qed.

End Input.

End RoleExtras.

(** ** Certificate Provisioner and Credential Issuer *)

Module TlsExtras.
Import Py Snap ClusterTls SnapFacts StoreFacts.

Section Provisioner.

Variable stored_as : pyval -> pyval.
Variables private_key certificate : Type.
Variable generate_private_key : N -> N -> N -> private_key.
Variable sign : certificate_fields -> private_key -> certificate.
Variable fingerprint_sha256 : certificate -> list byte.
Variable public_bytes : certificate -> list byte.
Variable private_bytes : private_key -> list byte.

Local Abbreviation generate_selfsigned :=
  (generate_selfsigned stored_as private_key certificate generate_private_key
     sign fingerprint_sha256 public_bytes private_bytes).

(** X11. When the certificate or the key file is missing,
    [generate_selfsigned] makes a 2048-bit key with exponent 65537, signs
    with it a certificate for [microstack.run] valid ten years from now,
    writes the key to the key path and the certificate to the
    certificate path (replacing a file found there), and stores the
    hexadecimal SHA-256 fingerprint of that certificate; other files and
    the other keys under [config.cluster] are left alone. *)
Theorem generate_selfsigned_fresh (d : draw) (w : world)
    (cert_path key_path : pystr) :
  config_get w (key "config.cluster.tls-cert-path") = PyStr cert_path ->
  config_get w (key "config.cluster.tls-key-path") = PyStr key_path ->
  path_exists w cert_path && path_exists w key_path = false ->
  let k := generate_private_key 65537 2048 (entropy d) in
  let cert := sign {| subject_name := "microstack.run";
                      issuer_name := "microstack.run";
                      serial_number := random_serial_number d;
                      not_valid_before := utcnow d;
                      validity_years := 10;
                      basic_constraints := (true, 0);
                      subject_alternative_name := "microstack.run" |} k in
  let w' := snd (generate_selfsigned d w) in
  fst (generate_selfsigned d w) = Return PyNone
  /\ files w' !! key_path = Some (private_bytes k)
  /\ (cert_path <> key_path -> files w' !! cert_path = Some (public_bytes cert))
  /\ config_get w' (key "config.cluster.fingerprint")
     = stored_as (PyStr (Codec.hex (fingerprint_sha256 cert)))
  /\ (forall p, p <> cert_path -> p <> key_path -> files w' !! p = files w !! p)
  /\ (forall name rest, name <> str "fingerprint" ->
        config_get w' ([str "config"; str "cluster"] ++ name :: rest)
        = config_get w ([str "config"; str "cluster"] ++ name :: rest)).
Proof.
  intros Hc Hk Hex k cert w'. subst w'.
  unfold ClusterTls.generate_selfsigned. rewrite Hc, Hk. cbn [Path bind].
  rewrite Hex. cbn [fst snd]. fold k. fold cert.
  unfold write_bytes, config_get, config_set.
  cbn [files config fold_left fst snd].
  split; [reflexivity|]. split; [apply lookup_insert_eq|]. split.
  { intros Hne. rewrite lookup_insert_ne by congruence. apply lookup_insert_eq. }
  split; [apply tree_get_set|]. split.
  { intros p Hp1 Hp2. now rewrite !lookup_insert_ne by congruence. }
  intros name rest Hname.
  change (key "config.cluster.fingerprint")
    with ([str "config"; str "cluster"] ++ str "fingerprint" :: []).
  now apply tree_get_set_diverge.
Qed.

End Provisioner.

End TlsExtras.

Module IssuerExtras.
Import Py Snap Issuer.

Section AddCompute.

Variable application_credentials_create :
  pyval -> credential_request -> result app_cred.
Variable now : N.
Variable token_urlsafe : pystr.

Local Abbreviation add_compute :=
  (add_compute application_credentials_create now token_urlsafe).

(** The request [_create_credential] makes. *)
Local Abbreviation issued_request :=
  {| expires_at := now + 1200;
     access_rules := [("GET", "/v3/auth/catalog", "identity")];
     unrestricted := false;
     secret := firstn 32 token_urlsafe |}.

(** X12. A token is returned only on a control node, for a credential
    Keystone issued on a request that expires twenty minutes from now, is
    restricted, may only list the catalog and proposes the first 32
    characters of the random draw as the secret; the stored fingerprint
    was hexadecimal text, and the token is the serialization of the
    dictionary of the control IP, the bytes of that fingerprint and the
    credential's id and secret. *)
Theorem add_compute_returns_only_issued (w : world) (token : pystr) :
  add_compute w = Return token ->
  config_get w (key "config.cluster.role") = PyStr (str "control")
  /\ exists cred fingerprint_hex fingerprint,
       application_credentials_create
         (config_get w (key "config.credentials.nova-password")) issued_request
       = Return cred
       /\ config_get w (key "config.cluster.fingerprint") = PyStr fingerprint_hex
       /\ Codec.fromhex_str fingerprint_hex = Some fingerprint
       /\ connection_string
            (PyDict [(KStr (str "hostname"),
                      config_get w (key "config.network.control-ip"));
                     (KStr (str "fingerprint"), PyBytes fingerprint);
                     (KStr (str "id"), cred_id cred);
                     (KStr (str "secret"), cred_secret cred)])
          = Return token.
Proof.
  unfold Issuer.add_compute. intros H.
  destruct (eq_str (config_get w (key "config.cluster.role")) "control") eqn:Er;
    [|discriminate]. cbn [negb] in H.
  split.
  { unfold eq_str in Er.
    destruct (config_get w (key "config.cluster.role")); try discriminate.
    apply bool_decide_eq_true in Er. now subst. }
  change (_create_credential application_credentials_create now token_urlsafe w)
    with (application_credentials_create
            (config_get w (key "config.credentials.nova-password"))
            issued_request) in H.
  destruct (application_credentials_create _ issued_request) as [cred|e] eqn:Ec;
    [|discriminate]. cbn [bind] in H.
  unfold token_data, Codec.fromhex in H.
  destruct (config_get w (key "config.cluster.fingerprint")) as [| | | |s| | | |];
    try discriminate.
  destruct (Codec.fromhex_str s) as [fp|] eqn:Ef; [|discriminate].
  cbn [bind] in H. exists cred, s, fp. repeat split; assumption.
Qed.

(** X13. When the draw of [token_urlsafe] has at least 32 characters (it
    has 43) and Keystone gives back the secret it was proposed, the
    secret in every token [add_compute] returns has 32 characters and
    passes [_validate_credential_secret]. *)
Theorem issued_secret_passes_validation (w : world) (token : pystr) :
  (32 <= length token_urlsafe)%nat ->
  (forall password r cred,
     application_credentials_create password r = Return cred ->
     cred_secret cred = PyStr (secret r)) ->
  add_compute w = Return token ->
  exists data s,
    connection_string data = Return token
    /\ get data (str "secret") = Return (PyStr s)
    /\ length s = 32%nat
    /\ Clustering._validate_credential_secret (PyStr s) = Return tt.
Proof.
  intros Hlen Hecho H. unfold Issuer.add_compute in H.
  destruct (negb _); [discriminate|].
  unfold _create_credential in H.
  destruct (application_credentials_create _ _) as [cred|e] eqn:Ec;
    [|discriminate]. cbn [bind] in H.
  apply Hecho in Ec. cbn [secret] in Ec.
  unfold token_data in H. rewrite Ec in H.
  destruct (Codec.fromhex _) as [fp|e]; [|discriminate]. cbn [bind] in H.
  match type of H with
  | connection_string ?d = _ => exists d, (firstn 32 token_urlsafe)
  end.
  split; [exact H|].
  assert (Hl : length (firstn 32 token_urlsafe) = 32%nat)
    by (rewrite length_firstn; lia).
  split.
  { unfold get. cbn [dict_lookup].
    repeat match goal with
    | |- context [decide (?a = ?b)] =>
        destruct (decide (a = b)) as [E|E];
        [try (vm_compute in E; discriminate)
        |try (exfalso; apply E; reflexivity)]
    end.
    reflexivity. }
  split; [exact Hl|].
  rewrite ValidationFacts.validate_credential_secret_text.
  now rewrite bool_decide_eq_true_2.
Qed.

(** X14. On a control node with a credential issued, a stored
    fingerprint that is not text (unset, for one) makes [add_compute]
    raise [TypeError], and one that is text but not hexadecimal makes it
    raise [ValueError]; no token is printed. *)
Theorem add_compute_needs_hex_fingerprint (w : world) (cred : app_cred) :
  config_get w (key "config.cluster.role") = PyStr (str "control") ->
  application_credentials_create
    (config_get w (key "config.credentials.nova-password")) issued_request
  = Return cred ->
  ((forall s, config_get w (key "config.cluster.fingerprint") <> PyStr s) ->
   add_compute w = raise TypeError)
  /\ (forall s, config_get w (key "config.cluster.fingerprint") = PyStr s ->
        Codec.fromhex_str s = None ->
        add_compute w = raise ValueError).
Proof.
  intros Hrole Hc. unfold Issuer.add_compute, _create_credential.
  rewrite Hrole. change (negb (eq_str (PyStr (str "control")) "control")) with false.
  cbv iota.
  change (application_credentials_create
            (config_get w (key "config.credentials.nova-password"))
            {| expires_at := now + VALIDITY_PERIOD;
               access_rules := [("GET", "/v3/auth/catalog", "identity")];
               unrestricted := false;
               secret := firstn 32 token_urlsafe |})
    with (application_credentials_create
            (config_get w (key "config.credentials.nova-password"))
            issued_request).
  rewrite Hc. cbn [bind].
  unfold token_data, Codec.fromhex. split.
  - intros Hn.
    destruct (config_get w (key "config.cluster.fingerprint")); try reflexivity.
    now destruct (Hn s).
  - intros s -> ->. reflexivity.
Qed.

End AddCompute.

End IssuerExtras.

Module ProvisionExtras.
Import Py Snap ClusterTls Issuer SnapFacts StoreFacts.

Section ControlNode.

Variable stored_as : pyval -> pyval.
Variables private_key certificate : Type.
Variable generate_private_key : N -> N -> N -> private_key.
Variable sign : certificate_fields -> private_key -> certificate.
Variable fingerprint_sha256 : certificate -> list byte.
Variable public_bytes : certificate -> list byte.
Variable private_bytes : private_key -> list byte.
Variable application_credentials_create :
  pyval -> credential_request -> result app_cred.
Variable now : N.
Variable token_urlsafe : pystr.

Local Abbreviation generate_selfsigned :=
  (generate_selfsigned stored_as private_key certificate generate_private_key
     sign fingerprint_sha256 public_bytes private_bytes).
Local Abbreviation add_compute :=
  (add_compute application_credentials_create now token_urlsafe).

(** The configuration a fresh run of [generate_selfsigned] leaves. *)
Lemma generate_selfsigned_config (d : draw) (w : world)
    (cert_path key_path : pystr) :
  config_get w (key "config.cluster.tls-cert-path") = PyStr cert_path ->
  config_get w (key "config.cluster.tls-key-path") = PyStr key_path ->
  path_exists w cert_path && path_exists w key_path = false ->
  config (snd (generate_selfsigned d w))
  = tree_set (key "config.cluster.fingerprint")
      (stored_as
         (PyStr (Codec.hex
            (fingerprint_sha256
               (sign {| subject_name := "microstack.run";
                        issuer_name := "microstack.run";
                        serial_number := random_serial_number d;
                        not_valid_before := utcnow d;
                        validity_years := 10;
                        basic_constraints := (true, 0);
                        subject_alternative_name := "microstack.run" |}
                     (generate_private_key 65537 2048 (entropy d)))))))
      (config w).
Proof.
  intros Hc Hk Hex. unfold ClusterTls.generate_selfsigned.
  rewrite Hc, Hk. cbn [Path bind]. rewrite Hex. reflexivity.
Qed.

(** X26. On a control node where the store gives text back as it was
    set, the token [add_compute] makes after a fresh run of
    [generate_selfsigned] carries the SHA-256 fingerprint of the
    certificate that run has written, next to the control IP and the
    credential Keystone issued. *)
Theorem provisioned_fingerprint_is_issued (d : draw) (w : world)
    (cert_path key_path : pystr) (cred : app_cred) :
  (forall s, stored_as (PyStr s) = PyStr s) ->
  config_get w (key "config.cluster.tls-cert-path") = PyStr cert_path ->
  config_get w (key "config.cluster.tls-key-path") = PyStr key_path ->
  path_exists w cert_path && path_exists w key_path = false ->
  config_get w (key "config.cluster.role") = PyStr (str "control") ->
  application_credentials_create
    (config_get w (key "config.credentials.nova-password"))
    {| expires_at := now + VALIDITY_PERIOD;
       access_rules := [("GET", "/v3/auth/catalog", "identity")];
       unrestricted := false;
       secret := firstn 32 token_urlsafe |}
  = Return cred ->
  add_compute (snd (generate_selfsigned d w))
  = connection_string
      (PyDict [(KStr (str "hostname"),
                config_get w (key "config.network.control-ip"));
               (KStr (str "fingerprint"),
                PyBytes
                  (fingerprint_sha256
                     (sign {| subject_name := "microstack.run";
                              issuer_name := "microstack.run";
                              serial_number := random_serial_number d;
                              not_valid_before := utcnow d;
                              validity_years := 10;
                              basic_constraints := (true, 0);
                              subject_alternative_name := "microstack.run" |}
                           (generate_private_key 65537 2048 (entropy d)))));
               (KStr (str "id"), cred_id cred);
               (KStr (str "secret"), cred_secret cred)]).
Proof.
  intros Hst Hc Hk Hex Hrole Hcred.
  pose proof (generate_selfsigned_config d w cert_path key_path Hc Hk Hex) as Hcfg.
  set (w' := snd (generate_selfsigned d w)) in *.
  rewrite Hst in Hcfg.
  assert (Hfp : config_get w' (key "config.cluster.fingerprint")
                = PyStr (Codec.hex
                    (fingerprint_sha256
                       (sign {| subject_name := "microstack.run";
                                issuer_name := "microstack.run";
                                serial_number := random_serial_number d;
                                not_valid_before := utcnow d;
                                validity_years := 10;
                                basic_constraints := (true, 0);
                                subject_alternative_name := "microstack.run" |}
                             (generate_private_key 65537 2048 (entropy d)))))).
  { unfold config_get. rewrite Hcfg. apply tree_get_set. }
  assert (Hrole' : config_get w' (key "config.cluster.role")
                   = PyStr (str "control")).
  { rewrite <- Hrole. unfold config_get. rewrite Hcfg.
    change (key "config.cluster.role")
      with ([str "config"; str "cluster"] ++ str "role" :: []).
    change (key "config.cluster.fingerprint")
      with ([str "config"; str "cluster"] ++ str "fingerprint" :: []).
    apply tree_get_set_diverge. discriminate. }
  assert (Hip : config_get w' (key "config.network.control-ip")
                = config_get w (key "config.network.control-ip")).
  { unfold config_get. rewrite Hcfg.
    change (key "config.network.control-ip")
      with ([str "config"] ++ str "network" :: [str "control-ip"]).
    change (key "config.cluster.fingerprint")
      with ([str "config"] ++ str "cluster" :: [str "fingerprint"]).
    apply tree_get_set_diverge. discriminate. }
  assert (Hpw : config_get w' (key "config.credentials.nova-password")
                = config_get w (key "config.credentials.nova-password")).
  { unfold config_get. rewrite Hcfg.
    change (key "config.credentials.nova-password")
      with ([str "config"] ++ str "credentials" :: [str "nova-password"]).
    change (key "config.cluster.fingerprint")
      with ([str "config"] ++ str "cluster" :: [str "fingerprint"]).
    apply tree_get_set_diverge. discriminate. }
  unfold Issuer.add_compute, _create_credential.
  rewrite Hrole', Hpw, Hcred, Hfp, Hip.
  change (negb (eq_str (PyStr (str "control")) "control")) with false.
  cbv iota. cbn [bind]. unfold token_data.
  rewrite HexFacts.fromhex_hex. reflexivity.
Qed.

End ControlNode.

End ProvisionExtras.

(** ** Join Server *)

Module DaemonExtras.
Import Py Snap Daemon.

Section Server.

Variable Version : string -> option Semver.Version.
Variable json_loads : list byte -> option pyval.
Variable keystone : pyval -> pyval -> keystone_outcome.
Variable w : world.

Local Abbreviation join := (join Version json_loads keystone w).
Local Abbreviation post_join := (post_join Version json_loads keystone w).
Local Abbreviation authenticate := (authenticate keystone w).

(** The request is of the server's major version, declares JSON, and its
    body parses to an object with both credential fields set. *)
Local Abbreviation reaches_keystone req credential_id credential_secret :=
  (exists v api_version req_json,
     headers_get "API-Version" (headers req) = Some v
     /\ Version v = Some api_version
     /\ Semver.major api_version = 1
     /\ is_json req = true
     /\ json_loads (data req) = Some req_json
     /\ get req_json (str "credential-id") = Return credential_id
     /\ get req_json (str "credential-secret") = Return credential_secret
     /\ truthy credential_id = true
     /\ truthy credential_secret = true).

Lemma major_one (api_version : Semver.Version) :
  (Semver.major API_VERSION <? Semver.major api_version) = false ->
  (Semver.major api_version <? Semver.major API_VERSION) = false ->
  Semver.major api_version = 1.
Proof.
  change (Semver.major API_VERSION) with 1.
  rewrite !N.ltb_ge. lia.
Qed.

Lemma get_dict (x : pyval) (k : pystr) (v : pyval) :
  get x k = Return v -> exists d, x = PyDict d.
Proof. destruct x; try discriminate. eauto. Qed.

(** Once the request has passed the checks of [join], the response is
    made from Keystone's answer alone. *)
Lemma join_reaches (req : request) (credential_id credential_secret : pyval) :
  reaches_keystone req credential_id credential_secret ->
  join req = authenticate credential_id credential_secret.
Proof.
  intros (v & api_version & req_json & Hh & Hv & Hm & Hj & Hl & Hi & Hs & Ti & Ts).
  unfold Daemon.join, join_same_major, request_json.
  rewrite Hh, Hv, Hm, Hj, Hl.
  change (Semver.major API_VERSION) with 1.
  rewrite N.ltb_irrefl.
  destruct (get_dict _ _ _ Hi) as [d ->].
  rewrite Hi, Hs. cbn [bind]. rewrite Ti, Ts. reflexivity.
Qed.

(** Short of that, the view never gives a text back. *)
Lemma join_stops (req : request) :
  (forall credential_id credential_secret,
     ~ reaches_keystone req credential_id credential_secret) ->
  join req = Returns (ExceptionObject MissingAuthDataInRequest)
  \/ (exists e, join req = Raises (Unhandled e))
  \/ (exists e, join req = Raises (Api e)
        /\ In e [APIVersionMissing; APIVersionInvalid; APIVersionDropped;
                 APIVersionNotImplemented; InvalidJSONInRequest;
                 IncorrectContentType]).
Proof.
  intros Hno. unfold Daemon.join, join_same_major, request_json.
  destruct (headers_get "API-Version" (headers req)) as [v|] eqn:Hh;
    [|right; right; eexists; split; [reflexivity|cbn; tauto]].
  destruct (Version v) as [api_version|] eqn:Hv;
    [|right; right; eexists; split; [reflexivity|cbn; tauto]].
  destruct (Semver.major API_VERSION <? Semver.major api_version) eqn:H1;
    [right; right; eexists; split; [reflexivity|cbn; tauto]|].
  destruct (Semver.major api_version <? Semver.major API_VERSION) eqn:H2;
    [right; right; eexists; split; [reflexivity|cbn; tauto]|].
  pose proof (major_one _ H1 H2) as Hm.
  destruct (is_json req) eqn:Hj;
    [|right; right; eexists; split; [reflexivity|cbn; tauto]].
  destruct (json_loads (data req)) as [req_json|] eqn:Hl;
    [|right; right; eexists; split; [reflexivity|cbn; tauto]].
  destruct req_json as [| | | | | | |d|] eqn:Hr;
    try (right; left; eexists; reflexivity);
    try (right; right; eexists; split; [reflexivity|cbn; tauto]).
  cbn [get bind].
  destruct (truthy (default PyNone (dict_lookup (KStr (str "credential-id")) d)))
    eqn:Ti; [|left; reflexivity].
  destruct (truthy (default PyNone (dict_lookup (KStr (str "credential-secret")) d)))
    eqn:Ts; [|left; reflexivity].
  exfalso. eapply Hno. exists v, api_version, (PyDict d).
  repeat split; try eassumption; reflexivity.
Qed.

Lemma reaches_or_not (req : request) :
  (exists credential_id credential_secret,
     reaches_keystone req credential_id credential_secret)
  \/ (forall credential_id credential_secret,
        ~ reaches_keystone req credential_id credential_secret).
Proof.
  destruct (headers_get "API-Version" (headers req)) as [v|] eqn:Hh;
    [|right; intros ? ? (? & ? & ? & ? & _); congruence].
  destruct (Version v) as [api_version|] eqn:Hv;
    [|right; intros ? ? (? & ? & ? & ? & ? & _); congruence].
  destruct (N.eq_dec (Semver.major api_version) 1) as [Hm|Hm];
    [|right; intros ? ? (? & ? & ? & ? & ? & ? & _); congruence].
  destruct (is_json req) eqn:Hj;
    [|right; intros ? ? (? & ? & ? & ? & ? & ? & ? & _); congruence].
  destruct (json_loads (data req)) as [req_json|] eqn:Hl;
    [|right; intros ? ? (? & ? & ? & ? & ? & ? & ? & ? & _); congruence].
  destruct (get req_json (str "credential-id")) as [ci|e] eqn:Hi;
    [|right; intros ? ? (? & ? & ? & ? & ? & ? & ? & ? & ? & _); congruence].
  destruct (get req_json (str "credential-secret")) as [cs|e] eqn:Hs;
    [|right; intros ? ? (? & ? & ? & ? & ? & ? & ? & ? & ? & ? & _); congruence].
  destruct (truthy ci) eqn:Ti;
    [|right; intros ? ? (? & ? & ? & ? & ? & ? & ? & ? & ? & ? & ? & _); congruence].
  destruct (truthy cs) eqn:Ts;
    [|right; intros ? ? (? & ? & ? & ? & ? & ? & ? & ? & ? & ? & ? & ?); congruence].
  left. exists ci, cs, v, api_version, req_json. repeat split; assumption.
Qed.

Lemma reaches_unique (req : request) (i1 s1 i2 s2 : pyval) :
  reaches_keystone req i1 s1 -> reaches_keystone req i2 s2 ->
  i1 = i2 /\ s1 = s2.
Proof.
  intros (v & a & j & Hh & Hv & Hm & Hj & Hl & Hi & Hs & _)
         (v' & a' & j' & Hh' & Hv' & Hm' & Hj' & Hl' & Hi' & Hs' & _).
  split; congruence.
Qed.

(** X15. [POST /join] has three kinds of answers: 200 with the node's
    whole [config] document; an error page with status 500; or the JSON
    message of one of nine exception classes with the status the class
    declares.  The classes [MissingAuthDataInRequest] and
    [InvalidAuthDataFormatInRequest] never show, no Flask [BadRequest]
    page is served, and the status is one of 200, 400, 401, 410, 500 and
    501. *)
Theorem post_join_response_shape (req : request) :
  (post_join req = {| status := 200; content := Body (join_info w) |}
   \/ post_join req = internal_server_error
   \/ exists e,
        post_join req = _handle_api_version_exception e
        /\ In e [APIVersionMissing; APIVersionInvalid; APIVersionDropped;
                 APIVersionNotImplemented; InvalidJSONInRequest;
                 IncorrectContentType; InvalidAuthDataInRequest;
                 AuthorizationFailed; UnexpectedError])
  /\ In (status (post_join req)) [200; 400; 401; 410; 500; 501].
Proof.
  assert (Hshape :
    post_join req = {| status := 200; content := Body (join_info w) |}
    \/ post_join req = internal_server_error
    \/ exists e,
         post_join req = _handle_api_version_exception e
         /\ In e [APIVersionMissing; APIVersionInvalid; APIVersionDropped;
                  APIVersionNotImplemented; InvalidJSONInRequest;
                  IncorrectContentType; InvalidAuthDataInRequest;
                  AuthorizationFailed; UnexpectedError]).
  { unfold Daemon.post_join.
    destruct (reaches_or_not req) as [(ci & cs & Hr)|Hno].
    - rewrite (join_reaches _ _ _ Hr). unfold Daemon.authenticate.
      destruct (keystone ci cs); cbn [dispatch errorhandler];
        try (left; reflexivity); try (right; left; reflexivity);
        right; right; eexists; (split; [reflexivity|cbn; tauto]).
    - destruct (join_stops req Hno) as [E|[[e E]|(e & E & Hin)]]; rewrite E;
        cbn [dispatch]; try (right; left; reflexivity).
      right; right. exists e. cbn in Hin.
      destruct Hin as [<-|[<-|[<-|[<-|[<-|[<-|[]]]]]]];
        (split; [reflexivity|cbn; tauto]). }
  split; [exact Hshape|].
  destruct Hshape as [E|[E|(e & E & Hin)]]; rewrite E; cbn [status];
    try (cbn; tauto).
  cbn in Hin.
  destruct Hin as [<-|[<-|[<-|[<-|[<-|[<-|[<-|[<-|[<-|[]]]]]]]]]];
    cbn; tauto.
Qed.

(** X16. The server answers 200 exactly when the request is of major
    version 1, declares JSON, carries an object with both credential
    fields set, and Keystone lists the catalog for that credential; the
    answer then is the node's [config] document. *)
Theorem config_disclosed_iff_authenticated (req : request) :
  (status (post_join req) = 200 <->
   exists credential_id credential_secret,
     reaches_keystone req credential_id credential_secret
     /\ keystone credential_id credential_secret = CatalogListed)
  /\ (status (post_join req) = 200 ->
      content (post_join req) = Body (join_info w)).
Proof.
  unfold Daemon.post_join.
  destruct (reaches_or_not req) as [(ci & cs & Hr)|Hno].
  - rewrite (join_reaches _ _ _ Hr). unfold Daemon.authenticate. split; [split|].
    + intros H. exists ci, cs. split; [exact Hr|].
      destruct (keystone ci cs); cbn in H; try discriminate. reflexivity.
    + intros (ci' & cs' & Hr' & Hk).
      destruct (reaches_unique _ _ _ _ _ Hr Hr') as [-> ->].
      rewrite Hk. reflexivity.
    + destruct (keystone ci cs); cbn; try discriminate. reflexivity.
  - destruct (join_stops req Hno) as [E|[[e E]|(e & E & Hin)]]; rewrite E.
    + split; [split|]; try (cbn; discriminate).
      intros (ci & cs & Hr & _). now destruct (Hno ci cs).
    + split; [split|]; try (cbn; discriminate).
      intros (ci & cs & Hr & _). now destruct (Hno ci cs).
    + split; [split|].
      * cbn in Hin.
        destruct Hin as [<-|[<-|[<-|[<-|[<-|[<-|[]]]]]]]; cbn; discriminate.
      * intros (ci & cs & Hr & _). now destruct (Hno ci cs).
      * cbn in Hin.
        destruct Hin as [<-|[<-|[<-|[<-|[<-|[<-|[]]]]]]]; cbn; discriminate.
Qed.

(** X17. The server answers 401 exactly when such a request reaches
    Keystone and Keystone refuses the credential ([AuthorizationFailure]
    or [Unauthorized], as for an expired one); the body then is the
    message of [AuthorizationFailed]. *)
Theorem unauthorized_iff_keystone_refuses (req : request) :
  (status (post_join req) = 401 <->
   exists credential_id credential_secret,
     reaches_keystone req credential_id credential_secret
     /\ (keystone credential_id credential_secret = AuthorizationFailure
         \/ keystone credential_id credential_secret = KsUnauthorized))
  /\ (status (post_join req) = 401 ->
      content (post_join req) = Jsonify (to_dict AuthorizationFailed)).
Proof.
  unfold Daemon.post_join.
  destruct (reaches_or_not req) as [(ci & cs & Hr)|Hno].
  - rewrite (join_reaches _ _ _ Hr). unfold Daemon.authenticate. split; [split|].
    + intros H. exists ci, cs. split; [exact Hr|].
      destruct (keystone ci cs); cbn in H; try discriminate; tauto.
    + intros (ci' & cs' & Hr' & Hk).
      destruct (reaches_unique _ _ _ _ _ Hr Hr') as [-> ->].
      destruct Hk as [-> | ->]; reflexivity.
    + destruct (keystone ci cs); cbn; try discriminate; reflexivity.
  - destruct (join_stops req Hno) as [E|[[e E]|(e & E & Hin)]]; rewrite E.
    + split; [split|]; try (cbn; discriminate).
      intros (ci & cs & Hr & _). now destruct (Hno ci cs).
    + split; [split|]; try (cbn; discriminate).
      intros (ci & cs & Hr & _). now destruct (Hno ci cs).
    + split; [split|].
      * cbn in Hin.
        destruct Hin as [<-|[<-|[<-|[<-|[<-|[<-|[]]]]]]]; cbn; discriminate.
      * intros (ci & cs & Hr & _). now destruct (Hno ci cs).
      * cbn in Hin.
        destruct Hin as [<-|[<-|[<-|[<-|[<-|[<-|[]]]]]]]; cbn; discriminate.
Qed.

(** X18. For a request of major version 1 that declares JSON: a body
    that does not parse is answered 400 with the message of
    [InvalidJSONInRequest]; the body [null] is answered 400 with the
    message of [IncorrectContentType], the content type notwithstanding;
    a body that is JSON but neither [null] nor an object (a list, a
    number, a string, a boolean) is answered with the error page of
    status 500. *)
Theorem declared_json_bodies (req : request) (v : string)
    (api_version : Semver.Version) :
  headers_get "API-Version" (headers req) = Some v ->
  Version v = Some api_version ->
  Semver.major api_version = 1 ->
  is_json req = true ->
  (json_loads (data req) = None ->
   post_join req = _handle_api_version_exception InvalidJSONInRequest)
  /\ (json_loads (data req) = Some PyNone ->
      post_join req = _handle_api_version_exception IncorrectContentType)
  /\ (forall req_json,
        json_loads (data req) = Some req_json ->
        req_json <> PyNone -> (forall d, req_json <> PyDict d) ->
        post_join req = internal_server_error).
Proof.
  intros Hh Hv Hm Hj.
  unfold Daemon.post_join, Daemon.join, join_same_major, request_json.
  rewrite Hh, Hv, Hm, Hj. change (Semver.major API_VERSION) with 1.
  rewrite N.ltb_irrefl. repeat split.
  - now intros ->.
  - now intros ->.
  - intros req_json -> Hn Hd.
    destruct req_json; try reflexivity; [congruence|].
    now destruct (Hd d).
Qed.

End Server.

End DaemonExtras.

(** ** Join Client *)

Module ClientExtras.
Import Py Snap Client SnapFacts StoreFacts.

Section Join.

Variable stored_as : pyval -> pyval.
Variable urlopen : request -> urlopen_outcome.
Variable json_loads : pystr -> result pyval.

Local Abbreviation join := (join stored_as urlopen json_loads).
Local Abbreviation apply_response := (apply_response stored_as json_loads).






(** X20. [join] raises [UnauthorizedRequestError] only when the service
    answered 401 with a body that is UTF-8: without an argument when the
    body is empty, else with the [message] entry of the body's JSON
    object. *)
Theorem unauthorized_only_on_401 (w : world) (m : option pyval) :
  join w = Raises (UnauthorizedRequestError m) ->
  exists req data response_data,
    request_of w = Return req
    /\ urlopen req = Response 401 data
    /\ Codec.decode_utf8 data = Some response_data
    /\ ((response_data = [] /\ m = None)
        \/ (response_data <> []
            /\ exists d message,
                 json_loads response_data = Return d
                 /\ getitem d (str "message") = Return message
                 /\ m = Some message)).
Proof.
  unfold Client.join. intros H.
  destruct (request_of w) as [req|e]; [|discriminate].
  destruct (urlopen req) as [st data|reason|e] eqn:Hu;
    [|destruct reason; discriminate|discriminate].
  destruct (N.eqb_spec st 401) as [->|].
  - unfold decode_utf8 in H.
    destruct (Codec.decode_utf8 data) as [s|] eqn:Hd; [|discriminate].
    exists req, data, s.
    split; [reflexivity|]. split; [assumption|]. split; [assumption|].
    cbn [truthy] in H.
    destruct (decide (s = [])) as [->|Hne].
    + left. cbn in H. split; [reflexivity|congruence].
    + right. split; [assumption|].
      rewrite bool_decide_eq_false_2 in H by assumption. cbn [negb] in H.
      destruct (json_loads s) as [d|e] eqn:Ej; [|discriminate]. cbn [bind] in H.
      destruct (getitem d (str "message")) as [message|e] eqn:Em; [|discriminate].
      exists d, message. repeat split; congruence.
  - destruct (negb (st =? 200)); [discriminate|].
    destruct (decode_utf8 data) as [s|e].
    + destruct (negb (truthy (PyStr s))); [discriminate|].
      destruct (apply_response w s); discriminate.
    + destruct (isinstance e UnicodeDecodeError); discriminate.
Qed.

(** X21. Of the server's error answers only the 401 is read: for every
    other exception class of the daemon, a response with the status the
    class declares makes [join] raise a plain [Exception] that names the
    status, whatever the body says. *)
Theorem server_errors_are_unexpected_status (w : world) (req : request)
    (e : Daemon.APIException) (data : list byte) :
  e <> Daemon.AuthorizationFailed ->
  request_of w = Return req ->
  urlopen req = Response (Daemon.status_code e) data ->
  join w = Raises (PlainException unexpected_status_message
                     (Some (Daemon.status_code e)) NoCause).
Proof.
  intros He Hreq Hu. unfold Client.join. rewrite Hreq, Hu.
  destruct e; try congruence; reflexivity.
Qed.

(** X22. The message of the server's 401 answer is what the user gets:
    when the body of a 401 response parses to the dictionary of
    [AuthorizationFailed], [join] raises [UnauthorizedRequestError] with
    that class's message. *)
Theorem server_401_message_is_raised (w : world) (req : request)
    (data : list byte) (response_data : pystr) :
  request_of w = Return req ->
  urlopen req = Response (Daemon.status_code Daemon.AuthorizationFailed) data ->
  Codec.decode_utf8 data = Some response_data ->
  response_data <> [] ->
  json_loads response_data
  = Return (Daemon.to_dict Daemon.AuthorizationFailed) ->
  join w = Raises (UnauthorizedRequestError
                     (Some (PyStr (str (Daemon.message Daemon.AuthorizationFailed))))).
Proof.
  intros Hreq Hu Hd Hne Hj. unfold Client.join. rewrite Hreq, Hu.
  change (Daemon.status_code Daemon.AuthorizationFailed =? 401) with true.
  cbv iota. unfold decode_utf8. rewrite Hd. cbn [truthy].
  rewrite bool_decide_eq_false_2 by assumption. cbn [negb].
  rewrite Hj. cbn [bind].
  replace (getitem (Daemon.to_dict Daemon.AuthorizationFailed) (str "message"))
    with (Return (PyStr (str (Daemon.message Daemon.AuthorizationFailed))))
    by (vm_compute; reflexivity).
  reflexivity.
Qed.

End Join.

Section Wire.

Variable json_loads : list byte -> option pyval.
Variable keystone : pyval -> pyval -> Daemon.keystone_outcome.

(** X23. The request the client builds from four stored token fields is
    one the server takes to Keystone: its [API-VERSION] header is found
    under the name [API-Version] and parses to major version 1, its
    content type is JSON, and when the body parses to the object the
    client built, the answer of [POST /join] is made from Keystone's
    answer for the token's credential id and secret. *)
Theorem client_request_reaches_keystone (client server : world)
    (hostname fingerprint credential_id credential_secret : pystr)
    (sent : list byte) :
  config_get client (key "config.cluster.hostname") = PyStr hostname ->
  config_get client (key "config.cluster.fingerprint") = PyStr fingerprint ->
  config_get client (key "config.cluster.credential-id") = PyStr credential_id ->
  config_get client (key "config.cluster.credential-secret")
  = PyStr credential_secret ->
  credential_id <> [] -> credential_secret <> [] ->
  exists req,
    request_of client = Return req
    /\ (json_loads sent = Some (body req) ->
        Daemon.post_join Semver.parse json_loads keystone server
          {| Daemon.headers := headers req; Daemon.data := sent |}
        = Daemon.dispatch
            (Daemon.authenticate keystone server
               (PyStr credential_id) (PyStr credential_secret))).
Proof.
  intros Hh Hf Hi Hs Ni Ns.
  rewrite (FlowFacts.request_of_fields _ _ _ _ _ Hh Hf Hi Hs).
  eexists. split; [reflexivity|]. cbn [body headers]. intros Hj.
  unfold Daemon.post_join, Daemon.join. cbn [Daemon.headers].
  replace (Daemon.headers_get "API-Version"
             [("API-VERSION", "1.0.0"); ("Content-Type", "application/json")])
    with (Some "1.0.0"%string) by (vm_compute; reflexivity).
  replace (Semver.parse "1.0.0") with (Some Daemon.API_VERSION)
    by (vm_compute; reflexivity).
  rewrite N.ltb_irrefl.
  unfold Daemon.join_same_major, Daemon.request_json.
  replace (Daemon.is_json _) with true by (vm_compute; reflexivity).
  cbn [Daemon.data]. rewrite Hj.
  replace (get (PyDict [(KStr (str "credential-id"), PyStr credential_id);
                        (KStr (str "credential-secret"), PyStr credential_secret)])
               (str "credential-id"))
    with (Return (PyStr credential_id)).
  2: { unfold get. cbn [dict_lookup].
       destruct (decide _) as [_|E]; [reflexivity|]. now destruct E. }
  replace (get (PyDict [(KStr (str "credential-id"), PyStr credential_id);
                        (KStr (str "credential-secret"), PyStr credential_secret)])
               (str "credential-secret"))
    with (Return (PyStr credential_secret)).
  2: { unfold get. cbn [dict_lookup].
       destruct (decide (KStr (str "credential-id") = KStr (str "credential-secret")))
         as [E|_]; [vm_compute in E; discriminate|].
       destruct (decide _) as [_|E]; [reflexivity|]. now destruct E. }
  cbn [bind truthy]. rewrite !bool_decide_eq_false_2 by assumption.
  reflexivity.
Qed.

End Wire.

End ClientExtras.

(** ** The default network and the passwords *)

Module InitShellExtras.
Import Py InitShell DotsFacts.

(** X24. The [cidr] of [default_network] is always made (the list
    assignment never fails): it is the gateway with its last label
    replaced by [0/] and the bits of the netmask; whatever the netmask,
    all that stands before the last dot of the gateway is kept. *)
Theorem default_network_cidr_keeps_prefix (gateway : pystr) (bits : N) :
  exists prefix last_label,
    gateway = prefix ++ last_label
    /\ ~ In 46 last_label
    /\ (prefix = [] \/ last prefix = Some 46)
    /\ default_network_cidr gateway bits
       = Some (prefix ++ str "0/" ++ format_int bits).
Proof.
  destruct (split_dots_last gateway) as (init & l & Hs & Hl & Hjoin & Hv & Hnil & Hdot).
  exists (join_dots (init ++ [[]])), l.
  split; [assumption|]. split; [assumption|]. split.
  { destruct init; [left; now apply Hnil|right; now apply Hdot]. }
  unfold default_network_cidr. rewrite Hs. unfold set_last.
  destruct (init ++ [l]) eqn:E; [destruct init; discriminate|].
  rewrite <- E. rewrite removelast_last. cbn [mbind option_bind].
  now rewrite Hv.
Qed.

End InitShellExtras.

Module CredentialsExtras.
Import Py Credentials.

Section GeneratePassword.

Variable randbelow : nat -> nat -> nat.

Lemma draws_spec (n i : nat) :
  (forall j k, (0 < k)%nat -> (randbelow j k < k)%nat) ->
  exists password,
    draws randbelow n i = Some password
    /\ length password = n
    /\ Forall (fun c => In c (ascii_letters ++ digits)) password.
Proof.
  intros Hr. revert i. induction n as [|n IH]; intros i.
  - exists []. split; [reflexivity|]. split; [reflexivity|constructor].
  - cbn [draws]. unfold choice.
    assert (Hk : (0 < length (ascii_letters ++ digits))%nat)
      by (vm_compute; lia).
    set (k := length (ascii_letters ++ digits)) in *.
    destruct (nth_error (ascii_letters ++ digits) (randbelow i k)) as [c|] eqn:Hc.
    + destruct (IH (S i)) as (s & Hs & Hlen & Hall). rewrite Hs.
      exists (c :: s). split; [reflexivity|].
      split; [cbn [length]; now rewrite Hlen|].
      constructor; [|assumption]. eapply nth_error_In. exact Hc.
    + apply nth_error_None in Hc. fold k in Hc.
      specialize (Hr i k Hk). lia.
Qed.

(** X25. With [randbelow] below its bound, [generate_password] gives a
    password of the length asked for, made of ASCII letters and digits
    only. *)
Theorem generate_password_alphanumeric (n : nat) :
  (forall j k, (0 < k)%nat -> (randbelow j k < k)%nat) ->
  exists password,
    generate_password randbelow n = Some password
    /\ length password = n
    /\ Forall (fun c => Clustering.is_lower c || Clustering.is_upper c
                        || Clustering.is_digit c = true) password.
Proof.
  intros Hr. destruct (draws_spec n 0 Hr) as (s & Hs & Hlen & Hall).
  exists s. split; [exact Hs|]. split; [exact Hlen|].
  eapply Forall_impl; [exact Hall|]. cbv beta. intros c Hin.
  assert (H : forallb (fun c => Clustering.is_lower c || Clustering.is_upper c
                                || Clustering.is_digit c)
                (ascii_letters ++ digits) = true) by (vm_compute; reflexivity).
  rewrite forallb_forall in H. now apply H.
Qed.

End GeneratePassword.

End CredentialsExtras.

(** ** The address questions *)

Module IpQuestionExtras.
Import Py Snap IpQuestions SnapFacts StoreFacts.

Section Questions.

Variable stored_as : pyval -> pyval.
Variable question_load : list pystr -> world -> result pyval.
Variable question_ask :
  list pystr -> (world -> result pyval) -> world -> result pyval * world.

(** X27. On a control node [ComputeIp.ask] asks nothing: it returns
    [None] and stores the control IP as the compute IP; the role, the
    control IP and every other key under [config.network] stay as they
    were, and so do the files.  [ControlIp.ask] on a compute node does
    nothing at all. *)
Theorem compute_ip_follows_control_ip (w : world) :
  (eq_str (config_get w role_key) "control" = true ->
   let w' := snd (compute_ip_ask stored_as question_load question_ask w) in
   fst (compute_ip_ask stored_as question_load question_ask w) = Return PyNone
   /\ config_get w' compute_ip_key = stored_as (config_get w control_ip_key)
   /\ config_get w' role_key = config_get w role_key
   /\ (forall name rest, name <> str "compute-ip" ->
         config_get w' ([str "config"; str "network"] ++ name :: rest)
         = config_get w ([str "config"; str "network"] ++ name :: rest))
   /\ files w' = files w)
  /\ (eq_str (config_get w role_key) "compute" = true ->
      control_ip_ask question_load question_ask w = (Return PyNone, w)).
Proof.
  split.
  - intros Hrole w'. subst w'. unfold compute_ip_ask. rewrite Hrole.
    cbn [fst snd]. unfold config_get, config_set.
    cbn [config files fold_left fst snd].
    split; [reflexivity|]. split; [apply tree_get_set|]. split; [|split].
    + change role_key with ([str "config"] ++ str "cluster" :: [str "role"]).
      change compute_ip_key
        with ([str "config"] ++ str "network" :: [str "compute-ip"]).
      apply tree_get_set_diverge. discriminate.
    + intros name rest Hne.
      change compute_ip_key
        with ([str "config"; str "network"] ++ str "compute-ip" :: []).
      now apply tree_get_set_diverge.
    + reflexivity.
  - intros Hrole. unfold control_ip_ask. now rewrite Hrole.
Qed.

(** X28. On a compute node [ComputeIp._load] never consults the stored
    answer: whatever [Question._load] would give, it returns the default
    source address when there is one and raises [AttributeError] when
    there is none (and only then), the base class having no method
    [load]. *)
Theorem compute_ip_load_ignores_stored_answer (w : world)
    (other_load : list pystr -> world -> result pyval) :
  eq_str (config_get w role_key) "compute" = true ->
  compute_ip_load question_load w = compute_ip_load other_load w
  /\ (compute_ip_load question_load w = raise AttributeError
      <-> truthy (default_source_address w) = false)
  /\ (truthy (default_source_address w) = true ->
      compute_ip_load question_load w = Return (default_source_address w)).
Proof.
  intros Hrole. unfold compute_ip_load. rewrite Hrole.
  destruct (truthy (default_source_address w)).
  - repeat split; try reflexivity; discriminate.
  - repeat split; try reflexivity; discriminate.
Qed.

End Questions.

End IpQuestionExtras.

(** ** The properties at sample inputs *)

Module ExtraWitnesses.
Import Py Snap MoreSamples Samples.

Lemma accepted_hostname_shape_witness :
  (1 <= length (str "control.example.com") <= 254)%nat
  /\ head (str "control.example.com") <> Some 46
  /\ head (str "control.example.com") <> Some 45
  /\ (exists c, In c (str "control.example.com")
                /\ Clustering.alpha_or_dash c = true)
  /\ (forall c, In c (str "control.example.com") ->
        Clustering.label_char c = true \/ c = 46 \/ c = 10).
Proof.
  apply (HostnameExtras.accepted_hostname_shape (str "control.example.com")).
  vm_compute. reflexivity.
Defined.

Lemma issued_token_is_accepted_witness :
  exists data token,
    Issuer.token_data (PyStr (str "10.0.0.1")) (PyStr (Codec.hex (repeat x01 32)))
      {| Issuer.cred_id := PyStr (repeat 97 32);
         Issuer.cred_secret := PyStr (repeat 98 32) |}
    = Return data
    /\ Issuer.connection_string data = Return token
    /\ Clustering._validate sample_ipv4 sample_ipv6 token = Clustering.accept token data.
Proof.
  apply (FlowExtras.issued_token_is_accepted sample_ipv4 sample_ipv6
           (str "10.0.0.1") (repeat x01 32) (repeat 97 32) (repeat 98 32));
    try reflexivity;
    try (repeat (constructor; [left; reflexivity|]); constructor).
Defined.

Lemma after_stores_the_token_witness :
  exists w',
    Init.after (fun v => v) issued_data compute_node = Return w'
    /\ config_get w' (key "config.cluster.hostname") = PyStr (str "10.0.0.1")
    /\ config_get w' (key "config.cluster.fingerprint")
       = PyStr (Codec.hex (repeat x01 32))
    /\ config_get w' (key "config.cluster.credential-id") = PyStr (repeat 97 32)
    /\ config_get w' (key "config.cluster.credential-secret") = PyStr (repeat 98 32)
    /\ config_get w' (key "config.cluster.role")
       = config_get compute_node (key "config.cluster.role")
    /\ files w' = files compute_node.
Proof.
  apply (FlowExtras.after_stores_the_token (fun v => v) issued_data
           (PyStr (str "10.0.0.1")) (PyStr (repeat 97 32)) (PyStr (repeat 98 32))
           (repeat x01 32) compute_node);
    vm_compute; reflexivity.
Defined.

Lemma ask_returns_a_validated_answer_witness :
  exists j conn_info,
    (0 <= j < 0 + 3)%nat
    /\ Init.answer_at (fun _ => Some issued_token) None j = Some issued_token
    /\ Clustering._validate sample_ipv4 sample_ipv6 issued_token
       = Clustering.accept issued_token conn_info
    /\ Init.after (fun v => v) conn_info
         (Init._save (fun v => v) issued_token compute_node)
       = Return (snd (Init.ask_loop sample_ipv4 sample_ipv6 (fun v => v)
                        (fun _ => Some issued_token) 3 0 None compute_node))
    /\ length (@nil Init.event) = (j - 0)%nat
    /\ (forall k, (0 <= k < j)%nat ->
          exists a m, Init.answer_at (fun _ => Some issued_token) None k = Some a
                      /\ Clustering._validate sample_ipv4 sample_ipv6 a
                         = Clustering.reject a m).
Proof.
  apply (FlowExtras.ask_returns_a_validated_answer sample_ipv4 sample_ipv6
           (fun v => v) (fun _ => Some issued_token) 3 0 None compute_node
           (snd (Init.ask_loop sample_ipv4 sample_ipv6 (fun v => v)
                   (fun _ => Some issued_token) 3 0 None compute_node))
           issued_token []).
  vm_compute. reflexivity.
Defined.

Lemma accepted_token_is_what_join_pins_witness :
  exists r w',
    Init.connect sample_ipv4 sample_ipv6 (fun v => v)
      (fun _ => Client.MaxRetryError Client.SSLError)
      (fun _ => raise ValueError) (fun _ => None) (fun _ => Some issued_token)
      compute_node
    = (r, [Init.Network joining_request], w').
Proof.
  apply (FlowExtras.accepted_token_is_what_join_pins sample_ipv4 sample_ipv6
           (fun v => v) (fun _ => Client.MaxRetryError Client.SSLError)
           (fun _ => raise ValueError) (fun _ => None)
           (fun _ => Some issued_token)
           compute_node issued_token issued_data
           (str "10.0.0.1") (repeat x01 32) (repeat 97 32) (repeat 98 32));
    try (intros; reflexivity); vm_compute; reflexivity.
Defined.

Lemma generate_selfsigned_fresh_witness :
  fst (sample_generate {| ClusterTls.entropy := 1;
                          ClusterTls.random_serial_number := 2;
                          ClusterTls.utcnow := 3 |} unprovisioned_node)
  = Return PyNone
  /\ files (snd (sample_generate {| ClusterTls.entropy := 1;
                                    ClusterTls.random_serial_number := 2;
                                    ClusterTls.utcnow := 3 |} unprovisioned_node))
     !! str "/key.pem" = Some (Bytes.be_encode 4 1)
  /\ (str "/cert.pem" <> str "/key.pem" ->
      files (snd (sample_generate {| ClusterTls.entropy := 1;
                                     ClusterTls.random_serial_number := 2;
                                     ClusterTls.utcnow := 3 |} unprovisioned_node))
      !! str "/cert.pem" = Some (Bytes.be_encode 4 (2 + 1)))
  /\ config_get (snd (sample_generate {| ClusterTls.entropy := 1;
                                         ClusterTls.random_serial_number := 2;
                                         ClusterTls.utcnow := 3 |}
                        unprovisioned_node))
       (key "config.cluster.fingerprint")
     = PyStr (Codec.hex (Bytes.be_encode 4 (2 + 1) ++ repeat x00 28))
  /\ (forall p, p <> str "/cert.pem" -> p <> str "/key.pem" ->
        files (snd (sample_generate {| ClusterTls.entropy := 1;
                                       ClusterTls.random_serial_number := 2;
                                       ClusterTls.utcnow := 3 |}
                      unprovisioned_node)) !! p
        = files unprovisioned_node !! p)
  /\ (forall name rest, name <> str "fingerprint" ->
        config_get (snd (sample_generate {| ClusterTls.entropy := 1;
                                            ClusterTls.random_serial_number := 2;
                                            ClusterTls.utcnow := 3 |}
                           unprovisioned_node))
          ([str "config"; str "cluster"] ++ name :: rest)
        = config_get unprovisioned_node
            ([str "config"; str "cluster"] ++ name :: rest)).
Proof.
  apply (TlsExtras.generate_selfsigned_fresh (fun v => v) N (list byte)
           (fun _ _ entropy => entropy)
           (fun fields k => Bytes.be_encode 4 (ClusterTls.serial_number fields + k))
           (fun cert => cert ++ repeat x00 28)
           (fun cert => cert)
           (fun k => Bytes.be_encode 4 k)
           {| ClusterTls.entropy := 1; ClusterTls.random_serial_number := 2;
              ClusterTls.utcnow := 3 |}
           unprovisioned_node (str "/cert.pem") (str "/key.pem"));
    vm_compute; reflexivity.
Defined.

Lemma add_compute_returns_only_issued_witness :
  config_get control_node (key "config.cluster.role") = PyStr (str "control")
  /\ exists cred fingerprint_hex fingerprint,
       issuing_keystone
         (config_get control_node (key "config.credentials.nova-password"))
         {| Issuer.expires_at := 0 + 1200;
            Issuer.access_rules := [("GET", "/v3/auth/catalog", "identity")];
            Issuer.unrestricted := false;
            Issuer.secret := firstn 32 (repeat 98 43) |}
       = Return cred
       /\ config_get control_node (key "config.cluster.fingerprint")
          = PyStr fingerprint_hex
       /\ Codec.fromhex_str fingerprint_hex = Some fingerprint
       /\ Issuer.connection_string
            (PyDict [(KStr (str "hostname"),
                      config_get control_node (key "config.network.control-ip"));
                     (KStr (str "fingerprint"), PyBytes fingerprint);
                     (KStr (str "id"), Issuer.cred_id cred);
                     (KStr (str "secret"), Issuer.cred_secret cred)])
          = Return issued_token.
Proof.
  apply (IssuerExtras.add_compute_returns_only_issued issuing_keystone 0
           (repeat 98 43) control_node issued_token).
  vm_compute. reflexivity.
Defined.

Lemma issued_secret_passes_validation_witness :
  exists data s,
    Issuer.connection_string data = Return issued_token
    /\ get data (str "secret") = Return (PyStr s)
    /\ length s = 32%nat
    /\ Clustering._validate_credential_secret (PyStr s) = Return tt.
Proof.
  apply (IssuerExtras.issued_secret_passes_validation issuing_keystone 0
           (repeat 98 43) control_node issued_token).
  - cbn. lia.
  - intros password r cred H. unfold issuing_keystone in H.
    apply MsgpackFacts.Return_inj in H. subst cred. reflexivity.
  - vm_compute. reflexivity.
Defined.

Lemma add_compute_needs_hex_fingerprint_witness :
  ((forall s, config_get control_node_without_fingerprint
                (key "config.cluster.fingerprint") <> PyStr s) ->
   Issuer.add_compute issuing_keystone 0 (repeat 98 43)
     control_node_without_fingerprint = raise TypeError)
  /\ (forall s, config_get control_node_without_fingerprint
                  (key "config.cluster.fingerprint") = PyStr s ->
        Codec.fromhex_str s = None ->
        Issuer.add_compute issuing_keystone 0 (repeat 98 43)
          control_node_without_fingerprint = raise ValueError).
Proof.
  apply (IssuerExtras.add_compute_needs_hex_fingerprint issuing_keystone 0
           (repeat 98 43) control_node_without_fingerprint
           {| Issuer.cred_id := PyStr (repeat 97 32);
              Issuer.cred_secret := PyStr (firstn 32 (repeat 98 43)) |});
    vm_compute; reflexivity.
Defined.

Lemma declared_json_bodies_witness :
  ((fun _ : list byte => @None pyval) (Daemon.data empty_object_request) = None ->
   Daemon.post_join Semver.parse (fun _ => None)
     (fun _ _ => Daemon.CatalogListed) control_node empty_object_request
   = Daemon._handle_api_version_exception Daemon.InvalidJSONInRequest)
  /\ ((fun _ : list byte => @None pyval) (Daemon.data empty_object_request)
      = Some PyNone ->
      Daemon.post_join Semver.parse (fun _ => None)
        (fun _ _ => Daemon.CatalogListed) control_node empty_object_request
      = Daemon._handle_api_version_exception Daemon.IncorrectContentType)
  /\ (forall req_json,
        (fun _ : list byte => @None pyval) (Daemon.data empty_object_request)
        = Some req_json ->
        req_json <> PyNone -> (forall d, req_json <> PyDict d) ->
        Daemon.post_join Semver.parse (fun _ => None)
          (fun _ _ => Daemon.CatalogListed) control_node empty_object_request
        = Daemon.internal_server_error).
Proof.
  apply (DaemonExtras.declared_json_bodies Semver.parse
           (fun _ => None) (fun _ _ => Daemon.CatalogListed)
           control_node empty_object_request "1.0.0" Daemon.API_VERSION);
    vm_compute; reflexivity.
Defined.


Lemma unauthorized_only_on_401_witness :
  exists req data response_data,
    Client.request_of joining_node = Return req
    /\ (fun _ => Client.Response 401 []) req = Client.Response 401 data
    /\ Codec.decode_utf8 data = Some response_data
    /\ ((response_data = [] /\ @None pyval = None)
        \/ (response_data <> []
            /\ exists d message,
                 (fun _ : pystr => Return join_response) response_data = Return d
                 /\ getitem d (str "message") = Return message
                 /\ None = Some message)).
Proof.
  apply (ClientExtras.unauthorized_only_on_401 (fun v => v)
           (fun _ => Client.Response 401 [])
           (fun _ => Return join_response) joining_node None).
  vm_compute. reflexivity.
Defined.

Lemma server_errors_are_unexpected_status_witness :
  Client.join (fun v => v)
    (fun _ => Client.Response (Daemon.status_code Daemon.APIVersionDropped) [])
    (fun _ => Return join_response) joining_node
  = Client.Raises (Client.PlainException Client.unexpected_status_message
                     (Some (Daemon.status_code Daemon.APIVersionDropped))
                     Client.NoCause).
Proof.
  apply (ClientExtras.server_errors_are_unexpected_status (fun v => v)
           (fun _ => Client.Response (Daemon.status_code Daemon.APIVersionDropped) [])
           (fun _ => Return join_response) joining_node joining_request
           Daemon.APIVersionDropped []).
  - discriminate.
  - vm_compute. reflexivity.
  - reflexivity.
Defined.

Lemma server_401_message_is_raised_witness :
  Client.join (fun v => v)
    (fun _ => Client.Response (Daemon.status_code Daemon.AuthorizationFailed)
                [x7b; x7d])
    (fun _ => Return (Daemon.to_dict Daemon.AuthorizationFailed)) joining_node
  = Client.Raises
      (Client.UnauthorizedRequestError
         (Some (PyStr (str (Daemon.message Daemon.AuthorizationFailed))))).
Proof.
  apply (ClientExtras.server_401_message_is_raised (fun v => v)
           (fun _ => Client.Response
                       (Daemon.status_code Daemon.AuthorizationFailed) [x7b; x7d])
           (fun _ => Return (Daemon.to_dict Daemon.AuthorizationFailed))
           joining_node joining_request [x7b; x7d] [123; 125]).
  - vm_compute. reflexivity.
  - reflexivity.
  - vm_compute. reflexivity.
  - discriminate.
  - reflexivity.
Defined.

Lemma client_request_reaches_keystone_witness :
  exists req,
    Client.request_of joining_node = Return req
    /\ ((fun _ : list byte => Some (Client.body joining_request)) [x7b; x7d]
        = Some (Client.body req) ->
        Daemon.post_join Semver.parse
          (fun _ => Some (Client.body joining_request))
          (fun _ _ => Daemon.CatalogListed) control_node
          {| Daemon.headers := Client.headers req; Daemon.data := [x7b; x7d] |}
        = Daemon.dispatch
            (Daemon.authenticate (fun _ _ => Daemon.CatalogListed) control_node
               (PyStr (repeat 97 32)) (PyStr (repeat 98 32)))).
Proof.
  apply (ClientExtras.client_request_reaches_keystone
           (fun _ => Some (Client.body joining_request))
           (fun _ _ => Daemon.CatalogListed) joining_node control_node
           (str "10.0.0.1") (Codec.hex (repeat x01 32))
           (repeat 97 32) (repeat 98 32) [x7b; x7d]);
    try discriminate; vm_compute; reflexivity.
Defined.

Lemma provisioned_fingerprint_is_issued_witness :
  Issuer.add_compute issuing_keystone 0 (repeat 98 43)
    (snd (sample_generate {| ClusterTls.entropy := 1;
                             ClusterTls.random_serial_number := 2;
                             ClusterTls.utcnow := 3 |} fresh_control_node))
  = Issuer.connection_string
      (PyDict [(KStr (str "hostname"),
                config_get fresh_control_node (key "config.network.control-ip"));
               (KStr (str "fingerprint"),
                PyBytes (Bytes.be_encode 4 (2 + 1) ++ repeat x00 28));
               (KStr (str "id"), PyStr (repeat 97 32));
               (KStr (str "secret"), PyStr (firstn 32 (repeat 98 43)))]).
Proof.
  apply (ProvisionExtras.provisioned_fingerprint_is_issued (fun v => v) N (list byte)
           (fun _ _ entropy => entropy)
           (fun fields k => Bytes.be_encode 4 (ClusterTls.serial_number fields + k))
           (fun cert => cert ++ repeat x00 28)
           (fun cert => cert)
           (fun k => Bytes.be_encode 4 k)
           issuing_keystone 0 (repeat 98 43)
           {| ClusterTls.entropy := 1; ClusterTls.random_serial_number := 2;
              ClusterTls.utcnow := 3 |}
           fresh_control_node (str "/cert.pem") (str "/key.pem")
           {| Issuer.cred_id := PyStr (repeat 97 32);
              Issuer.cred_secret := PyStr (firstn 32 (repeat 98 43)) |});
    try (intros; reflexivity); vm_compute; reflexivity.
Defined.

Lemma generate_password_alphanumeric_witness :
  exists password,
    Credentials.generate_password (fun j k => (j mod k)%nat) 32 = Some password
    /\ length password = 32%nat
    /\ Forall (fun c => Clustering.is_lower c || Clustering.is_upper c
                        || Clustering.is_digit c = true) password.
Proof.
  apply (CredentialsExtras.generate_password_alphanumeric
           (fun j k => (j mod k)%nat) 32).
  intros j k Hk. apply Nat.mod_upper_bound. lia.
Defined.

Lemma compute_ip_load_ignores_stored_answer_witness :
  IpQuestions.compute_ip_load (fun _ _ => Return (PyStr (str "10.0.0.2"))) compute_node
  = IpQuestions.compute_ip_load (fun _ _ => raise KeyError) compute_node
  /\ (IpQuestions.compute_ip_load (fun _ _ => Return (PyStr (str "10.0.0.2")))
        compute_node = raise AttributeError
      <-> truthy (IpQuestions.default_source_address compute_node) = false)
  /\ (truthy (IpQuestions.default_source_address compute_node) = true ->
      IpQuestions.compute_ip_load (fun _ _ => Return (PyStr (str "10.0.0.2")))
        compute_node
      = Return (IpQuestions.default_source_address compute_node)).
Proof.
  apply (IpQuestionExtras.compute_ip_load_ignores_stored_answer
           (fun _ _ => Return (PyStr (str "10.0.0.2"))) compute_node
           (fun _ _ => raise KeyError)).
  vm_compute. reflexivity.
Defined.

End ExtraWitnesses.
